(** * Task manager CLI: a shallow embedding of [models.py] and [app.py]

    The development follows the two source files of the repository.

    - [Py] models the part of the Python runtime the program leans on:
      dynamically typed JSON-shaped values, exceptions, naive [datetime]
      values with [isoformat] / [fromisoformat], [int(str)], [str.strip],
      binary64 arithmetic for the one float computation, and a world that
      holds the file system, standard input and output, the clocks, the
      run flags of application objects and the monitor threads.  Text is
      modelled for ASCII strings and timestamps for the forms listed at
      [parse_iso]; the properties that depend on either say so in their
      hypotheses.
    - [Models] is [models.py]: [Task] and [TaskManager].
    - [App] is [app.py]: [TimeoutManager] and [TaskManagerApp].

    [Props] holds the vocabulary of the properties and the inputs of the
    examples; the lemmas and theorems come last. *)

From Stdlib Require Import ZArith QArith Qround Qpower String Ascii List Lia Lqa.
From stdpp Require Import base option list gmap strings fin_maps pretty.

Local Open Scope string_scope.
Local Open Scope Z_scope.

(* ===================================================================== *)
(** * The Python runtime, as far as the program uses it *)
(* ===================================================================== *)

Module Py.

(** ** Values

    What [json.load] can return and [json.dump] can write: [None], [bool],
    [int], [str], [list] and [dict] with string keys.  JSON numbers with a
    fraction or an exponent (Python [float]) are left out. *)

#[warnings="-register-all"] Inductive pyval : Type :=
| PNone
| PBool (b : bool)
| PInt (z : Z)
| PStr (s : string)
| PList (l : list pyval)
| PDict (d : gmap string pyval).

(** Truth value testing, as in [if v:] and [v or w]. *)
Definition truthy (v : pyval) : bool :=
  match v with
  | PNone => false
  | PBool b => b
  | PInt z => negb (z =? 0)
  | PStr s => negb (Nat.eqb (String.length s) 0)
  | PList l => negb (Nat.eqb (length l) 0)
  | PDict d => negb (Nat.eqb (size d) 0)
  end.

(** ** Exceptions

    Every one of them is a subclass of [Exception], so [except Exception]
    catches each. *)

Inductive exn : Type :=
| KeyError (key : string)
| AttributeError
| TypeError
| ValueError
| JSONDecodeError
| OSError
| IndexError
| EOFError.

(** ** Naive [datetime] values *)

Record datetime : Type := mkDatetime {
  year : N; month : N; day : N;
  hour : N; minute : N; second : N; microsecond : N
}.

Definition is_leap (y : N) : bool :=
  ((y mod 4 =? 0) && negb (y mod 100 =? 0) || (y mod 400 =? 0))%N.

Definition days_in_month (y m : N) : N :=
  match m with
  | 1 | 3 | 5 | 7 | 8 | 10 | 12 => 31
  | 4 | 6 | 9 | 11 => 30
  | 2 => if is_leap y then 29 else 28
  | _ => 0
  end%N.

(** The range checks of the [datetime] constructor ([MINYEAR] = 1,
    [MAXYEAR] = 9999). *)
Definition valid_datetime (d : datetime) : bool :=
  ((1 <=? year d) && (year d <=? 9999) &&
   (1 <=? month d) && (month d <=? 12) &&
   (1 <=? day d) && (day d <=? days_in_month (year d) (month d)) &&
   (hour d <? 24) && (minute d <? 60) && (second d <? 60) &&
   (microsecond d <? 1000000))%N.

Definition digit_char (n : N) : ascii := ascii_of_N (48 + n).

(** [pad w n] is ["%0wd" % n] for [n < 10^w]: the last [w] decimal digits. *)
Fixpoint pad (w : nat) (n : N) : list ascii :=
  match w with
  | O => []
  | S w' => pad w' (n / 10)%N ++ [digit_char (n mod 10)%N]
  end.

Definition digit_val (c : ascii) : option N :=
  let n := N_of_ascii c in
  if ((48 <=? n) && (n <=? 57))%N then Some (n - 48)%N else None.

Fixpoint parse_digits_from (acc : N) (l : list ascii) : option N :=
  match l with
  | [] => Some acc
  | c :: l' =>
      match digit_val c with
      | Some d => parse_digits_from (10 * acc + d)%N l'
      | None => None
      end
  end.

Definition parse_digits (l : list ascii) : option N := parse_digits_from 0%N l.

Definition iso_chars (d : datetime) : list ascii :=
  pad 4 (year d) ++ ["-"%char] ++ pad 2 (month d) ++ ["-"%char] ++ pad 2 (day d)
  ++ ["T"%char]
  ++ pad 2 (hour d) ++ [":"%char] ++ pad 2 (minute d) ++ [":"%char] ++ pad 2 (second d)
  ++ (if (microsecond d =? 0)%N then [] else ["."%char] ++ pad 6 (microsecond d)).

(** [datetime.isoformat()]: [YYYY-MM-DDTHH:MM:SS], followed by [.ffffff]
    when the microsecond field is not zero. *)
Definition isoformat (d : datetime) : string := string_of_list_ascii (iso_chars d).

Definition is_colon (c : ascii) : bool := Ascii.eqb c ":"%char.
Definition is_dash (c : ascii) : bool := Ascii.eqb c "-"%char.
Definition is_dot (c : ascii) : bool := Ascii.eqb c "."%char.

(** The fraction after the seconds: three digits are milliseconds, six
    digits microseconds, nothing else is accepted. *)
Definition parse_fraction (l : list ascii) : option N :=
  match l with
  | [_; _; _] => n ← parse_digits l; Some (n * 1000)%N
  | [_; _; _; _; _; _] => parse_digits l
  | _ => None
  end.

(** [HH[:MM[:SS[.fff[fff]]]]] *)
Definition parse_time (l : list ascii) : option (N * N * N * N) :=
  match l with
  | h1 :: h2 :: rest =>
      h ← parse_digits [h1; h2];
      match rest with
      | [] => Some (h, 0, 0, 0)%N
      | c1 :: m1 :: m2 :: rest =>
          if is_colon c1 then
            m ← parse_digits [m1; m2];
            match rest with
            | [] => Some (h, m, 0, 0)%N
            | c2 :: s1 :: s2 :: rest =>
                if is_colon c2 then
                  s ← parse_digits [s1; s2];
                  match rest with
                  | [] => Some (h, m, s, 0)%N
                  | c3 :: frac =>
                      if is_dot c3 then us ← parse_fraction frac; Some (h, m, s, us)
                      else None
                  end
                else None
            | _ => None
            end
          else None
      | _ => None
      end
  | _ => None
  end.

(** [YYYY-MM-DD[*HH[:MM[:SS[.fff[fff]]]]]] with any one character as the
    separator [*]; the fields then pass the constructor's range checks.
    Strings that carry a UTC offset denote aware values and are not
    covered: the model has naive values only. *)
Definition parse_iso (l : list ascii) : option datetime :=
  match l with
  | y1 :: y2 :: y3 :: y4 :: d1 :: m1 :: m2 :: d2 :: a1 :: a2 :: rest =>
      if is_dash d1 && is_dash d2 then
        y ← parse_digits [y1; y2; y3; y4];
        m ← parse_digits [m1; m2];
        d ← parse_digits [a1; a2];
        t ← match rest with
            | [] => Some (0, 0, 0, 0)%N
            | _ :: tl => parse_time tl
            end;
        let '(h, mi, s, us) := t in
        let r := mkDatetime y m d h mi s us in
        if valid_datetime r then Some r else None
      else None
  | _ => None
  end.

(** [datetime.fromisoformat(s)] on the forms above.  Python accepts more
    (UTC offsets everywhere; from 3.11 on also [Z], fractions of any
    length and the basic and week formats), so [None] need not mean
    [ValueError]; it does for the strings that do not begin with a year,
    see [begins_with_year]. *)
Definition fromisoformat (s : string) : option datetime :=
  parse_iso (list_ascii_of_string s).

(** Every version of [datetime.fromisoformat] reads four decimal digits
    first, the year, and raises [ValueError] when they are not there. *)
Definition begins_with_year (s : string) : bool :=
  match list_ascii_of_string s with
  | y1 :: y2 :: y3 :: y4 :: _ =>
      bool_decide (is_Some (parse_digits [y1; y2; y3; y4]))
  | _ => false
  end.

(** The timestamp strings on which [fromisoformat] above and Python's
    agree: those it reads, and those that do not begin with a year. *)
Definition iso_modelled (s : string) : bool :=
  bool_decide (is_Some (fromisoformat s)) || negb (begins_with_year s).

(** ** [str] methods and [int(str)], on ASCII text *)

(** [s.isascii()] *)
Definition isascii (s : string) : bool :=
  forallb (fun c => (N_of_ascii c <? 128)%N) (list_ascii_of_string s).

(** [str.isspace] on one ASCII character: TAB, LF, VT, FF, CR, the four
    separators 0x1c-0x1f, and the space. *)
Definition is_space (c : ascii) : bool :=
  let n := N_of_ascii c in
  ((9 <=? n) && (n <=? 13) || (28 <=? n) && (n <=? 32))%N.

Fixpoint lstrip_chars (l : list ascii) : list ascii :=
  match l with
  | c :: l' => if is_space c then lstrip_chars l' else l
  | [] => []
  end.

Definition strip_chars (l : list ascii) : list ascii :=
  rev (lstrip_chars (rev (lstrip_chars l))).

(** [s.strip()] for an ASCII string ([str.strip] also removes the
    whitespace characters beyond ASCII). *)
Definition strip (s : string) : string :=
  string_of_list_ascii (strip_chars (list_ascii_of_string s)).

Definition lower_char (c : ascii) : ascii :=
  let n := N_of_ascii c in
  if ((65 <=? n) && (n <=? 90))%N then ascii_of_N (n + 32) else c.

(** [s.lower()] for an ASCII string. *)
Definition lower (s : string) : string :=
  string_of_list_ascii (map lower_char (list_ascii_of_string s)).

(** Decimal digits in which single underscores may separate digits;
    [prev] tells whether the previous character was a digit. *)
Fixpoint int_digits (acc : Z) (prev : bool) (l : list ascii) : option Z :=
  match l with
  | [] => if prev then Some acc else None
  | c :: l' =>
      if Ascii.eqb c "_"%char then
        if prev then int_digits acc false l' else None
      else
        match digit_val c with
        | Some d => int_digits (10 * acc + Z.of_N d) true l'
        | None => None
        end
  end.

Definition int_chars (l : list ascii) : option Z :=
  match l with
  | c :: l' =>
      if Ascii.eqb c "-"%char then Z.opp <$> int_digits 0 false l'
      else if Ascii.eqb c "+"%char then int_digits 0 false l'
      else int_digits 0 false l
  | [] => None
  end.

(** The whitespace [int] skips at both ends of an ASCII string, C's
    [isspace]: TAB, LF, VT, FF, CR and the space.  The separators
    0x1c-0x1f, which [str.strip] removes, are no whitespace for [int]. *)
Definition is_c_space (c : ascii) : bool :=
  let n := N_of_ascii c in
  ((9 <=? n) && (n <=? 13) || (n =? 32))%N.

Fixpoint skip_c_space (l : list ascii) : list ascii :=
  match l with
  | c :: l' => if is_c_space c then skip_c_space l' else l
  | [] => []
  end.

(** [int(s)] in base ten for an ASCII string of at most 4300 characters:
    surrounding whitespace is dropped, a sign may lead; [None] stands for
    [ValueError].  Longer strings can exceed the digit limit of Python
    3.11, and a string with other characters is first translated
    (Unicode spaces and digits); neither is modelled. *)
Definition py_int (s : string) : option Z :=
  int_chars (rev (skip_c_space (rev (skip_c_space (list_ascii_of_string s))))).

(** The lines on which [py_int] and [int] agree. *)
Definition plain_line (s : string) : bool :=
  isascii s && (String.length s <=? 4300)%nat.

(** The newline character, ["\n"] in the source. *)
Definition nl : string := String (ascii_of_N 10) EmptyString.

(** [s * n] *)
Fixpoint str_mul (s : string) (n : nat) : string :=
  match n with
  | O => EmptyString
  | S n' => s +:+ str_mul s n'
  end.

(** ** The world around the program *)

(** What a path of the file system holds: a regular file whose text is a
    JSON document denoting [v], a regular file whose text [json.load]
    rejects, or a directory (which [open] refuses to open). *)
Inductive fnode : Type :=
| FJson (v : pyval)
| FGarbage
| FDir.

(** Pieces of a formatted string.  [Val v] is [str(v)] of a value held by
    a task and [Strftime fmt d] is [d.strftime(fmt)]; both are kept symbolic. *)
Inductive frag : Type :=
| Lit (s : string)
| Val (v : pyval)
| Strftime (fmt : string) (d : datetime).

(** What the program writes to standard output: [print] of a formatted
    string, [print(f"{pfx}{e}")] for a caught exception [e], and the
    prompt of [input]. *)
Inductive event : Type :=
| Out (l : list frag)
| OutExn (pfx : string) (e : exn)
| Ask (s : string).

(** Program points of a thread whose target is
    [TimeoutManager._timeout_monitor], the only target the program ever
    starts: at the [while] test, inside [time.sleep(1)], or returned. *)
Inductive thread_pc : Type :=
| AtLoopTest
| Sleeping
| Finished.

Record world : Type := mkWorld {
  fs : gmap string fnode;          (* the files, by path *)
  stdout : list event;             (* everything written so far, oldest first *)
  stdin : list string;             (* the lines [input] is still to return *)
  ticks : nat;                     (* how many times a clock was read *)
  time_at : nat -> Q;              (* [time.time()] at the n-th clock read *)
  datetime_at : nat -> datetime;   (* [datetime.now()] at the n-th clock read *)
  running_of : gmap nat bool;      (* the [running] attribute of each app object *)
  threads : list thread_pc;        (* the threads started so far, by index *)
  writable : string -> bool        (* whether the system lets [open(path, 'w')]
                                      succeed: the path is not empty, its
                                      directory exists, permissions allow it *)
}.

Definition set_fs (f : gmap string fnode) (w : world) : world :=
  mkWorld f (stdout w) (stdin w) (ticks w) (time_at w) (datetime_at w)
          (running_of w) (threads w) (writable w).
Definition set_stdout (o : list event) (w : world) : world :=
  mkWorld (fs w) o (stdin w) (ticks w) (time_at w) (datetime_at w)
          (running_of w) (threads w) (writable w).
Definition set_stdin (i : list string) (w : world) : world :=
  mkWorld (fs w) (stdout w) i (ticks w) (time_at w) (datetime_at w)
          (running_of w) (threads w) (writable w).
Definition set_ticks (n : nat) (w : world) : world :=
  mkWorld (fs w) (stdout w) (stdin w) n (time_at w) (datetime_at w)
          (running_of w) (threads w) (writable w).
Definition set_running_of (r : gmap nat bool) (w : world) : world :=
  mkWorld (fs w) (stdout w) (stdin w) (ticks w) (time_at w) (datetime_at w)
          r (threads w) (writable w).
Definition set_threads (t : list thread_pc) (w : world) : world :=
  mkWorld (fs w) (stdout w) (stdin w) (ticks w) (time_at w) (datetime_at w)
          (running_of w) t (writable w).

(** ** Computations: state passing with exceptions

    A computation takes the world and gives the world back together with
    a value or a raised exception.  What a computation did to the world
    before it raised stays done. *)

Inductive result (A : Type) : Type :=
| Ok (a : A)
| Raise (e : exn).
Arguments Ok {A} a.
Arguments Raise {A} e.

Definition M (A : Type) : Type := world -> result A * world.

#[global] Instance M_ret : MRet M := fun A a w => (Ok a, w).
#[global] Instance M_bind : MBind M := fun A B f m w =>
  match m w with
  | (Ok a, w') => f a w'
  | (Raise e, w') => (Raise e, w')
  end.

Definition raise {A : Type} (e : exn) : M A := fun w => (Raise e, w).

(** [try: body except <class> as e: handler e], where [catches] tells
    which exceptions are instances of the class. *)
Definition try_catch {A : Type} (catches : exn -> bool)
    (body : M A) (handler : exn -> M A) : M A :=
  fun w =>
    match body w with
    | (Ok a, w') => (Ok a, w')
    | (Raise e, w') => if catches e then handler e w' else (Raise e, w')
    end.

(** [except Exception]: every exception of the model. *)
Definition try_except {A : Type} (body : M A) (handler : exn -> M A) : M A :=
  try_catch (fun _ => true) body handler.

(** [except ValueError]; [json.JSONDecodeError] is a subclass of it. *)
Definition is_ValueError (e : exn) : bool :=
  match e with
  | ValueError | JSONDecodeError => true
  | _ => false
  end.

(** [[f(x) for x in l]], left to right. *)
Fixpoint mapM {A B : Type} (f : A -> M B) (l : list A) : M (list B) :=
  match l with
  | [] => mret []
  | x :: l' => y ← f x; ys ← mapM f l'; mret (y :: ys)
  end.

(** [for x in l: f(x)] *)
Fixpoint forM_ {A : Type} (f : A -> M unit) (l : list A) : M unit :=
  match l with
  | [] => mret tt
  | x :: l' => f x;; forM_ f l'
  end.

(** ** Built-ins *)

(** [print(...)] *)
Definition print (l : list frag) : M unit :=
  fun w => (Ok tt, set_stdout (stdout w ++ [Out l]) w).

(** [print(f"{pfx}{e}")] *)
Definition print_exn (pfx : string) (e : exn) : M unit :=
  fun w => (Ok tt, set_stdout (stdout w ++ [OutExn pfx e]) w).

(** [input(prompt)]: writes the prompt, then returns the next line, or
    raises [EOFError] at the end of the input. *)
Definition input (prompt : string) : M string :=
  fun w =>
    let w1 := set_stdout (stdout w ++ [Ask prompt]) w in
    match stdin w1 with
    | line :: rest => (Ok line, set_stdin rest w1)
    | [] => (Raise EOFError, w1)
    end.

(** [time.time()] *)
Definition time_time : M Q :=
  fun w => (Ok (time_at w (ticks w)), set_ticks (S (ticks w)) w).

(** [datetime.now()] *)
Definition datetime_now : M datetime :=
  fun w => (Ok (datetime_at w (ticks w)), set_ticks (S (ticks w)) w).

(** [os.path.exists(path)] *)
Definition os_path_exists (path : string) : M bool :=
  fun w => (Ok (bool_decide (is_Some (fs w !! path))), w).

(** [with open(path, 'r') as f: json.load(f)] *)
Definition json_load_file (path : string) : M pyval :=
  fun w =>
    match fs w !! path with
    | Some (FJson v) => (Ok v, w)
    | Some FGarbage => (Raise JSONDecodeError, w)
    | Some FDir => (Raise OSError, w)
    | None => (Raise OSError, w)
    end.

(** Whether [open(path, 'w')] succeeds: the path is no directory and the
    system lets the process write there. *)
Definition can_open_for_writing (path : string) (w : world) : bool :=
  match fs w !! path with
  | Some FDir => false
  | _ => writable w path
  end.

(** [with open(path, 'w') as f: json.dump(v, f, indent=2)]: [open] raises
    an [OSError] ([IsADirectoryError], [FileNotFoundError],
    [PermissionError]) or the file is replaced as a whole.  Every [pyval]
    is serialisable. *)
Definition json_dump_file (path : string) (v : pyval) : M unit :=
  fun w =>
    if can_open_for_writing path w
    then (Ok tt, set_fs (<[path := FJson v]> (fs w)) w)
    else (Raise OSError, w).

(** [d.get(key)] and [d.get(key, default)]; only a [dict] has the method. *)
Definition dict_get (d : pyval) (key : string) (default : pyval) : M pyval :=
  match d with
  | PDict m => mret (match m !! key with Some v => v | None => default end)
  | _ => raise AttributeError
  end.

(** [d[key]] with a string key. *)
Definition getitem (d : pyval) (key : string) : M pyval :=
  match d with
  | PDict m => match m !! key with Some v => mret v | None => raise (KeyError key) end
  | _ => raise TypeError
  end.

(** The elements [for x in v] runs through.  A [dict] yields its keys and
    a [str] its characters (all of them strings); the order of a dict's
    keys is the map's here, not the insertion order. *)
Definition iterate (v : pyval) : M (list pyval) :=
  match v with
  | PList l => mret l
  | PDict m => mret (PStr <$> (map_to_list m).*1)
  | PStr s => mret ((fun c => PStr (String c EmptyString)) <$> list_ascii_of_string s)
  | _ => raise TypeError
  end.

(** [datetime.fromisoformat(v)] on a value. *)
Definition datetime_fromisoformat (v : pyval) : M datetime :=
  match v with
  | PStr s => match fromisoformat s with Some d => mret d | None => raise ValueError end
  | _ => raise TypeError
  end.

(** ** Floats

    A finite binary64 value is the rational it denotes.  [fl] rounds a
    rational to the nearest value with a 53-bit significand, ties to the
    even significand; exponent range, infinities and NaN are left out
    (the one float computation of the program stays within [0, 100]). *)

(** The integer nearest to [x], ties to the even one. *)
Definition round_half_even (x : Q) : Z :=
  let f := Qfloor x in
  match Qcompare (x - inject_Z f) (1 # 2) with
  | Lt => f
  | Gt => f + 1
  | Eq => if Z.even f then f else f + 1
  end.

(** [floor (log2 q)] for [q > 0]. *)
Definition binade (q : Q) : Z :=
  let k := Z.log2 (Qnum q) - Z.log2 (Z.pos (Qden q)) in
  if Qle_bool (Qpower 2 k) q then k else k - 1.

Definition fl_pos (q : Q) : Q :=
  let e := binade q - 52 in
  inject_Z (round_half_even (q * Qpower 2 (- e))) * Qpower 2 e.

Definition fl (q : Q) : Q :=
  match Qnum q with
  | Z0 => 0
  | Zpos _ => fl_pos q
  | Zneg _ => - fl_pos (- q)
  end.

(** [a / b] on two [int]s, [b] not zero: the correctly rounded quotient. *)
Definition int_truediv (a b : Z) : Q := fl (inject_Z a / inject_Z b).

(** [x * n] for a float [x] and an [int] [n] below [2^53]. *)
Definition float_mul_int (x : Q) (n : Z) : Q := fl (x * inject_Z n).

(** [f"{x:.1f}"] for [x >= 0]: the nearest decimal with one digit after
    the point, ties to even. *)
Definition format_1f (x : Q) : string :=
  let n := round_half_even (x * 10) in
  pretty (n / 10) +:+ "." +:+ pretty (n mod 10).

End Py.

(* ===================================================================== *)
(** * models.py *)
(* ===================================================================== *)

Module Models.
Import Py.

(** ** class Task *)

(** [title], [description] and [completed] hold whatever value they were
    given (a record read from a file may carry any JSON value there).
    [created_at] is always a [datetime]: the constructor replaces a
    missing one by the current time. *)
Record Task : Type := mkTask {
  title : pyval;
  description : pyval;
  completed : pyval;
  created_at : datetime;
  completed_at : option datetime
}.

(** [Task.__init__(self, title, description, created_at, completed_at)] *)
Definition Task_init (title description : pyval)
    (created_at completed_at : option datetime) : M Task :=
  created ← match created_at with        (* created_at or datetime.now() *)
            | Some d => mret d
            | None => datetime_now
            end;
  mret (mkTask title description (PBool false) created completed_at).

(** [Task.mark_completed] *)
Definition mark_completed (self : Task) : M Task :=
  now ← datetime_now;
  mret (mkTask (title self) (description self) (PBool true) (created_at self) (Some now)).

(** [Task.mark_pending] *)
Definition mark_pending (self : Task) : Task :=
  mkTask (title self) (description self) (PBool false) (created_at self) None.

(** [Task.to_dict].  A [datetime] is always true, so [created_at] takes
    the [isoformat] branch of its conditional. *)
Definition to_dict (self : Task) : pyval :=
  PDict (list_to_map
    [ ("title", title self);
      ("description", description self);
      ("completed", completed self);
      ("created_at", PStr (isoformat (created_at self)));
      ("completed_at", match completed_at self with
                       | Some d => PStr (isoformat d)
                       | None => PNone
                       end) ]).

(** [if data.get(key): ... = datetime.fromisoformat(data[key])] *)
Definition read_timestamp (data : pyval) (key : string) : M (option datetime) :=
  present ← dict_get data key PNone;
  if truthy present then
    raw ← getitem data key;
    d ← datetime_fromisoformat raw;
    mret (Some d)
  else mret None.

(** [Task.from_dict(data)] *)
Definition from_dict (data : pyval) : M Task :=
  created_at ← read_timestamp data "created_at";
  completed_at ← read_timestamp data "completed_at";
  title ← getitem data "title";
  description ← dict_get data "description" (PStr "");
  task ← Task_init title description created_at completed_at;
  done ← dict_get data "completed" (PBool false);
  mret (mkTask (Models.title task) (Models.description task) done
               (Models.created_at task) (Models.completed_at task)).

(** [Task.__str__] *)
Definition Task_str (self : Task) : list frag :=
  let status := if truthy (completed self) then "✓" else "○" in
  [Lit "["; Lit status; Lit "] "; Val (title self); Lit " - ";
   Val (description self); Lit " (Created: ";
   Strftime "%Y-%m-%d %H:%M" (created_at self); Lit ")"].

(** ** class TaskManager *)

Record TaskManager : Type := mkTaskManager {
  tasks : list Task;
  data_file : string
}.

Definition set_tasks (ts : list Task) (self : TaskManager) : TaskManager :=
  mkTaskManager ts (data_file self).

(** [TaskManager.save_tasks] *)
Definition save_tasks (self : TaskManager) : M unit :=
  try_except
    (let tasks_data := PList (to_dict <$> tasks self) in
     json_dump_file (data_file self) tasks_data)
    (fun e => print_exn "Error saving tasks: " e).

(** [TaskManager.load_tasks] *)
Definition load_tasks (self : TaskManager) : M TaskManager :=
  try_except
    (found ← os_path_exists (data_file self);
     if found : bool then
       tasks_data ← json_load_file (data_file self);
       items ← iterate tasks_data;
       ts ← mapM from_dict items;
       mret (set_tasks ts self)
     else mret self)
    (fun e =>
       print_exn "Error loading tasks: " e;;
       mret (set_tasks [] self)).

(** [TaskManager.__init__(self, data_file)]; the default is
    ["tasks.json"]. *)
Definition TaskManager_init (data_file : string) : M TaskManager :=
  load_tasks (mkTaskManager [] data_file).

(** [TaskManager.add_task(title, description)] *)
Definition add_task (title description : pyval) (self : TaskManager) : M TaskManager :=
  task ← Task_init title description None None;
  let self := set_tasks (tasks self ++ [task]) self in
  print [Lit "Task '"; Val title; Lit "' has been added!"];;
  save_tasks self;;
  mret self.

(** [TaskManager.list_tasks] *)
Definition list_tasks (self : TaskManager) : M unit :=
  match tasks self with
  | [] => print [Lit "No tasks available"]
  | _ =>
      print [Lit (nl +:+ "=== Task List ===")];;
      forM_ (fun '(i, task) => print ([Lit (pretty (Z.of_nat i)); Lit ". "] ++ Task_str task))
            (imap (fun i task => (S i, task)) (tasks self));;
      print []
  end.

(** [len(self.tasks)] *)
Definition len {A : Type} (l : list A) : Z := Z.of_nat (length l).

(** [TaskManager.complete_task(task_num)] *)
Definition complete_task (task_num : Z) (self : TaskManager) : M TaskManager :=
  if (1 <=? task_num) && (task_num <=? len (tasks self)) then
    let i := Z.to_nat (task_num - 1) in
    match tasks self !! i with
    | Some task =>
        task ← mark_completed task;
        let self := set_tasks (<[i := task]> (tasks self)) self in
        print [Lit "Task "; Lit (pretty task_num); Lit " has been marked as completed!"];;
        save_tasks self;;
        mret self
    | None => raise IndexError
    end
  else
    print [Lit "Invalid task number!"];;
    mret self.

(** [TaskManager.delete_task(task_num)] *)
Definition delete_task (task_num : Z) (self : TaskManager) : M TaskManager :=
  if (1 <=? task_num) && (task_num <=? len (tasks self)) then
    let i := Z.to_nat (task_num - 1) in
    match tasks self !! i with
    | Some deleted_task =>
        let self := set_tasks (delete i (tasks self)) self in      (* pop *)
        print [Lit "Task '"; Val (title deleted_task); Lit "' has been deleted!"];;
        save_tasks self;;
        mret self
    | None => raise IndexError
    end
  else
    print [Lit "Invalid task number!"];;
    mret self.

(** [TaskManager.get_task_count]: total, completed, pending. *)
Definition get_task_count (self : TaskManager) : Z * Z * Z :=
  let total := len (tasks self) in
  let completed := len (filter (fun task => truthy (completed task) = true) (tasks self)) in
  let pending := total - completed in
  (total, completed, pending).

(** [TaskManager.clear_all_tasks] *)
Definition clear_all_tasks (self : TaskManager) : M TaskManager :=
  let self := set_tasks [] self in
  save_tasks self;;
  print [Lit "All tasks have been cleared!"];;
  mret self.

(** [datetime.strftime("%Y%m%d_%H%M%S")], the year on four digits. *)
Definition strftime_compact (d : datetime) : string :=
  string_of_list_ascii
    (pad 4 (year d) ++ pad 2 (month d) ++ pad 2 (day d) ++ ["_"%char]
     ++ pad 2 (hour d) ++ pad 2 (minute d) ++ pad 2 (second d)).

(** [TaskManager.export_tasks(filename)]; [None] is the default. *)
Definition export_tasks (filename : option string) (self : TaskManager) : M unit :=
  filename ← match filename with
             | Some f => mret f
             | None =>
                 now ← datetime_now;
                 mret ("tasks_export_" +:+ strftime_compact now +:+ ".json")
             end;
  try_except
    (let tasks_data := PList (to_dict <$> tasks self) in
     json_dump_file filename tasks_data;;
     print [Lit "Tasks exported to "; Lit filename])
    (fun e => print_exn "Error exporting tasks: " e).

(** [TaskManager.import_tasks(filename)] *)
Definition import_tasks (filename : string) (self : TaskManager) : M TaskManager :=
  try_except
    (found ← os_path_exists filename;
     if negb found then
       print [Lit "File "; Lit filename; Lit " not found!"];;
       mret self
     else
       tasks_data ← json_load_file filename;
       items ← iterate tasks_data;
       imported_tasks ← mapM from_dict items;
       let self := set_tasks (tasks self ++ imported_tasks) self in     (* extend *)
       save_tasks self;;
       print [Lit "Successfully imported "; Lit (pretty (len imported_tasks));
              Lit " tasks from "; Lit filename];;
       mret self)
    (fun e =>
       print_exn "Error importing tasks: " e;;
       mret self).

(** [TaskManager.get_task_history] *)
Definition get_task_history (self : TaskManager) : M unit :=
  match tasks self with
  | [] => print [Lit "No task history available"]
  | _ =>
      print [Lit (nl +:+ "=== Task History ===")];;
      forM_ (fun '(i, task) =>
               let status := if truthy (completed task) then "✓" else "○" in
               let completed_str :=
                 match completed_at task with
                 | Some d => Strftime "%Y-%m-%d %H:%M" d
                 | None => Lit "Not completed"
                 end in
               print [Lit (pretty (Z.of_nat i)); Lit ". ["; Lit status; Lit "] "; Val (title task)];;
               print [Lit "   Created: "; Strftime "%Y-%m-%d %H:%M" (created_at task)];;
               print [Lit "   Completed: "; completed_str];;
               print [Lit "   Description: "; Val (description task)];;
               print [])
            (imap (fun i task => (S i, task)) (tasks self))
  end.

End Models.

(* ===================================================================== *)
(** * app.py *)
(* ===================================================================== *)

Module App.
Import Py Models.

(** ** class TimeoutManager *)

(** [timeout_thread] is the index of the thread object in the world's
    thread table and [app_instance] the identity of the bound app. *)
Record TimeoutManager : Type := mkTimeoutManager {
  timeout_seconds : Z;
  last_activity : Q;
  timeout_thread : option nat;
  is_running : bool;
  app_instance : option nat
}.

(** [TimeoutManager.__init__(self, timeout_seconds)]; the default is 180. *)
Definition TimeoutManager_init (timeout_seconds : Z) : M TimeoutManager :=
  now ← time_time;
  mret (mkTimeoutManager timeout_seconds now None false None).

(** [TimeoutManager.set_app_instance(app)] *)
Definition set_app_instance (app : nat) (self : TimeoutManager) : TimeoutManager :=
  mkTimeoutManager (timeout_seconds self) (last_activity self) (timeout_thread self)
                   (is_running self) (Some app).

(** [TimeoutManager.reset_activity] *)
Definition reset_activity (self : TimeoutManager) : M TimeoutManager :=
  now ← time_time;
  mret (mkTimeoutManager (timeout_seconds self) now (timeout_thread self)
                         (is_running self) (app_instance self)).

(** [threading.Thread(target=self._timeout_monitor, daemon=True)] followed
    by [.start()]: a new thread, about to test the loop condition. *)
Definition thread_start : M nat :=
  fun w => (Ok (length (threads w)), set_threads (threads w ++ [AtLoopTest]) w).

(** [thread.is_alive()] *)
Definition thread_is_alive (t : nat) : M bool :=
  fun w => (Ok (match threads w !! t with
                | Some Finished | None => false
                | Some _ => true
                end), w).

(** [thread.join(timeout=1)]: waits, changes nothing. *)
Definition thread_join (t : nat) : M unit := mret tt.

(** [TimeoutManager.start_timeout] *)
Definition start_timeout (self : TimeoutManager) : M TimeoutManager :=
  if is_running self then mret self
  else
    let self := mkTimeoutManager (timeout_seconds self) (last_activity self)
                                 (timeout_thread self) true (app_instance self) in
    self ← reset_activity self;
    t ← thread_start;
    mret (mkTimeoutManager (timeout_seconds self) (last_activity self)
                           (Some t) (is_running self) (app_instance self)).

(** [TimeoutManager.stop_timeout] *)
Definition stop_timeout (self : TimeoutManager) : M TimeoutManager :=
  let self := mkTimeoutManager (timeout_seconds self) (last_activity self)
                               (timeout_thread self) false (app_instance self) in
  match timeout_thread self with
  | Some t =>
      alive ← thread_is_alive t;
      (if alive : bool then thread_join t else mret tt);;
      mret self
  | None => mret self
  end.

(** [app.running = value] *)
Definition set_running (app : nat) (value : bool) : M unit :=
  fun w => (Ok tt, set_running_of (<[app := value]> (running_of w)) w).

(** [app.running] *)
Definition get_running (app : nat) : M bool :=
  fun w => match running_of w !! app with
           | Some b => (Ok b, w)
           | None => (Raise AttributeError, w)
           end.

(** How one pass through a loop body ends. *)
Inductive loop_exit : Type :=
| Continue
| Break.

(** The body of the [while] loop of [TimeoutManager._timeout_monitor],
    from the return of [time.sleep(1)] on. *)
Definition timeout_monitor_body (self : TimeoutManager) : M (loop_exit * TimeoutManager) :=
  if negb (is_running self) then mret (Break, self)
  else
    current_time ← time_time;
    let inactive_time := (current_time - last_activity self)%Q in
    if Qle_bool (inject_Z (timeout_seconds self)) inactive_time then
      print [Lit (nl +:+ nl +:+ "⚠️  Session timeout! No activity for ");
             Lit (pretty (timeout_seconds self / 60)); Lit " minutes."];;
      print [Lit "Application will exit automatically..."];;
      match app_instance self with
      | Some app => set_running app false
      | None => mret tt
      end;;
      mret (Break, self)
    else mret (Continue, self).

(** One step of a monitor thread: the loop test, or the loop body once
    the sleep is over.  Other threads run between the steps. *)
Definition timeout_monitor_step (pc : thread_pc) (self : TimeoutManager)
    : M (thread_pc * TimeoutManager) :=
  match pc with
  | AtLoopTest =>
      if is_running self then mret (Sleeping, self) else mret (Finished, self)
  | Sleeping =>
      '(how, self) ← timeout_monitor_body self;
      match how with
      | Break => mret (Finished, self)
      | Continue => mret (AtLoopTest, self)
      end
  | Finished => mret (Finished, self)
  end.

(** The scheduler lets thread [t] take one step. *)
Definition thread_step (t : nat) (self : TimeoutManager) : M TimeoutManager :=
  fun w =>
    match threads w !! t with
    | Some pc =>
        match timeout_monitor_step pc self w with
        | (Ok (pc', self'), w') => (Ok self', set_threads (<[t := pc']> (threads w')) w')
        | (Raise e, w') => (Raise e, w')
        end
    | None => (Ok self, w)
    end.

(** [TimeoutManager._timeout_monitor] run without interruption for at
    most [fuel] polls; [None] when the fuel ran out inside the loop. *)
Fixpoint _timeout_monitor (fuel : nat) (self : TimeoutManager) : M (option TimeoutManager) :=
  if is_running self then
    match fuel with
    | O => mret None
    | S fuel' =>
        '(how, self) ← timeout_monitor_body self;
        match how with
        | Break => mret (Some self)
        | Continue => _timeout_monitor fuel' self
        end
    end
  else mret (Some self).

(** ** class TaskManagerApp *)

(** [self_id] is the identity of the app object; its [running] attribute
    lives in the world (the watchdog writes it through [app_instance]). *)
Record TaskManagerApp : Type := mkApp {
  self_id : nat;
  manager : TaskManager;
  timeout_manager : TimeoutManager
}.

Definition set_manager (m : TaskManager) (self : TaskManagerApp) : TaskManagerApp :=
  mkApp (self_id self) m (timeout_manager self).
Definition set_timeout_manager (t : TimeoutManager) (self : TaskManagerApp) : TaskManagerApp :=
  mkApp (self_id self) (manager self) t.

(** [self.timeout_manager.reset_activity()] *)
Definition touch (self : TaskManagerApp) : M TaskManagerApp :=
  t ← reset_activity (timeout_manager self);
  mret (set_timeout_manager t self).

(** [TaskManagerApp.__init__], for the object with identity [self_id]. *)
Definition TaskManagerApp_init (self_id : nat) : M TaskManagerApp :=
  manager ← TaskManager_init "tasks.json";
  set_running self_id true;;
  timeout_manager ← TimeoutManager_init 180;
  mret (mkApp self_id manager (set_app_instance self_id timeout_manager)).

(** [TaskManagerApp.show_menu] *)
Definition show_menu : M unit :=
  print [Lit (nl +:+ str_mul "=" 40)];;
  print [Lit "          Task Management System"];;
  print [Lit (str_mul "=" 40)];;
  print [Lit "1. Add Task"];;
  print [Lit "2. View Task List"];;
  print [Lit "3. Complete Task"];;
  print [Lit "4. Delete Task"];;
  print [Lit "5. Statistics"];;
  print [Lit "6. Task History"];;
  print [Lit "7. Export Tasks"];;
  print [Lit "8. Import Tasks"];;
  print [Lit "9. Clear All Tasks"];;
  print [Lit "0. Exit Program"];;
  print [Lit (str_mul "-" 40)].

(** [int(input(prompt))] *)
Definition input_int (prompt : string) : M Z :=
  line ← input prompt;
  match py_int line with
  | Some n => mret n
  | None => raise ValueError
  end.

(** [TaskManagerApp.get_user_choice] *)
Definition get_user_choice (self : TaskManagerApp) : M (Z * TaskManagerApp) :=
  try_catch is_ValueError
    (choice ← input_int "Please select an operation (0-9): ";
     self ← touch self;
     mret (choice, self))
    (fun _ =>
       self ← touch self;
       mret (0, self)).

(** [TaskManagerApp.handle_add_task] *)
Definition handle_add_task (self : TaskManagerApp) : M TaskManagerApp :=
  line ← input "Please enter task title: ";
  let title := strip line in
  self ← touch self;
  if negb (truthy (PStr title)) then
    print [Lit "Task title cannot be empty!"];;
    mret self
  else
    line ← input "Please enter task description (optional): ";
    let description := strip line in
    self ← touch self;
    m ← add_task (PStr title) (PStr description) (manager self);
    mret (set_manager m self).

(** [TaskManagerApp.handle_complete_task] *)
Definition handle_complete_task (self : TaskManagerApp) : M TaskManagerApp :=
  list_tasks (manager self);;
  match tasks (manager self) with
  | [] => mret self
  | _ =>
      try_catch is_ValueError
        (task_num ← input_int "Please enter the task number to complete: ";
         self ← touch self;
         m ← complete_task task_num (manager self);
         mret (set_manager m self))
        (fun _ =>
           self ← touch self;
           print [Lit "Please enter a valid number!"];;
           mret self)
  end.

(** [TaskManagerApp.handle_delete_task] *)
Definition handle_delete_task (self : TaskManagerApp) : M TaskManagerApp :=
  list_tasks (manager self);;
  match tasks (manager self) with
  | [] => mret self
  | _ =>
      try_catch is_ValueError
        (task_num ← input_int "Please enter the task number to delete: ";
         self ← touch self;
         m ← delete_task task_num (manager self);
         mret (set_manager m self))
        (fun _ =>
           self ← touch self;
           print [Lit "Please enter a valid number!"];;
           mret self)
  end.

(** [TaskManagerApp.show_statistics] *)
Definition show_statistics (self : TaskManagerApp) : M unit :=
  let '(total, completed, pending) := get_task_count (manager self) in
  print [Lit (nl +:+ "=== Statistics ===")];;
  print [Lit "Total tasks: "; Lit (pretty total)];;
  print [Lit "Completed: "; Lit (pretty completed)];;
  print [Lit "Pending: "; Lit (pretty pending)];;
  if 0 <? total then
    let completion_rate := float_mul_int (int_truediv completed total) 100 in
    print [Lit "Completion rate: "; Lit (format_1f completion_rate); Lit "%"]
  else mret tt.

(** [TaskManagerApp.handle_task_history] *)
Definition handle_task_history (self : TaskManagerApp) : M unit :=
  get_task_history (manager self).

(** [TaskManagerApp.handle_export_tasks] *)
Definition handle_export_tasks (self : TaskManagerApp) : M TaskManagerApp :=
  line ← input "Enter filename for export (or press Enter for auto-generated name): ";
  let filename := strip line in
  self ← touch self;
  (if truthy (PStr filename) then export_tasks (Some filename) (manager self)
   else export_tasks None (manager self));;
  mret self.

(** [TaskManagerApp.handle_import_tasks] *)
Definition handle_import_tasks (self : TaskManagerApp) : M TaskManagerApp :=
  line ← input "Enter filename to import from: ";
  let filename := strip line in
  self ← touch self;
  if truthy (PStr filename) then
    m ← import_tasks filename (manager self);
    mret (set_manager m self)
  else
    print [Lit "Please enter a valid filename!"];;
    mret self.

(** [TaskManagerApp.handle_clear_all_tasks] *)
Definition handle_clear_all_tasks (self : TaskManagerApp) : M TaskManagerApp :=
  line ← input "Are you sure you want to clear all tasks? (yes/no): ";
  let confirm := lower (strip line) in
  self ← touch self;
  if String.eqb confirm "yes" || String.eqb confirm "y" then
    m ← clear_all_tasks (manager self);
    mret (set_manager m self)
  else
    print [Lit "Operation cancelled."];;
    mret self.

(** The [if] / [elif] chain of [TaskManagerApp.run] on the choice read. *)
Definition dispatch (choice : Z) (self : TaskManagerApp) : M TaskManagerApp :=
  if choice =? 1 then handle_add_task self
  else if choice =? 2 then list_tasks (manager self);; mret self
  else if choice =? 3 then handle_complete_task self
  else if choice =? 4 then handle_delete_task self
  else if choice =? 5 then show_statistics self;; mret self
  else if choice =? 6 then handle_task_history self;; mret self
  else if choice =? 7 then handle_export_tasks self
  else if choice =? 8 then handle_import_tasks self
  else if choice =? 9 then handle_clear_all_tasks self
  else if choice =? 0 then
    print [Lit "Thank you for using! Goodbye!"];;
    set_running (self_id self) false;;
    mret self
  else
    print [Lit "Invalid choice, please enter a number between 0-9!"];;
    mret self.

(** One pass through the body of the [while self.running] loop of
    [TaskManagerApp.run]. *)
Definition run_iteration (self : TaskManagerApp) : M TaskManagerApp :=
  show_menu;;
  '(choice, self) ← get_user_choice self;
  self ← dispatch choice self;
  still ← get_running (self_id self);
  if still : bool then
    input (nl +:+ "Press Enter to continue...");;
    touch self
  else mret self.

(** The [while self.running] loop, for at most [fuel] passes; [None]
    when the fuel ran out with the flag still set. *)
Fixpoint run_loop (fuel : nat) (self : TaskManagerApp) : M (option TaskManagerApp) :=
  go ← get_running (self_id self);
  if go : bool then
    match fuel with
    | O => mret None
    | S fuel' =>
        self ← run_iteration self;
        run_loop fuel' self
    end
  else mret (Some self).

(** The [try] / [finally] of [TaskManagerApp.run]: the loop, then
    [self.timeout_manager.stop_timeout()] however the loop ended.  An
    exception of the loop goes on after the cleanup. *)
Definition run_guarded (fuel : nat) (self : TaskManagerApp) : M (option TaskManagerApp) :=
  fun w =>
    match run_loop fuel self w with
    | (Ok (Some self'), w') =>
        match stop_timeout (timeout_manager self') w' with
        | (Ok t', w'') => (Ok (Some (set_timeout_manager t' self')), w'')
        | (Raise e, w'') => (Raise e, w'')
        end
    | (Ok None, w') => (Ok None, w')
    | (Raise e, w') =>
        match stop_timeout (timeout_manager self) w' with
        | (Ok _, w'') => (Raise e, w'')
        | (Raise e', w'') => (Raise e', w'')
        end
    end.

(** [TaskManagerApp.run], the foreground thread alone. *)
Definition run (fuel : nat) (self : TaskManagerApp) : M (option TaskManagerApp) :=
  print [Lit "Welcome to the Task Management System!"];;
  print [Lit "⏰ Session timeout: 3 minutes of inactivity will auto-exit the app"];;
  t ← start_timeout (timeout_manager self);
  run_guarded fuel (set_timeout_manager t self).

(** The program entry point: [app = TaskManagerApp(); app.run()], the
    app object getting the identity [self_id]. *)
Definition main (fuel : nat) (self_id : nat) : M (option TaskManagerApp) :=
  app ← TaskManagerApp_init self_id;
  run fuel app.

End App.

(* ===================================================================== *)
(** * Vocabulary of the properties *)
(* ===================================================================== *)

Module Props.
Import Py Models App.

(** ** Worlds after an effect *)

(** The world after [print] of [l]. *)
Definition say (l : list frag) (w : world) : world :=
  set_stdout (stdout w ++ [Out l]) w.

(** The world after [print(f"{pfx}{e}")]. *)
Definition report (pfx : string) (e : exn) (w : world) : world :=
  set_stdout (stdout w ++ [OutExn pfx e]) w.

(** The world in which [path] holds the JSON list of the tasks [ts]. *)
Definition written (path : string) (ts : list Task) (w : world) : world :=
  set_fs (<[path := FJson (PList (to_dict <$> ts))]> (fs w)) w.

(** The world after [save_tasks]: the file is replaced, or the failure to
    open it is reported. *)
Definition saved (self : TaskManager) (w : world) : world :=
  if can_open_for_writing (data_file self) w
  then written (data_file self) (tasks self) w
  else report "Error saving tasks: " OSError w.

(** The task [add_task] makes at the clock reading of world [w]. *)
Definition fresh_task (title description : pyval) (w : world) : Task :=
  mkTask title description (PBool false) (datetime_at w (ticks w)) None.

(** The second component of [get_task_count]. *)
Definition completed_count (self : TaskManager) : Z := (get_task_count self).1.2.

(** ** Sequences of operations on a manager *)

Inductive op : Type :=
| Add (title description : pyval)
| Delete (task_num : Z).

Definition apply_op (o : op) (self : TaskManager) : M TaskManager :=
  match o with
  | Add title description => add_task title description self
  | Delete task_num => delete_task task_num self
  end.

Fixpoint apply_ops (ops : list op) (self : TaskManager) : M TaskManager :=
  match ops with
  | [] => mret self
  | o :: ops' => self ← apply_op o self; apply_ops ops' self
  end.

(** How many [Add]s a sequence has. *)
Fixpoint adds (ops : list op) : Z :=
  match ops with
  | [] => 0
  | Add _ _ :: ops' => 1 + adds ops'
  | Delete _ :: ops' => adds ops'
  end.

(** How many [Delete]s of a sequence name an index between 1 and the
    number of tasks present at that moment, [count] being the number of
    tasks before the sequence. *)
Fixpoint in_range_deletes (count : Z) (ops : list op) : Z :=
  match ops with
  | [] => 0
  | Add _ _ :: ops' => in_range_deletes (count + 1) ops'
  | Delete task_num :: ops' =>
      if (1 <=? task_num) && (task_num <=? count)
      then 1 + in_range_deletes (count - 1) ops'
      else in_range_deletes count ops'
  end.

(** ** Tasks, records and stores that load *)

(** The timestamps of a task pass the range checks of [datetime]. *)
Definition well_formed_task (t : Task) : Prop :=
  valid_datetime (created_at t) = true /\
  match completed_at t with
  | Some d => valid_datetime d = true
  | None => True
  end.

(** The dictionary inside [to_dict]. *)
Definition to_dict_map (self : Task) : gmap string pyval :=
  list_to_map
    [ ("title", title self);
      ("description", description self);
      ("completed", completed self);
      ("created_at", PStr (isoformat (created_at self)));
      ("completed_at", match completed_at self with
                       | Some d => PStr (isoformat d)
                       | None => PNone
                       end) ].

(** The entry [key] of a record is absent, false, or a string that
    [fromisoformat] accepts. *)
Definition timestamp_ok (m : gmap string pyval) (key : string) : bool :=
  match m !! key with
  | None => true
  | Some v =>
      negb (truthy v) ||
      match v with
      | PStr s => bool_decide (is_Some (fromisoformat s))
      | _ => false
      end
  end.

(** A task record: a dictionary with a title and two such timestamps. *)
Definition is_record (data : pyval) : bool :=
  match data with
  | PDict m =>
      bool_decide (is_Some (m !! "title")) &&
      timestamp_ok m "created_at" && timestamp_ok m "completed_at"
  | _ => false
  end.

(** The entry [key] of a record is no string, or a string on which
    [fromisoformat] is modelled. *)
Definition timestamp_modelled (m : gmap string pyval) (key : string) : bool :=
  match m !! key with
  | Some (PStr s) => iso_modelled s
  | _ => true
  end.

(** A value whose timestamps, if it is a record, are modelled. *)
Definition record_modelled (data : pyval) : bool :=
  match data with
  | PDict m => timestamp_modelled m "created_at" && timestamp_modelled m "completed_at"
  | _ => true
  end.

(** A file whose timestamps, if it holds a JSON list, are modelled. *)
Definition store_modelled (n : fnode) : bool :=
  match n with
  | FJson (PList records) => forallb record_modelled records
  | _ => true
  end.

(** The timestamp a record gives under [key]: none when the entry is
    absent or false, otherwise the value the string denotes. *)
Definition timestamp_of (m : gmap string pyval) (key : string) : option datetime :=
  match m !! key with
  | Some (PStr s) => fromisoformat s
  | _ => None
  end.

(** The task [t] carries the fields of [record], read in a world whose
    clock is that of [w]: the title, the description (or [""]), the
    completed flag (or [False]), the completion time if there is one,
    and the creation time, or a clock reading where the record has
    none. *)
Definition carries (w : world) (record : pyval) (t : Task) : Prop :=
  exists m : gmap string pyval,
    record = PDict m /\
    m !! "title" = Some (title t) /\
    description t = default (PStr "") (m !! "description") /\
    completed t = default (PBool false) (m !! "completed") /\
    completed_at t = timestamp_of m "completed_at" /\
    match timestamp_of m "created_at" with
    | Some d => created_at t = d
    | None => exists n : nat, created_at t = datetime_at w n
    end.

(** A backing file in the format of the store: a JSON list of task
    records.  Everything else is malformed. *)
Definition well_formed_store (n : fnode) : bool :=
  match n with
  | FJson (PList records) => forallb is_record records
  | _ => false
  end.

Definition is_ok {A : Type} (r : result A) : bool :=
  match r with
  | Ok _ => true
  | Raise _ => false
  end.

(** [w'] differs from [w] by clock reads at most. *)
Definition clock_only (w w' : world) : Prop :=
  fs w' = fs w /\ stdout w' = stdout w /\ stdin w' = stdin w /\
  time_at w' = time_at w /\ datetime_at w' = datetime_at w /\
  running_of w' = running_of w /\ threads w' = threads w /\
  writable w' = writable w /\
  (ticks w <= ticks w')%nat.

(** ** The watchdog *)

(** The two lines of the timeout notice. *)
Definition timeout_notice (self : TimeoutManager) (w : world) : world :=
  say [Lit "Application will exit automatically..."]
    (say [Lit (nl +:+ nl +:+ "⚠️  Session timeout! No activity for ");
          Lit (pretty (timeout_seconds self / 60)); Lit " minutes."] w).

(** The world after a poll that found the session expired. *)
Definition expired (self : TimeoutManager) (w : world) : world :=
  let w1 := timeout_notice self (set_ticks (S (ticks w)) w) in
  match app_instance self with
  | Some app => set_running_of (<[app := false]> (running_of w1)) w1
  | None => w1
  end.

(** ** The menu *)

(** The app once [reset_activity] has run at the clock reading of [w]. *)
Definition touched (self : TaskManagerApp) (w : world) : TaskManagerApp :=
  let t := timeout_manager self in
  set_timeout_manager
    (mkTimeoutManager (timeout_seconds t) (time_at w (ticks w)) (timeout_thread t)
                      (is_running t) (app_instance t))
    self.

(** The world once the menu prompt was answered and the clock read. *)
Definition answered (rest : list string) (w : world) : world :=
  set_ticks (S (ticks w))
    (set_stdin rest
       (set_stdout (stdout w ++ [Ask "Please select an operation (0-9): "]) w)).

(** The world after the exit branch of the menu. *)
Definition exited (self : TaskManagerApp) (w : world) : world :=
  let w1 := say [Lit "Thank you for using! Goodbye!"] w in
  set_running_of (<[self_id self := false]> (running_of w1)) w1.

Definition invalid_choice : list frag :=
  [Lit "Invalid choice, please enter a number between 0-9!"].

(** ** Statistics *)




(** The world after the four lines [show_statistics] always prints. *)
Definition counts_shown (total completed pending : Z) (w : world) : world :=
  say [Lit "Pending: "; Lit (pretty pending)]
    (say [Lit "Completed: "; Lit (pretty completed)]
       (say [Lit "Total tasks: "; Lit (pretty total)]
          (say [Lit (nl +:+ "=== Statistics ===")] w))).

(** ** Inputs of the examples *)

Definition morning : datetime := mkDatetime 2023 1 1 10 0 0 0.
Definition noon : datetime := mkDatetime 2023 1 1 12 0 0 250000.

Definition task_a : Task := mkTask (PStr "Task 1") (PStr "Description 1") (PBool true) morning (Some noon).
Definition task_b : Task := mkTask (PStr "Task 2") (PStr "") (PBool false) noon None.
Definition task_c : Task := mkTask (PStr "Task 3") (PStr "") (PBool true) morning (Some noon).

(** A quiet world: no files, nothing typed, the clock at [c] seconds,
    every path open to writing. *)
Definition quiet (c : Q) : world :=
  mkWorld ∅ [] [] 0 (fun _ => c) (fun _ => noon) {[ 7%nat := true ]} [Sleeping]
          (fun _ => true).

(** The same world with [lines] waiting on standard input. *)
Definition typing (lines : list string) : world := set_stdin lines (quiet 0).

(** The same world with the files [files]. *)
Definition holding (files : gmap string fnode) : world := set_fs files (quiet 0).

Definition two_tasks : TaskManager := mkTaskManager [task_a; task_b] "tasks.json".
Definition three_tasks : TaskManager := mkTaskManager [task_a; task_b; task_c] "tasks.json".

(** The records of the import file of the unit tests. *)
Definition import_records : list pyval :=
  [ PDict (list_to_map
      [ ("title", PStr "Imported Task 1"); ("description", PStr "Imported Description 1");
        ("completed", PBool false); ("created_at", PStr "2023-01-01T10:00:00");
        ("completed_at", PNone) ]);
    PDict (list_to_map
      [ ("title", PStr "Imported Task 2"); ("description", PStr "Imported Description 2");
        ("completed", PBool true); ("created_at", PStr "2023-01-01T11:00:00");
        ("completed_at", PStr "2023-01-01T12:00:00") ]) ].

Definition import_world : world :=
  holding {[ "import.json" := FJson (PList import_records) ]}.

(** A watchdog that runs, with a timeout of [timeout] seconds and the
    last activity at second 0, bound to app 7. *)
Definition watchdog (timeout : Z) : TimeoutManager :=
  mkTimeoutManager timeout 0 (Some 0%nat) true (Some 7%nat).

Definition app7 : TaskManagerApp := mkApp 7 three_tasks (watchdog 180).

(** ** Further vocabulary *)

(** The task [mark_completed] makes of [t] at the clock reading of [w]. *)
Definition completed_now (t : Task) (w : world) : Task :=
  mkTask (title t) (description t) (PBool true) (created_at t)
         (Some (datetime_at w (ticks w))).

(** Whether a task counts as completed in [get_task_count]. *)
Definition is_done (t : Task) : bool := truthy (completed t).

(** The third component of [get_task_count]. *)
Definition pending_count (self : TaskManager) : Z := (get_task_count self).2.

(** Every clock reading is a valid [datetime]. *)
Definition clock_valid (w : world) : Prop :=
  forall n : nat, valid_datetime (datetime_at w n) = true.

(** The backing file holds the records of the tasks in memory. *)
Definition synced (self : TaskManager) (w : world) : Prop :=
  fs w !! data_file self = Some (FJson (PList (to_dict <$> tasks self))).

(** The backing file agrees with memory: it holds the records of the
    tasks, or it does not exist and there are no tasks. *)
Definition persisted (self : TaskManager) (w : world) : Prop :=
  synced self w \/ (tasks self = [] /\ fs w !! data_file self = None).

(** The calls a session makes on its manager. *)
Inductive command : Type :=
| DoAdd (title description : pyval)
| DoComplete (task_num : Z)
| DoDelete (task_num : Z)
| DoClear
| DoImport (filename : string)
| DoExport (filename : option string).

Definition run_command (c : command) (self : TaskManager) : M TaskManager :=
  match c with
  | DoAdd title description => add_task title description self
  | DoComplete task_num => complete_task task_num self
  | DoDelete task_num => delete_task task_num self
  | DoClear => clear_all_tasks self
  | DoImport filename => import_tasks filename self
  | DoExport filename => export_tasks filename self;; mret self
  end.

Fixpoint run_commands (cs : list command) (self : TaskManager) : M TaskManager :=
  match cs with
  | [] => mret self
  | c :: cs' => self ← run_command c self; run_commands cs' self
  end.

(** The world after [export_tasks] to [filename]. *)
Definition exported (filename : string) (self : TaskManager) (w : world) : world :=
  if can_open_for_writing filename w
  then say [Lit "Tasks exported to "; Lit filename] (written filename (tasks self) w)
  else report "Error exporting tasks: " OSError w.

(** The line [list_tasks] prints for the task at index [i]. *)
Definition listing_line (i : nat) (task : Task) : event :=
  Out ([Lit (pretty (Z.of_nat (S i))); Lit ". "] ++ Task_str task).

(** The world once [input] has shown [prompt] and taken a line. *)
Definition asked (prompt : string) (rest : list string) (w : world) : world :=
  set_stdin rest (set_stdout (stdout w ++ [Ask prompt]) w).

(** The world after one more clock read. *)
Definition ticked (w : world) : world := set_ticks (S (ticks w)) w.

(** The watchdog with its running flag set to [b]. *)
Definition with_running (b : bool) (self : TimeoutManager) : TimeoutManager :=
  mkTimeoutManager (timeout_seconds self) (last_activity self) (timeout_thread self)
                   b (app_instance self).

(** How many tasks of [l] count as completed. *)
Definition done_in (l : list Task) : nat :=
  length (filter (fun task => truthy (completed task) = true) l).

(** The timestamp strings of every file are modelled ones. *)
Definition files_modelled (w : world) : Prop :=
  forall (path : string) (n : fnode), fs w !! path = Some n -> store_modelled n = true.

(** What a session relies on: the backing path can be opened for
    writing, the clock gives valid values, the tasks carry valid
    timestamps, the backing file agrees with memory, and the timestamp
    strings of the files that may be imported are modelled ones. *)
Definition session_ok (self : TaskManager) (w : world) : Prop :=
  can_open_for_writing (data_file self) w = true /\
  clock_valid w /\
  Forall well_formed_task (tasks self) /\
  persisted self w /\
  files_modelled w.

(** The entry [key] of a record is absent or false ([None], [""], ...). *)
Definition no_timestamp (m : gmap string pyval) (key : string) : Prop :=
  match m !! key with
  | None => True
  | Some v => truthy v = false
  end.

(** The watchdog once [reset_activity] has run at the clock reading of [w]. *)
Definition refreshed (self : TimeoutManager) (w : world) : TimeoutManager :=
  mkTimeoutManager (timeout_seconds self) (time_at w (ticks w)) (timeout_thread self)
                   (is_running self) (app_instance self).

(** The text [list_tasks] adds to standard output. *)
Definition listing (self : TaskManager) : list event :=
  match tasks self with
  | [] => [Out [Lit "No tasks available"]]
  | _ => Out [Lit (nl +:+ "=== Task List ===")] :: imap listing_line (tasks self) ++ [Out []]
  end.

(** The world after [list_tasks]. *)
Definition listed (self : TaskManager) (w : world) : world :=
  set_stdout (stdout w ++ listing self) w.

(** A line of whitespace only. *)
Definition blank (line : string) : Prop :=
  Forall (fun c => is_space c = true) (list_ascii_of_string line).

(** The lines of the menu. *)
Definition menu_lines : list event :=
  [ Out [Lit (nl +:+ str_mul "=" 40)];
    Out [Lit "          Task Management System"];
    Out [Lit (str_mul "=" 40)];
    Out [Lit "1. Add Task"];
    Out [Lit "2. View Task List"];
    Out [Lit "3. Complete Task"];
    Out [Lit "4. Delete Task"];
    Out [Lit "5. Statistics"];
    Out [Lit "6. Task History"];
    Out [Lit "7. Export Tasks"];
    Out [Lit "8. Import Tasks"];
    Out [Lit "9. Clear All Tasks"];
    Out [Lit "0. Exit Program"];
    Out [Lit (str_mul "-" 40)] ].

(** The world after [show_menu]. *)
Definition menu_shown (w : world) : world := set_stdout (stdout w ++ menu_lines) w.

(** The five lines [get_task_history] prints for the task at index [i]. *)
Definition history_block (i : nat) (task : Task) : list event :=
  [ Out [Lit (pretty (Z.of_nat (S i))); Lit ". [";
         Lit (if truthy (completed task) then "✓" else "○"); Lit "] "; Val (title task)];
    Out [Lit "   Created: "; Strftime "%Y-%m-%d %H:%M" (created_at task)];
    Out [Lit "   Completed: ";
         match completed_at task with
         | Some d => Strftime "%Y-%m-%d %H:%M" d
         | None => Lit "Not completed"
         end];
    Out [Lit "   Description: "; Val (description task)];
    Out [] ].

(** The text [get_task_history] adds to standard output. *)
Definition history (self : TaskManager) : list event :=
  match tasks self with
  | [] => [Out [Lit "No task history available"]]
  | _ => Out [Lit (nl +:+ "=== Task History ===")]
         :: concat (imap history_block (tasks self))
  end.

(** ** Further inputs of the examples *)

(** The world in which the backing file holds the two tasks of [two_tasks]. *)
Definition stored : world := written "tasks.json" [task_a; task_b] (quiet 0).

(** A world in which the backing path is a directory. *)
Definition locked : world := holding {[ "tasks.json" := FDir ]}.

(** The tasks of the two records of the import file. *)
Definition imported_1 : Task :=
  mkTask (PStr "Imported Task 1") (PStr "Imported Description 1") (PBool false)
         (mkDatetime 2023 1 1 10 0 0 0) None.
Definition imported_2 : Task :=
  mkTask (PStr "Imported Task 2") (PStr "Imported Description 2") (PBool true)
         (mkDatetime 2023 1 1 11 0 0 0) (Some (mkDatetime 2023 1 1 12 0 0 0)).

(** One record whose creation time is no timestamp at all. *)
Definition undated_records : list pyval :=
  [ PDict (list_to_map [ ("title", PStr "Task 1"); ("created_at", PStr "yesterday") ]) ].

(** The records of the import file followed by one without a title. *)
Definition mixed_records : list pyval :=
  import_records ++ [PDict (list_to_map [("description", PStr "No title")])].

Definition mixed_world : world :=
  holding {[ "import.json" := FJson (PList mixed_records) ]}.

(** A world whose clock shows the number of reads made so far, in seconds. *)
Definition counting : world :=
  mkWorld ∅ [] [] 0 (fun n => inject_Z (Z.of_nat n)) (fun _ => noon)
          {[ 7%nat := true ]} [Sleeping] (fun _ => true).

(** The app 7 with no tasks. *)
Definition app7_empty : TaskManagerApp :=
  mkApp 7 (mkTaskManager [] "tasks.json") (watchdog 180).

End Props.

(* ===================================================================== *)
(** * Properties *)
(* ===================================================================== *)

Import Py Models App Props.

(** Unfolds the sequencing of computations. *)
Ltac mstep := cbv beta iota zeta delta [mbind M_bind mret M_ret].

(** ** Sequencing *)

Lemma bind_ok {A B : Type} (m : M A) (f : A -> M B) (w w' : world) (a : A) :
  m w = (Ok a, w') -> (m ≫= f) w = f a w'.
Proof. intros H. unfold mbind, M_bind. by rewrite H. Qed.

Lemma clock_only_refl (w : world) : clock_only w w.
Proof. unfold clock_only. repeat split; lia. Qed.

Lemma clock_only_trans (w1 w2 w3 : world) :
  clock_only w1 w2 -> clock_only w2 w3 -> clock_only w1 w3.
Proof.
  unfold clock_only. intros (?&?&?&?&?&?&?&?&?) (?&?&?&?&?&?&?&?&?).
  repeat split; try congruence. lia.
Qed.

(** ** Saving, adding, completing, deleting *)

Lemma save_tasks_eq (self : TaskManager) (w : world) :
  save_tasks self w = (Ok tt, saved self w).
Proof.
  unfold save_tasks, try_except, try_catch, json_dump_file, saved, print_exn.
  destruct (can_open_for_writing (data_file self) w); reflexivity.
Qed.

Lemma saved_writable (self : TaskManager) (w : world) :
  can_open_for_writing (data_file self) w = true ->
  saved self w = written (data_file self) (tasks self) w.
Proof. intros H. unfold saved. by rewrite H. Qed.

Lemma can_open_for_writing_frame (path : string) (w w' : world) :
  fs w' !! path = fs w !! path -> writable w' = writable w ->
  can_open_for_writing path w' = can_open_for_writing path w.
Proof. intros Hfs Hwr. unfold can_open_for_writing. by rewrite Hfs, Hwr. Qed.

Lemma can_open_for_writing_written (path path' : string) (ts : list Task) (w : world) :
  can_open_for_writing path w = true ->
  can_open_for_writing path (written path' ts w) = true.
Proof.
  unfold can_open_for_writing, written. cbn [fs set_fs writable]. intros H.
  destruct (decide (path = path')) as [-> | Hne].
  - rewrite lookup_insert_eq. by destruct (fs w !! path') as [[ | | ] | ].
  - by rewrite lookup_insert_ne.
Qed.

Lemma add_task_eq (title description : pyval) (self : TaskManager) (w : world) :
  let self' := set_tasks (tasks self ++ [fresh_task title description w]) self in
  add_task title description self w =
    (Ok self', saved self' (say [Lit "Task '"; Val title; Lit "' has been added!"]
                               (set_ticks (S (ticks w)) w))).
Proof.
  unfold add_task, Task_init, datetime_now, print. mstep.
  rewrite save_tasks_eq. reflexivity.
Qed.

Lemma out_of_range_test (task_num : Z) (self : TaskManager) :
  task_num <= 0 \/ task_num > len (tasks self) ->
  (1 <=? task_num) && (task_num <=? len (tasks self)) = false.
Proof.
  intros [H | H].
  - apply andb_false_intro1. apply Z.leb_gt. lia.
  - apply andb_false_intro2. apply Z.leb_gt. lia.
Qed.

Lemma complete_task_out_of_range (task_num : Z) (self : TaskManager) (w : world) :
  task_num <= 0 \/ task_num > len (tasks self) ->
  complete_task task_num self w = (Ok self, say [Lit "Invalid task number!"] w).
Proof. intros H. unfold complete_task. by rewrite (out_of_range_test _ _ H). Qed.

Lemma delete_task_out_of_range (task_num : Z) (self : TaskManager) (w : world) :
  task_num <= 0 \/ task_num > len (tasks self) ->
  delete_task task_num self w = (Ok self, say [Lit "Invalid task number!"] w).
Proof. intros H. unfold delete_task. by rewrite (out_of_range_test _ _ H). Qed.

Lemma delete_task_eq (task_num : Z) (self : TaskManager) (w : world) (t : Task) :
  tasks self !! Z.to_nat (task_num - 1) = Some t ->
  1 <= task_num ->
  let self' := set_tasks (delete (Z.to_nat (task_num - 1)) (tasks self)) self in
  delete_task task_num self w =
    (Ok self', saved self' (say [Lit "Task '"; Val (title t); Lit "' has been deleted!"] w)).
Proof.
  intros Ht H1. unfold delete_task.
  assert (task_num <= len (tasks self)) as H2.
  { apply lookup_lt_Some in Ht. unfold len. lia. }
  replace ((1 <=? task_num) && (task_num <=? len (tasks self))) with true
    by (symmetry; apply andb_true_intro; split; apply Z.leb_le; lia).
  rewrite Ht. unfold print. mstep. rewrite save_tasks_eq. reflexivity.
Qed.

(** C3: for every task list and every 1-based index that is out of range
    (at most 0, or above the number of tasks), [complete_task] and
    [delete_task] hand the manager back unchanged and change the world
    only by printing "Invalid task number!": no task is mutated or
    removed, and the backing file is not rewritten. *)
Theorem out_of_range_index_is_rejected (task_num : Z) (self : TaskManager) (w : world) :
  task_num <= 0 \/ task_num > len (tasks self) ->
  complete_task task_num self w = (Ok self, say [Lit "Invalid task number!"] w) /\
  delete_task task_num self w = (Ok self, say [Lit "Invalid task number!"] w).
Proof.
  intros H. split.
  - by apply complete_task_out_of_range.
  - by apply delete_task_out_of_range.
Qed.

Lemma out_of_range_index_is_rejected_witness :
  (3 <= 0 \/ 3 > len (tasks two_tasks)) /\
  complete_task 3 two_tasks (quiet 0) =
    (Ok two_tasks, say [Lit "Invalid task number!"] (quiet 0)) /\
  delete_task 3 two_tasks (quiet 0) =
    (Ok two_tasks, say [Lit "Invalid task number!"] (quiet 0)).
Proof.
  assert (3 <= 0 \/ 3 > len (tasks two_tasks)) as H by (right; reflexivity).
  split; [exact H | ].
  exact (out_of_range_index_is_rejected 3 two_tasks (quiet 0) H).
Defined.

(** C10: for every title and description, [add_task] appends one task
    that carries them, is not completed ([completed] is [False],
    [completed_at] is [None]) and leaves the completed count of
    [get_task_count] as it was; the constructor sets [completed] to
    [False] whatever its arguments are. *)
Theorem added_task_starts_pending (title description : pyval) (self : TaskManager) (w : world) :
  (exists (task : Task) (w' : world),
     add_task title description self w = (Ok (set_tasks (tasks self ++ [task]) self), w') /\
     Models.title task = title /\ Models.description task = description /\
     completed task = PBool false /\ completed_at task = None /\
     completed_count (set_tasks (tasks self ++ [task]) self) = completed_count self) /\
  (forall (created_at completed_at : option datetime),
     exists (task : Task) (w' : world),
       Task_init title description created_at completed_at w = (Ok task, w') /\
       completed task = PBool false).
Proof.
  split.
  - exists (fresh_task title description w). eexists. split; [apply add_task_eq | ].
    repeat split.
    unfold completed_count, get_task_count. cbn.
    by rewrite filter_app, filter_cons_False, filter_nil, app_nil_r by (cbn; done).
  - intros [d | ] ca; cbn; eauto.
Qed.

(** ** Counting over sequences of operations *)

Lemma apply_ops_count (ops : list op) :
  forall (self : TaskManager) (w : world),
    exists (self' : TaskManager) (w' : world),
      apply_ops ops self w = (Ok self', w') /\
      len (tasks self') =
        len (tasks self) + adds ops - in_range_deletes (len (tasks self)) ops.
Proof.
  induction ops as [ | [title description | task_num] ops IH]; intros self w.
  - exists self, w. split; [reflexivity | cbn; lia].
  - cbn [apply_ops apply_op adds in_range_deletes].
    pose proof (add_task_eq title description self w) as Hadd. cbv zeta in Hadd.
    destruct (IH (set_tasks (tasks self ++ [fresh_task title description w]) self)
                 (saved (set_tasks (tasks self ++ [fresh_task title description w]) self)
                    (say [Lit "Task '"; Val title; Lit "' has been added!"]
                       (set_ticks (S (ticks w)) w))))
      as (self' & w' & Hrun & Hlen).
    exists self', w'. split.
    + rewrite (bind_ok _ _ _ _ _ Hadd). exact Hrun.
    + rewrite Hlen. unfold len, set_tasks. cbn [tasks].
      rewrite length_app. cbn [length].
      replace (Z.of_nat (length (tasks self) + 1))
        with (Z.of_nat (length (tasks self)) + 1) by lia.
      lia.
  - cbn [apply_ops apply_op adds in_range_deletes].
    destruct ((1 <=? task_num) && (task_num <=? len (tasks self))) eqn:Hrange.
    + apply andb_prop in Hrange as [H1 H2].
      apply Z.leb_le in H1. apply Z.leb_le in H2.
      destruct (lookup_lt_is_Some_2 (tasks self) (Z.to_nat (task_num - 1))) as [t Ht].
      { unfold len in H2. lia. }
      pose proof (delete_task_eq task_num self w t Ht H1) as Hdel. cbv zeta in Hdel.
      destruct (IH (set_tasks (delete (Z.to_nat (task_num - 1)) (tasks self)) self)
                   (saved (set_tasks (delete (Z.to_nat (task_num - 1)) (tasks self)) self)
                      (say [Lit "Task '"; Val (title t); Lit "' has been deleted!"] w)))
        as (self' & w' & Hrun & Hlen).
      exists self', w'. split.
      * rewrite (bind_ok _ _ _ _ _ Hdel). exact Hrun.
      * rewrite Hlen. unfold len, set_tasks. cbn [tasks].
        rewrite length_delete by eauto.
        apply lookup_lt_Some in Ht.
        replace (Z.of_nat (length (tasks self) - 1))
          with (Z.of_nat (length (tasks self)) - 1) by lia.
        lia.
    + assert (task_num <= 0 \/ task_num > len (tasks self)) as Hout.
      { apply andb_false_iff in Hrange as [H | H]; apply Z.leb_gt in H; lia. }
      pose proof (delete_task_out_of_range task_num self w Hout) as Hdel.
      destruct (IH self (say [Lit "Invalid task number!"] w)) as (self' & w' & Hrun & Hlen).
      exists self', w'. split.
      * rewrite (bind_ok _ _ _ _ _ Hdel). exact Hrun.
      * exact Hlen.
Qed.

(** C5: every sequence of [add_task] and [delete_task] calls on a manager
    that starts without tasks runs to its end, and the total that
    [get_task_count] then reports is the number of adds minus the number
    of deletes whose index was in range when they ran; this difference is
    never negative, a delete with an index out of range removing
    nothing. *)
Theorem count_is_adds_minus_deletes (ops : list op) (data_file : string) (w : world) :
  exists (self' : TaskManager) (w' : world),
    apply_ops ops (mkTaskManager [] data_file) w = (Ok self', w') /\
    (get_task_count self').1.1 = adds ops - in_range_deletes 0 ops /\
    0 <= adds ops - in_range_deletes 0 ops.
Proof.
  destruct (apply_ops_count ops (mkTaskManager [] data_file) w) as (self' & w' & Hrun & Hlen).
  exists self', w'. unfold get_task_count. cbn [fst]. unfold len in *.
  cbn [tasks length] in Hlen. change (Z.of_nat 0) with 0 in Hlen.
  repeat split; [exact Hrun | lia | lia].
Qed.

(** ** Timestamps survive [isoformat] and [fromisoformat] *)

Lemma digit_val_digit_char (n : N) :
  (n < 10)%N -> digit_val (digit_char n) = Some n.
Proof.
  intros H.
  destruct n as [ | p]; [reflexivity | ].
  do 4 (destruct p as [p | p | ]; try reflexivity; try lia).
Qed.

Lemma parse_digits_from_app (l1 l2 : list ascii) :
  forall acc : N,
    parse_digits_from acc (l1 ++ l2) =
    match parse_digits_from acc l1 with
    | Some a => parse_digits_from a l2
    | None => None
    end.
Proof.
  induction l1 as [ | c l1 IH]; intros acc; cbn; [reflexivity | ].
  destruct (digit_val c); [apply IH | reflexivity].
Qed.

Lemma parse_digits_from_pad (w : nat) :
  forall (n acc : N),
    parse_digits_from acc (pad w n) =
      Some (acc * 10 ^ N.of_nat w + n mod 10 ^ N.of_nat w)%N.
Proof.
  induction w as [ | w IH]; intros n acc.
  - cbn. f_equal. rewrite N.mod_1_r. lia.
  - cbn [pad]. rewrite parse_digits_from_app, IH. cbn [parse_digits_from].
    rewrite digit_val_digit_char by (apply N.mod_lt; lia).
    f_equal. rewrite Nat2N.inj_succ, N.pow_succ_r'.
    set (p := (10 ^ N.of_nat w)%N).
    assert (p <> 0)%N by (apply N.pow_nonzero; lia).
    rewrite (N.Div0.mod_mul_r n 10 p). lia.
Qed.

Lemma parse_digits_pad (w : nat) (n : N) :
  (n < 10 ^ N.of_nat w)%N -> parse_digits (pad w n) = Some n.
Proof.
  intros H. unfold parse_digits. rewrite parse_digits_from_pad.
  f_equal. rewrite N.mod_small by exact H. lia.
Qed.

Lemma days_in_month_le (y m : N) : (days_in_month y m <= 31)%N.
Proof.
  unfold days_in_month.
  destruct m as [ | p]; [lia | ].
  do 4 (try destruct p as [p | p | ]); try lia; destruct (is_leap y); lia.
Qed.

Lemma fromisoformat_isoformat (d : datetime) :
  valid_datetime d = true -> fromisoformat (isoformat d) = Some d.
Proof.
  intros Hv. pose proof Hv as Hv'.
  unfold valid_datetime in Hv'.
  repeat (apply andb_prop in Hv' as [Hv' ?]).
  repeat match goal with
         | H : (_ <=? _)%N = true |- _ => apply N.leb_le in H
         | H : (_ <? _)%N = true |- _ => apply N.ltb_lt in H
         end.
  unfold fromisoformat, isoformat.
  rewrite list_ascii_of_string_of_list_ascii.
  destruct d as [y m dd h mi s us].
  cbn [year month day hour minute second microsecond] in *.
  unfold iso_chars. cbn [year month day hour minute second microsecond].
  assert (parse_digits (pad 4 y) = Some y) as Hy by (apply parse_digits_pad; cbn; lia).
  assert (parse_digits (pad 2 m) = Some m) as Hm by (apply parse_digits_pad; cbn; lia).
  assert (parse_digits (pad 2 dd) = Some dd) as Hd.
  { apply parse_digits_pad; cbn. pose proof (days_in_month_le y m). lia. }
  assert (parse_digits (pad 2 h) = Some h) as Hh by (apply parse_digits_pad; cbn; lia).
  assert (parse_digits (pad 2 mi) = Some mi) as Hmi by (apply parse_digits_pad; cbn; lia).
  assert (parse_digits (pad 2 s) = Some s) as Hs by (apply parse_digits_pad; cbn; lia).
  assert (parse_digits (pad 6 us) = Some us) as Hus by (apply parse_digits_pad; cbn; lia).
  cbn [pad app] in *.
  destruct (us =? 0)%N eqn:Hz.
  - apply N.eqb_eq in Hz. subst us.
    cbn [parse_iso app is_dash Ascii.eqb Bool.eqb andb].
    rewrite Hy, Hm, Hd. cbn [mbind option_bind parse_time is_colon Ascii.eqb Bool.eqb].
    rewrite Hh, Hmi, Hs. cbn [mbind option_bind]. rewrite Hv. reflexivity.
  - cbn [parse_iso app is_dash Ascii.eqb Bool.eqb andb].
    rewrite Hy, Hm, Hd. cbn [mbind option_bind parse_time is_colon is_dot Ascii.eqb Bool.eqb].
    rewrite Hh, Hmi, Hs. cbn [mbind option_bind parse_fraction].
    rewrite Hus. cbn [mbind option_bind]. rewrite Hv. reflexivity.
Qed.

Lemma isoformat_truthy (d : datetime) : truthy (PStr (isoformat d)) = true.
Proof.
  unfold isoformat, iso_chars.
  cbn [pad app string_of_list_ascii truthy String.length]. reflexivity.
Qed.

(** ** Records back from [to_dict] *)

Lemma to_dict_lookups (t : Task) :
  to_dict_map t !! "title" = Some (title t) /\
  to_dict_map t !! "description" = Some (description t) /\
  to_dict_map t !! "completed" = Some (completed t) /\
  to_dict_map t !! "created_at" = Some (PStr (isoformat (created_at t))) /\
  to_dict_map t !! "completed_at" =
    Some (match completed_at t with Some d => PStr (isoformat d) | None => PNone end).
Proof. repeat split; reflexivity. Qed.

Lemma read_timestamp_present (m : gmap string pyval) (key : string) (d : datetime) (w : world) :
  m !! key = Some (PStr (isoformat d)) ->
  valid_datetime d = true ->
  read_timestamp (PDict m) key w = (Ok (Some d), w).
Proof.
  intros Hk Hv. unfold read_timestamp, dict_get, getitem, datetime_fromisoformat.
  rewrite Hk. mstep. rewrite isoformat_truthy.
  rewrite (fromisoformat_isoformat d Hv). reflexivity.
Qed.

Lemma read_timestamp_none (m : gmap string pyval) (key : string) (w : world) :
  m !! key = Some PNone ->
  read_timestamp (PDict m) key w = (Ok None, w).
Proof.
  intros Hk. unfold read_timestamp, dict_get. rewrite Hk. reflexivity.
Qed.

Lemma from_dict_to_dict (t : Task) (w : world) :
  well_formed_task t -> from_dict (to_dict t) w = (Ok t, w).
Proof.
  intros [Hc Hd].
  destruct (to_dict_lookups t) as (Ht & Hde & Hco & Hcr & Hca).
  unfold from_dict. change (to_dict t) with (PDict (to_dict_map t)).
  rewrite (bind_ok _ _ _ _ _ (read_timestamp_present _ _ _ w Hcr Hc)).
  assert (read_timestamp (PDict (to_dict_map t)) "completed_at" w
          = (Ok (completed_at t), w)) as Hr.
  { destruct (completed_at t) as [d | ].
    - by apply read_timestamp_present.
    - by apply read_timestamp_none. }
  rewrite (bind_ok _ _ _ _ _ Hr).
  unfold getitem, dict_get, Task_init. rewrite Ht, Hde, Hco. mstep.
  destruct t; reflexivity.
Qed.

Lemma mapM_from_dict_to_dict (ts : list Task) (w : world) :
  Forall well_formed_task ts ->
  mapM from_dict (to_dict <$> ts) w = (Ok ts, w).
Proof.
  induction 1 as [ | t ts Ht _ IH]; [reflexivity | ].
  cbn [fmap list_fmap mapM].
  rewrite (bind_ok _ _ _ _ _ (from_dict_to_dict t w Ht)).
  rewrite (bind_ok _ _ _ _ _ IH). reflexivity.
Qed.

(** ** What loads and what does not *)

Lemma read_timestamp_spec (m : gmap string pyval) (key : string) (w : world) :
  (read_timestamp (PDict m) key w).2 = w /\
  is_ok (read_timestamp (PDict m) key w).1 = timestamp_ok m key.
Proof.
  unfold read_timestamp, timestamp_ok, dict_get, getitem, datetime_fromisoformat.
  destruct (m !! key) as [v | ]; mstep; [ | by split].
  destruct (truthy v) eqn:Ht; [ | by split].
  destruct v as [ | b | z | s | l | d]; try by split.
  destruct (fromisoformat s) as [d | ]; split; reflexivity.
Qed.

Lemma from_dict_spec (data : pyval) (w : world) :
  clock_only w (from_dict data w).2 /\
  is_ok (from_dict data w).1 = is_record data.
Proof.
  destruct data as [ | b | z | s | l | m]; try (split; [apply clock_only_refl | reflexivity]).
  unfold from_dict, is_record.
  destruct (read_timestamp_spec m "created_at" w) as [Hw1 Ho1].
  destruct (read_timestamp_spec m "completed_at" w) as [Hw2 Ho2].
  mstep.
  destruct (read_timestamp (PDict m) "created_at" w) as [[c | e] w1];
    cbn in Hw1, Ho1; subst w1; rewrite <- Ho1.
  2: { split; [apply clock_only_refl | ]. cbn. by rewrite andb_false_r. }
  destruct (read_timestamp (PDict m) "completed_at" w) as [[c' | e] w1];
    cbn in Hw2, Ho2; subst w1; rewrite <- Ho2.
  2: { split; [apply clock_only_refl | ]. cbn. by rewrite !andb_false_r. }
  unfold getitem, dict_get, Task_init, datetime_now.
  destruct (m !! "title") as [t | ]; mstep.
  2: { split; [apply clock_only_refl | reflexivity ]. }
  destruct c as [d | ]; mstep; cbn [snd fst is_ok].
  - split; [apply clock_only_refl | reflexivity].
  - split; [ unfold clock_only; cbn; repeat split; lia | reflexivity].
Qed.

Lemma mapM_from_dict_spec (items : list pyval) :
  forall w : world,
    clock_only w (mapM from_dict items w).2 /\
    is_ok (mapM from_dict items w).1 = forallb is_record items /\
    forall ts, (mapM from_dict items w).1 = Ok ts -> length ts = length items.
Proof.
  induction items as [ | x items IH]; intros w.
  - split; [apply clock_only_refl | ]. split; [reflexivity | ].
    intros ts H. cbn in H. by inversion H.
  - cbn [mapM forallb].
    destruct (from_dict_spec x w) as [Hw Ho].
    mstep.
    destruct (from_dict x w) as [[t | e] w1]; cbn [fst snd is_ok] in Hw, Ho; rewrite <- Ho.
    2: { split; [exact Hw | split; [reflexivity | intros ts H; discriminate]]. }
    destruct (IH w1) as (Hw' & Ho' & Hl).
    destruct (mapM from_dict items w1) as [[ts | e] w2]; cbn [fst snd is_ok] in Hw', Ho', Hl;
      rewrite <- Ho'; cbn [fst snd is_ok].
    + split; [eapply clock_only_trans; eassumption | ]. split; [reflexivity | ].
      intros ts' H. inversion H. cbn. f_equal. by apply Hl.
    + split; [eapply clock_only_trans; eassumption | ]. split; [reflexivity | ].
      intros ts' H. discriminate.
Qed.

Lemma mapM_from_dict_strings (l : list string) (w : world) :
  forall ts w', mapM from_dict (PStr <$> l) w = (Ok ts, w') -> ts = [] /\ w' = w.
Proof.
  destruct l as [ | s l]; intros ts w' H.
  - cbn in H. by inversion H.
  - cbn in H. discriminate.
Qed.

Lemma load_tasks_missing (self : TaskManager) (w : world) :
  fs w !! data_file self = None -> load_tasks self w = (Ok self, w).
Proof.
  intros H. unfold load_tasks, try_except, try_catch, os_path_exists. mstep.
  rewrite H. rewrite bool_decide_eq_false_2; [reflexivity | ].
  intros [? ?]. discriminate.
Qed.

Lemma load_tasks_present (self : TaskManager) (w : world) (n : fnode) :
  fs w !! data_file self = Some n ->
  load_tasks self w =
    match n with
    | FJson v =>
        match iterate v w with
        | (Ok items, w1) =>
            match mapM from_dict items w1 with
            | (Ok ts, w2) => (Ok (set_tasks ts self), w2)
            | (Raise e, w2) => (Ok (set_tasks [] self), report "Error loading tasks: " e w2)
            end
        | (Raise e, w1) => (Ok (set_tasks [] self), report "Error loading tasks: " e w1)
        end
    | FGarbage => (Ok (set_tasks [] self), report "Error loading tasks: " JSONDecodeError w)
    | FDir => (Ok (set_tasks [] self), report "Error loading tasks: " OSError w)
    end.
Proof.
  intros H. unfold load_tasks, try_except, try_catch, os_path_exists, json_load_file.
  mstep. rewrite H. rewrite bool_decide_eq_true_2 by eauto.
  cbv beta iota. rewrite H.
  destruct n as [v | | ]; try reflexivity.
  destruct (iterate v w) as [[items | e] w1]; [ | reflexivity].
  destruct (mapM from_dict items w1) as [[ts | e] w2]; reflexivity.
Qed.

(** C7: constructing a [TaskManager] never raises; when the backing file
    is missing the manager starts with no tasks and nothing else happens;
    when the file holds text that is not JSON the manager starts with no
    tasks and the error is printed; and whenever the file holds anything
    but a JSON list of task records (a directory, a JSON value that is
    not a list, a list with an element that is not a record) the manager
    starts with no tasks as well.  The last part is about files whose
    timestamp strings are modelled: a timestamp counts as malformed when
    it does not begin with a year. *)
Theorem missing_or_malformed_file_starts_empty (data_file : string) (w : world) :
  (exists (m : TaskManager) (w' : world), TaskManager_init data_file w = (Ok m, w')) /\
  (fs w !! data_file = None ->
     TaskManager_init data_file w = (Ok (mkTaskManager [] data_file), w)) /\
  (fs w !! data_file = Some FGarbage ->
     TaskManager_init data_file w =
       (Ok (mkTaskManager [] data_file), report "Error loading tasks: " JSONDecodeError w)) /\
  (forall n : fnode,
     fs w !! data_file = Some n ->
     store_modelled n = true ->
     well_formed_store n = false ->
     exists w' : world,
       TaskManager_init data_file w = (Ok (mkTaskManager [] data_file), w')).
Proof.
  unfold TaskManager_init.
  set (self := mkTaskManager [] data_file).
  split; [ | split; [ | split]].
  - destruct (fs w !! data_file) as [n | ] eqn:Hn.
    + rewrite (load_tasks_present self w n Hn).
      destruct n as [v | | ]; eauto.
      destruct (iterate v w) as [[items | e] w1]; eauto.
      destruct (mapM from_dict items w1) as [[ts | e] w2]; eauto.
    + rewrite (load_tasks_missing self w Hn). eauto.
  - intros Hn. apply (load_tasks_missing self w Hn).
  - intros Hn. apply (load_tasks_present self w _ Hn).
  - intros n Hn _ Hbad. rewrite (load_tasks_present self w n Hn).
    destruct n as [v | | ]; eauto.
    destruct v as [ | b | z | s | l | m]; unfold iterate, raise; mstep; eauto.
    + change (fun c : ascii => PStr (String c EmptyString))
        with (PStr ∘ (fun c : ascii => String c EmptyString)).
      rewrite list_fmap_compose.
      destruct (mapM from_dict _ w) as [[ts | e] w2] eqn:Hm; eauto.
      apply mapM_from_dict_strings in Hm as [-> ->]. eauto.
    + destruct (mapM_from_dict_spec l w) as (_ & Ho & _).
      cbn [well_formed_store] in Hbad. rewrite Hbad in Ho.
      destruct (mapM from_dict l w) as [[ts | e] w2]; [discriminate | eauto].
    + destruct (mapM from_dict _ w) as [[ts | e] w2] eqn:Hm; eauto.
      apply mapM_from_dict_strings in Hm as [-> ->]. eauto.
Qed.

Lemma missing_or_malformed_file_starts_empty_witness :
  (fs (quiet 0) !! "tasks.json" = None /\
   TaskManager_init "tasks.json" (quiet 0) = (Ok (mkTaskManager [] "tasks.json"), quiet 0)) /\
  (fs (holding {[ "tasks.json" := FGarbage ]}) !! "tasks.json" = Some FGarbage /\
   TaskManager_init "tasks.json" (holding {[ "tasks.json" := FGarbage ]}) =
     (Ok (mkTaskManager [] "tasks.json"),
      report "Error loading tasks: " JSONDecodeError (holding {[ "tasks.json" := FGarbage ]}))) /\
  (fs (holding {[ "tasks.json" := FJson (PList undated_records) ]}) !! "tasks.json"
     = Some (FJson (PList undated_records)) /\
   store_modelled (FJson (PList undated_records)) = true /\
   well_formed_store (FJson (PList undated_records)) = false /\
   exists w' : world,
     TaskManager_init "tasks.json"
       (holding {[ "tasks.json" := FJson (PList undated_records) ]}) =
       (Ok (mkTaskManager [] "tasks.json"), w')).
Proof.
  assert (fs (quiet 0) !! "tasks.json" = None) as H1 by reflexivity.
  assert (fs (holding {[ "tasks.json" := FGarbage ]}) !! "tasks.json" = Some FGarbage)
    as H2 by reflexivity.
  assert (fs (holding {[ "tasks.json" := FJson (PList undated_records) ]}) !! "tasks.json"
          = Some (FJson (PList undated_records))) as H3 by reflexivity.
  assert (store_modelled (FJson (PList undated_records)) = true) as H4
    by (vm_compute; reflexivity).
  assert (well_formed_store (FJson (PList undated_records)) = false) as H5
    by (vm_compute; reflexivity).
  split; [ | split].
  - split; [exact H1 | ].
    exact (proj1 (proj2 (missing_or_malformed_file_starts_empty "tasks.json" _)) H1).
  - split; [exact H2 | ].
    exact (proj1 (proj2 (proj2 (missing_or_malformed_file_starts_empty "tasks.json" _))) H2).
  - split; [exact H3 | split; [exact H4 | split; [exact H5 | ]]].
    exact (proj2 (proj2 (proj2 (missing_or_malformed_file_starts_empty "tasks.json" _)))
             _ H3 H4 H5).
Defined.

(** C4: for every sequence of tasks whose timestamps are valid
    [datetime] values, and every backing path that [open] can open for
    writing (it is no directory, and the system lets the process write
    there), [save_tasks] writes the [to_dict] records of the tasks and a
    manager constructed on that file then holds the very same sequence:
    as many tasks, each with the title, description, completed flag,
    [created_at] and [completed_at] of the original. *)
Theorem save_then_load_round_trip (ts : list Task) (path : string) (w : world) :
  Forall well_formed_task ts ->
  can_open_for_writing path w = true ->
  save_tasks (mkTaskManager ts path) w = (Ok tt, written path ts w) /\
  TaskManager_init path (written path ts w) =
    (Ok (mkTaskManager ts path), written path ts w).
Proof.
  intros Hwf Hdir. split.
  - rewrite save_tasks_eq. f_equal. by apply saved_writable.
  - unfold TaskManager_init.
    rewrite (load_tasks_present _ _ (FJson (PList (to_dict <$> ts)))).
    + unfold iterate. mstep. by rewrite mapM_from_dict_to_dict.
    + unfold written. cbn. apply lookup_insert_eq.
Qed.

Lemma save_then_load_round_trip_witness :
  Forall well_formed_task [task_a; task_b] /\
  can_open_for_writing "tasks.json" (quiet 0) = true /\
  save_tasks two_tasks (quiet 0) = (Ok tt, written "tasks.json" [task_a; task_b] (quiet 0)) /\
  TaskManager_init "tasks.json" (written "tasks.json" [task_a; task_b] (quiet 0)) =
    (Ok two_tasks, written "tasks.json" [task_a; task_b] (quiet 0)).
Proof.
  assert (Forall well_formed_task [task_a; task_b]) as H1.
  { repeat constructor; reflexivity. }
  assert (can_open_for_writing "tasks.json" (quiet 0) = true) as H2 by reflexivity.
  split; [exact H1 | split; [exact H2 | ]].
  exact (save_then_load_round_trip [task_a; task_b] "tasks.json" (quiet 0) H1 H2).
Defined.

(** ** What an imported task carries *)

Lemma read_timestamp_value (m : gmap string pyval) (key : string)
    (w w' : world) (o : option datetime) :
  read_timestamp (PDict m) key w = (Ok o, w') -> o = timestamp_of m key.
Proof.
  unfold read_timestamp, timestamp_of, dict_get, getitem, datetime_fromisoformat.
  destruct (m !! key) as [v | ]; mstep; [ | intros H; by inversion H].
  destruct (truthy v) eqn:Ht.
  - destruct v as [ | b | z | s | l | d]; try discriminate.
    destruct (fromisoformat s) as [d | ]; intros H; by inversion H.
  - intros H. inversion H.
    destruct v as [ | b | z | s | l | d]; try reflexivity.
    destruct s; [reflexivity | discriminate].
Qed.

Lemma from_dict_carries (data : pyval) (w w' : world) (t : Task) :
  from_dict data w = (Ok t, w') -> carries w data t.
Proof.
  destruct data as [ | b | z | s | l | m]; try discriminate.
  unfold from_dict. mstep.
  destruct (read_timestamp_spec m "created_at" w) as [Hw1 _].
  destruct (read_timestamp (PDict m) "created_at" w) as [[c | e] w1] eqn:Hc;
    [ | discriminate].
  cbn in Hw1; subst w1. apply read_timestamp_value in Hc.
  destruct (read_timestamp_spec m "completed_at" w) as [Hw2 _].
  destruct (read_timestamp (PDict m) "completed_at" w) as [[c' | e] w1] eqn:Hc';
    [ | discriminate].
  cbn in Hw2; subst w1. apply read_timestamp_value in Hc'.
  unfold getitem, dict_get, Task_init, datetime_now.
  destruct (m !! "title") as [ti | ] eqn:Hti; mstep; [ | discriminate].
  destruct c as [d | ]; mstep; intros H; inversion H; subst t;
    exists m; rewrite <- Hc, <- Hc';
    cbn [title description completed created_at completed_at];
    repeat split; try (by destruct (m !! _)); eauto.
Qed.

Lemma carries_frame (w w' : world) (record : pyval) (t : Task) :
  datetime_at w' = datetime_at w -> carries w' record t -> carries w record t.
Proof.
  intros Hd (m & ? & ? & ? & ? & ? & Hc). exists m. repeat split; try assumption.
  destruct (timestamp_of m "created_at"); [exact Hc | by rewrite <- Hd].
Qed.

Lemma mapM_from_dict_carries (items : list pyval) :
  forall (w : world) (ts : list Task) (w' : world),
    mapM from_dict items w = (Ok ts, w') -> Forall2 (carries w) items ts.
Proof.
  induction items as [ | x items IH]; intros w ts w' H.
  - cbn in H. inversion H. constructor.
  - cbn [mapM] in H. revert H. mstep.
    destruct (from_dict_spec x w) as [Hw _].
    destruct (from_dict x w) as [[t | e] w1] eqn:Hx; [ | discriminate].
    destruct (mapM from_dict items w1) as [[ts' | e] w2] eqn:Hm; [ | discriminate].
    intros H. inversion H; subst. constructor.
    + by eapply from_dict_carries.
    + cbn [snd] in Hw. destruct Hw as (_ & _ & _ & _ & Hd & _).
      eapply Forall2_impl; [by eapply IH | ].
      intros r t'. by apply carries_frame.
Qed.

Lemma import_tasks_total (filename : string) (self : TaskManager) (w : world) :
  exists (self' : TaskManager) (w' : world), import_tasks filename self w = (Ok self', w').
Proof.
  unfold import_tasks, try_except, try_catch.
  match goal with
  | |- context [match ?body w with _ => _ end] => destruct (body w) as [[m | e] w1]
  end; eauto.
Qed.

(** C6: when the named file exists and holds a JSON list of task
    records, and the backing path can be opened for writing,
    [import_tasks] appends one task per record, in the order of the
    records, after the tasks already held; each appended task carries the
    fields of its record (title, description, completed flag and the two
    timestamps, with the defaults of [from_dict] where the record has
    none); the merged sequence is written to the backing file and the
    number imported is reported; when the named file does not exist it prints that the file
    was not found and hands the manager back unchanged; and it never
    raises. *)
Theorem import_appends_or_reports (filename : string) (self : TaskManager) (w : world) :
  (forall records : list pyval,
     fs w !! filename = Some (FJson (PList records)) ->
     forallb is_record records = true ->
     can_open_for_writing (data_file self) w = true ->
     exists (imported : list Task) (w1 : world),
       mapM from_dict records w = (Ok imported, w1) /\
       Forall2 (carries w) records imported /\
       clock_only w w1 /\
       import_tasks filename self w =
         (Ok (set_tasks (tasks self ++ imported) self),
          say [Lit "Successfully imported "; Lit (pretty (len imported));
               Lit " tasks from "; Lit filename]
              (written (data_file self) (tasks self ++ imported) w1)) /\
       fs (written (data_file self) (tasks self ++ imported) w1) !! data_file self =
         Some (FJson (PList (to_dict <$> (tasks self ++ imported)%list)))) /\
  (fs w !! filename = None ->
     import_tasks filename self w =
       (Ok self, say [Lit "File "; Lit filename; Lit " not found!"] w)) /\
  (exists (self' : TaskManager) (w' : world), import_tasks filename self w = (Ok self', w')).
Proof.
  split; [ | split].
  - intros records Hfile Hrec Hdir.
    destruct (mapM_from_dict_spec records w) as (Hclock & Hok & Hlen).
    rewrite Hrec in Hok.
    destruct (mapM from_dict records w) as [[imported | e] w1] eqn:Hmap; [ | discriminate].
    cbn [fst snd] in Hclock, Hlen.
    exists imported, w1. split; [reflexivity | ].
    split; [by apply (mapM_from_dict_carries records w imported w1) | ].
    split; [exact Hclock | ].
    destruct Hclock as (Hfs & _ & _ & _ & _ & _ & _ & Hwr & _). split.
    + unfold import_tasks, try_except, try_catch, os_path_exists, json_load_file, iterate, print.
      mstep. rewrite Hfile. rewrite bool_decide_eq_true_2 by eauto.
      cbv beta iota delta [negb]. rewrite Hfile. cbv beta iota.
      rewrite Hmap. cbv beta iota. rewrite save_tasks_eq.
      rewrite saved_writable
        by (cbn [data_file tasks set_tasks];
            rewrite (can_open_for_writing_frame _ w) by (by rewrite ?Hfs); exact Hdir).
      reflexivity.
    + unfold written. cbn. apply lookup_insert_eq.
  - intros Hfile.
    unfold import_tasks, try_except, try_catch, os_path_exists, print. mstep.
    rewrite Hfile. rewrite bool_decide_eq_false_2; [reflexivity | ].
    intros [? ?]. discriminate.
  - apply import_tasks_total.
Qed.

Lemma import_appends_or_reports_witness :
  (fs import_world !! "import.json" = Some (FJson (PList import_records)) /\
   forallb is_record import_records = true /\
   can_open_for_writing (data_file two_tasks) import_world = true /\
   import_tasks "import.json" two_tasks import_world =
     (Ok (mkTaskManager [task_a; task_b; imported_1; imported_2] "tasks.json"),
      say [Lit "Successfully imported "; Lit "2"; Lit " tasks from "; Lit "import.json"]
          (written "tasks.json" [task_a; task_b; imported_1; imported_2] import_world))) /\
  (fs import_world !! "nonexistent.json" = None /\
   import_tasks "nonexistent.json" two_tasks import_world =
     (Ok two_tasks, say [Lit "File "; Lit "nonexistent.json"; Lit " not found!"] import_world)).
Proof.
  assert (fs import_world !! "import.json" = Some (FJson (PList import_records)))
    as H1 by reflexivity.
  assert (forallb is_record import_records = true) as H2 by (vm_compute; reflexivity).
  assert (can_open_for_writing (data_file two_tasks) import_world = true) as H3
    by reflexivity.
  assert (fs import_world !! "nonexistent.json" = None) as H4 by reflexivity.
  split.
  - split; [exact H1 | split; [exact H2 | split; [exact H3 | ]]].
    destruct (proj1 (import_appends_or_reports "import.json" two_tasks import_world)
                import_records H1 H2 H3) as (imported & w1 & Hm & _ & _ & Hi & _).
    assert (mapM from_dict import_records import_world =
              (Ok [imported_1; imported_2], import_world)) as Hc
      by (vm_compute; reflexivity).
    rewrite Hc in Hm. inversion Hm; subst imported w1. exact Hi.
  - split; [exact H4 | ].
    exact (proj1 (proj2 (import_appends_or_reports "nonexistent.json" two_tasks import_world))
             H4).
Defined.

(** ** The watchdog *)

(** C8: [start_timeout] on a watchdog that is already running returns at
    once: the watchdog is handed back as it was (the activity timestamp
    and the thread are the old ones) and the world is untouched (the
    clock is not read, no thread is started). *)
Theorem start_timeout_while_running_is_noop (self : TimeoutManager) (w : world) :
  is_running self = true -> start_timeout self w = (Ok self, w).
Proof. intros H. unfold start_timeout. by rewrite H. Qed.

Lemma start_timeout_while_running_is_noop_witness :
  is_running (watchdog 180) = true /\
  start_timeout (watchdog 180) (quiet 0) = (Ok (watchdog 180), quiet 0).
Proof.
  assert (is_running (watchdog 180) = true) as H by reflexivity.
  split; [exact H | ].
  exact (start_timeout_while_running_is_noop (watchdog 180) (quiet 0) H).
Defined.

(** C1, as amended: when the watchdog is running and a poll finds that
    the time since the last recorded activity is at least the timeout,
    the loop body prints the two lines of the timeout notice, sets the
    run flag of the bound app to false and leaves the loop, so that the
    monitor thread finishes without any call of [stop_timeout]; the
    watchdog itself is handed back unchanged, its [is_running] still
    set. *)
Theorem expiry_stops_the_app_not_the_watchdog (self : TimeoutManager) (w : world) :
  is_running self = true ->
  (inject_Z (timeout_seconds self) <= time_at w (ticks w) - last_activity self)%Q ->
  timeout_monitor_body self w = (Ok (Break, self), expired self w) /\
  timeout_monitor_step Sleeping self w = (Ok (Finished, self), expired self w) /\
  (forall fuel : nat, _timeout_monitor (S fuel) self w = (Ok (Some self), expired self w)) /\
  (forall app : nat, app_instance self = Some app ->
     running_of (expired self w) !! app = Some false).
Proof.
  intros Hrun Hexp. apply Qle_bool_iff in Hexp.
  assert (timeout_monitor_body self w = (Ok (Break, self), expired self w)) as Hbody.
  { unfold timeout_monitor_body, time_time, print, set_running, expired, timeout_notice, say.
    rewrite Hrun. mstep. cbv beta iota delta [negb].
    cbn [time_at ticks set_ticks]. rewrite Hexp.
    destruct (app_instance self); reflexivity. }
  repeat split.
  - exact Hbody.
  - unfold timeout_monitor_step. mstep. by rewrite Hbody.
  - intros fuel. cbn [_timeout_monitor]. rewrite Hrun. mstep. by rewrite Hbody.
  - intros app Happ. unfold expired. rewrite Happ. cbn. apply lookup_insert_eq.
Qed.

Lemma expiry_stops_the_app_not_the_watchdog_witness :
  is_running (watchdog 1) = true /\
  (inject_Z (timeout_seconds (watchdog 1))
   <= time_at (quiet 5) (ticks (quiet 5)) - last_activity (watchdog 1))%Q /\
  timeout_monitor_body (watchdog 1) (quiet 5) =
    (Ok (Break, watchdog 1), expired (watchdog 1) (quiet 5)) /\
  running_of (expired (watchdog 1) (quiet 5)) !! 7%nat = Some false.
Proof.
  assert (is_running (watchdog 1) = true) as H1 by reflexivity.
  assert (inject_Z (timeout_seconds (watchdog 1))
          <= time_at (quiet 5) (ticks (quiet 5)) - last_activity (watchdog 1))%Q as H2.
  { apply Qle_bool_iff. vm_compute. reflexivity. }
  split; [exact H1 | split; [exact H2 | ]].
  split.
  - exact (proj1 (expiry_stops_the_app_not_the_watchdog (watchdog 1) (quiet 5) H1 H2)).
  - exact (proj2 (proj2 (proj2
             (expiry_stops_the_app_not_the_watchdog (watchdog 1) (quiet 5) H1 H2)))
             7%nat eq_refl).
Defined.

(** C1, as stated, fails: with a timeout of 1 second, the last activity
    at second 0 and the clock at second 5, the poll of a running
    watchdog does not hand back a watchdog marked as not running. *)
Lemma expiry_leaves_watchdog_running_counterexample :
  ~ (exists (self' : TimeoutManager) (w' : world),
       timeout_monitor_body (watchdog 1) (quiet 5) = (Ok (Break, self'), w') /\
       is_running self' = false).
Proof.
  intros (self' & w' & Hbody & Hidle).
  vm_compute in Hbody. inversion Hbody; subst self'. discriminate Hidle.
Qed.

(** ** The menu *)

Lemma get_user_choice_eq (line : string) (rest : list string)
    (self : TaskManagerApp) (w : world) :
  stdin w = line :: rest ->
  get_user_choice self w =
    (Ok (match py_int line with Some n => n | None => 0 end, touched self w),
     answered rest w).
Proof.
  intros Hin.
  unfold get_user_choice, try_catch, input_int, input, touch, reset_activity, time_time.
  mstep. cbn [stdin set_stdout]. rewrite Hin.
  destruct (py_int line) as [n | ]; reflexivity.
Qed.

Lemma dispatch_exit (self : TaskManagerApp) (w : world) :
  dispatch 0 self w = (Ok self, exited self w).
Proof. reflexivity. Qed.

Lemma dispatch_invalid (n : Z) (self : TaskManagerApp) (w : world) :
  n < 0 \/ 9 < n ->
  dispatch n self w = (Ok self, say invalid_choice w).
Proof.
  intros H. unfold dispatch.
  repeat match goal with
         | |- context [?a =? ?b] =>
             let E := fresh in destruct (Z.eqb_spec a b) as [E | E]; [lia | ]
         end.
  reflexivity.
Qed.

(** C2, as amended: for every menu input that [int] rejects,
    [get_user_choice] returns 0, the value of an explicit exit selection,
    and the main loop then takes its exit branch, which clears the run
    flag; an input that [int] accepts is returned as the number it
    denotes, and a number outside 0-9 reaches the last branch of the main
    loop, which prints the invalid-choice message and leaves the run
    flags as they were.  The input is a line of ASCII characters, at most
    4300 of them, where [py_int] is [int]. *)
Theorem unparsable_choice_exits_out_of_range_does_not
    (line : string) (rest : list string) (self : TaskManagerApp) (w : world) :
  stdin w = line :: rest ->
  plain_line line = true ->
  (py_int line = None ->
     get_user_choice self w = (Ok (0, touched self w), answered rest w) /\
     dispatch 0 (touched self w) (answered rest w) =
       (Ok (touched self w), exited (touched self w) (answered rest w)) /\
     running_of (exited (touched self w) (answered rest w)) !! self_id self = Some false) /\
  (forall n : Z,
     py_int line = Some n ->
     get_user_choice self w = (Ok (n, touched self w), answered rest w) /\
     (n < 0 \/ 9 < n ->
        dispatch n (touched self w) (answered rest w) =
          (Ok (touched self w), say invalid_choice (answered rest w)) /\
        running_of (say invalid_choice (answered rest w)) = running_of w)).
Proof.
  intros Hin _. pose proof (get_user_choice_eq line rest self w Hin) as Hc. split.
  - intros Hp. rewrite Hp in Hc. split; [exact Hc | ]. split; [apply dispatch_exit | ].
    unfold exited. cbn. apply lookup_insert_eq.
  - intros n Hp. rewrite Hp in Hc. split; [exact Hc | ].
    intros Hn. split; [by apply dispatch_invalid | reflexivity].
Qed.

Lemma unparsable_choice_exits_out_of_range_does_not_witness :
  (stdin (typing ["invalid"]) = "invalid" :: [] /\
   plain_line "invalid" = true /\
   py_int "invalid" = None /\
   get_user_choice app7 (typing ["invalid"]) =
     (Ok (0, touched app7 (typing ["invalid"])), answered [] (typing ["invalid"]))) /\
  (stdin (typing ["42"]) = "42" :: [] /\
   plain_line "42" = true /\
   py_int "42" = Some 42 /\
   (42 < 0 \/ 9 < 42) /\
   dispatch 42 (touched app7 (typing ["42"])) (answered [] (typing ["42"])) =
     (Ok (touched app7 (typing ["42"])), say invalid_choice (answered [] (typing ["42"])))).
Proof.
  assert (stdin (typing ["invalid"]) = "invalid" :: []) as H1 by reflexivity.
  assert (py_int "invalid" = None) as H2 by reflexivity.
  assert (stdin (typing ["42"]) = "42" :: []) as H3 by reflexivity.
  assert (py_int "42" = Some 42) as H4 by reflexivity.
  assert (42 < 0 \/ 9 < 42) as H5 by (right; reflexivity).
  assert (plain_line "invalid" = true) as H6 by reflexivity.
  assert (plain_line "42" = true) as H7 by reflexivity.
  split.
  - split; [exact H1 | split; [exact H6 | split; [exact H2 | ]]].
    exact (proj1 (proj1 (unparsable_choice_exits_out_of_range_does_not
                           "invalid" [] app7 _ H1 H6) H2)).
  - split; [exact H3 | split; [exact H7 | split; [exact H4 | split; [exact H5 | ]]]].
    exact (proj1 (proj2 (proj2 (unparsable_choice_exits_out_of_range_does_not
                                  "42" [] app7 _ H3 H7) 42 H4) H5)).
Defined.

(** C2, as stated, fails: the numeric selection 42 is outside 0-9, yet
    [get_user_choice] does not return 0 for it. *)
Lemma out_of_range_choice_is_not_exit_counterexample :
  ~ (exists (self' : TaskManagerApp) (w' : world),
       get_user_choice app7 (typing ["42"]) = (Ok (0, self'), w')).
Proof.
  intros (self' & w' & H). vm_compute in H. discriminate H.
Qed.

(** One pass of the main loop on the selection 42: the invalid-choice
    message is printed, the run flag stays set and the loop goes on to
    its "Press Enter" prompt. *)
Example run_iteration_on_42 :
  exists (self' : TaskManagerApp) (w' : world),
    run_iteration app7 (typing ["42"; ""]) = (Ok self', w') /\
    running_of w' !! 7%nat = Some true /\
    last (stdout w') = Some (Ask (nl +:+ "Press Enter to continue...")) /\
    Out invalid_choice ∈ stdout w'.
Proof.
  eexists _, _. split; [vm_compute; reflexivity | ].
  split; [reflexivity | ]. split; [reflexivity | ].
  cbn [stdout]. rewrite !elem_of_cons. do 15 right. left. reflexivity.
Qed.

(** ** Statistics: rounding in binary64 *)












(* ===================================================================== *)
(** * Further properties of the code *)
(* ===================================================================== *)


(** ** Completing and deleting in range *)

Lemma in_range_lookup (task_num : Z) (self : TaskManager) :
  1 <= task_num <= len (tasks self) ->
  (1 <=? task_num) && (task_num <=? len (tasks self)) = true /\
  exists t : Task, tasks self !! Z.to_nat (task_num - 1) = Some t.
Proof.
  intros [H1 H2]. split.
  - apply andb_true_intro. split; apply Z.leb_le; lia.
  - apply lookup_lt_is_Some_2. unfold len in H2. lia.
Qed.

Lemma complete_task_eq (task_num : Z) (self : TaskManager) (w : world) (t : Task) :
  tasks self !! Z.to_nat (task_num - 1) = Some t ->
  1 <= task_num ->
  let self' := set_tasks (<[Z.to_nat (task_num - 1) := completed_now t w]> (tasks self)) self in
  complete_task task_num self w =
    (Ok self',
     saved self' (say [Lit "Task "; Lit (pretty task_num); Lit " has been marked as completed!"]
                      (ticked w))).
Proof.
  intros Ht H1. unfold complete_task.
  assert (task_num <= len (tasks self)) as H2.
  { apply lookup_lt_Some in Ht. unfold len. lia. }
  replace ((1 <=? task_num) && (task_num <=? len (tasks self))) with true
    by (symmetry; apply andb_true_intro; split; apply Z.leb_le; lia).
  rewrite Ht. unfold mark_completed, datetime_now, print. mstep.
  rewrite save_tasks_eq. reflexivity.
Qed.

(** X1: [complete_task] with a task number between 1 and the number of
    tasks succeeds, keeps the backing path and the number of tasks, puts
    at index [task_num - 1] the same task with [completed] true and
    [completed_at] the clock reading, and leaves every other task as it
    was. *)
Theorem complete_task_marks_one_task (task_num : Z) (self : TaskManager) (w : world) :
  1 <= task_num <= len (tasks self) ->
  exists (t : Task) (self' : TaskManager) (w' : world),
    tasks self !! Z.to_nat (task_num - 1) = Some t /\
    complete_task task_num self w = (Ok self', w') /\
    data_file self' = data_file self /\
    length (tasks self') = length (tasks self) /\
    tasks self' !! Z.to_nat (task_num - 1) =
      Some (mkTask (title t) (description t) (PBool true) (created_at t)
                   (Some (datetime_at w (ticks w)))) /\
    (forall j : nat, j <> Z.to_nat (task_num - 1) -> tasks self' !! j = tasks self !! j).
Proof.
  intros Hr. destruct (in_range_lookup task_num self Hr) as [_ [t Ht]].
  pose proof (complete_task_eq task_num self w t Ht (proj1 Hr)) as Heq. cbv zeta in Heq.
  eexists t, _, _. split; [exact Ht | ]. split; [exact Heq | ].
  cbn [set_tasks tasks data_file]. split; [reflexivity | ].
  split; [apply length_insert | ]. split.
  - apply list_lookup_insert_eq. by eapply lookup_lt_Some.
  - intros j Hj. by apply list_lookup_insert_ne.
Qed.

Lemma complete_task_marks_one_task_witness :
  1 <= 2 <= len (tasks two_tasks) /\
  exists (t : Task) (self' : TaskManager) (w' : world),
    tasks two_tasks !! Z.to_nat (2 - 1) = Some t /\
    complete_task 2 two_tasks (quiet 0) = (Ok self', w') /\
    data_file self' = data_file two_tasks /\
    length (tasks self') = length (tasks two_tasks) /\
    tasks self' !! Z.to_nat (2 - 1) =
      Some (mkTask (title t) (description t) (PBool true) (created_at t)
                   (Some (datetime_at (quiet 0) (ticks (quiet 0))))) /\
    (forall j : nat, j <> Z.to_nat (2 - 1) -> tasks self' !! j = tasks two_tasks !! j).
Proof.
  assert (1 <= 2 <= len (tasks two_tasks)) as H by (split; vm_compute; discriminate).
  split; [exact H | ].
  exact (complete_task_marks_one_task 2 two_tasks (quiet 0) H).
Defined.

(** X2: [delete_task] with a task number between 1 and the number of
    tasks succeeds, removes exactly the task at index [task_num - 1] (the
    tasks before it keep their index, the tasks after it move down by
    one), keeps the backing path and prints that the task of that title
    has been deleted. *)
Theorem delete_task_removes_one_task (task_num : Z) (self : TaskManager) (w : world) :
  1 <= task_num <= len (tasks self) ->
  exists (t : Task) (self' : TaskManager) (w' : world),
    tasks self !! Z.to_nat (task_num - 1) = Some t /\
    delete_task task_num self w = (Ok self', w') /\
    data_file self' = data_file self /\
    S (length (tasks self')) = length (tasks self) /\
    Out [Lit "Task '"; Val (title t); Lit "' has been deleted!"] ∈ stdout w' /\
    (forall j : nat, (j < Z.to_nat (task_num - 1))%nat -> tasks self' !! j = tasks self !! j) /\
    (forall j : nat, (Z.to_nat (task_num - 1) <= j)%nat -> tasks self' !! j = tasks self !! S j).
Proof.
  intros Hr. destruct (in_range_lookup task_num self Hr) as [_ [t Ht]].
  pose proof (delete_task_eq task_num self w t Ht (proj1 Hr)) as Heq. cbv zeta in Heq.
  eexists t, _, _. split; [exact Ht | ]. split; [exact Heq | ].
  cbn [set_tasks tasks data_file]. split; [reflexivity | ].
  split.
  { rewrite length_delete by eauto. apply lookup_lt_Some in Ht. lia. }
  split.
  { unfold saved, written, report, say.
    destruct (can_open_for_writing _ _); cbn [stdout set_stdout set_fs];
      rewrite !elem_of_app, !list_elem_of_singleton; auto. }
  split.
  - intros j Hj. by apply list_lookup_delete_lt.
  - intros j Hj. by apply list_lookup_delete_ge.
Qed.

Lemma delete_task_removes_one_task_witness :
  1 <= 1 <= len (tasks two_tasks) /\
  exists (t : Task) (self' : TaskManager) (w' : world),
    tasks two_tasks !! Z.to_nat (1 - 1) = Some t /\
    delete_task 1 two_tasks (quiet 0) = (Ok self', w') /\
    data_file self' = data_file two_tasks /\
    S (length (tasks self')) = length (tasks two_tasks) /\
    Out [Lit "Task '"; Val (title t); Lit "' has been deleted!"] ∈ stdout w' /\
    (forall j : nat, (j < Z.to_nat (1 - 1))%nat -> tasks self' !! j = tasks two_tasks !! j) /\
    (forall j : nat, (Z.to_nat (1 - 1) <= j)%nat -> tasks self' !! j = tasks two_tasks !! S j).
Proof.
  assert (1 <= 1 <= len (tasks two_tasks)) as H by (split; vm_compute; discriminate).
  split; [exact H | ].
  exact (delete_task_removes_one_task 1 two_tasks (quiet 0) H).
Defined.


(** ** Counts *)

Lemma done_in_app (l1 l2 : list Task) : done_in (l1 ++ l2) = (done_in l1 + done_in l2)%nat.
Proof. unfold done_in. by rewrite filter_app, length_app. Qed.

Lemma done_in_cons (t : Task) (l : list Task) :
  done_in (t :: l) = ((if is_done t then 1 else 0) + done_in l)%nat.
Proof.
  unfold done_in, is_done. rewrite filter_cons.
  destruct (decide (truthy (completed t) = true)) as [H | H].
  - by rewrite H.
  - destruct (truthy (completed t)); [done | reflexivity].
Qed.

Lemma done_in_insert (l : list Task) (i : nat) (t x : Task) :
  l !! i = Some t ->
  (done_in (<[i := x]> l) + (if is_done t then 1 else 0)
   = done_in l + (if is_done x then 1 else 0))%nat.
Proof.
  intros Ht. rewrite insert_take_drop by (by eapply lookup_lt_Some).
  rewrite <- (take_drop_middle l i t Ht) at 3.
  rewrite !done_in_app, !done_in_cons. lia.
Qed.

Lemma done_in_delete (l : list Task) (i : nat) (t : Task) :
  l !! i = Some t ->
  (done_in (delete i l) + (if is_done t then 1 else 0) = done_in l)%nat.
Proof.
  intros Ht. rewrite delete_take_drop.
  rewrite <- (take_drop_middle l i t Ht) at 3.
  rewrite !done_in_app, !done_in_cons. lia.
Qed.

Lemma get_task_count_eq (self : TaskManager) :
  get_task_count self =
    (len (tasks self), Z.of_nat (done_in (tasks self)),
     len (tasks self) - Z.of_nat (done_in (tasks self))).
Proof. reflexivity. Qed.

(** X3: after [complete_task] on a task in range, [get_task_count] is
    unchanged when the task already counted as completed; otherwise the
    completed count is one higher, the pending count one lower and the
    total the same. *)
Theorem complete_task_moves_one_to_completed
    (task_num : Z) (self : TaskManager) (w : world) (t : Task) :
  1 <= task_num ->
  tasks self !! Z.to_nat (task_num - 1) = Some t ->
  exists (self' : TaskManager) (w' : world),
    complete_task task_num self w = (Ok self', w') /\
    get_task_count self' =
      if is_done t then get_task_count self
      else ((get_task_count self).1.1,
            completed_count self + 1,
            pending_count self - 1).
Proof.
  intros H1 Ht.
  pose proof (complete_task_eq task_num self w t Ht H1) as Heq. cbv zeta in Heq.
  eexists _, _. split; [exact Heq | ].
  unfold completed_count, pending_count. rewrite !get_task_count_eq.
  cbn [set_tasks tasks fst snd]. unfold len. rewrite length_insert.
  pose proof (done_in_insert (tasks self) _ t (completed_now t w) Ht) as Hd.
  change (is_done (completed_now t w)) with true in Hd.
  destruct (is_done t).
  - do 2 f_equal; [f_equal | ]; lia.
  - f_equal; [f_equal | ]; lia.
Qed.

Lemma complete_task_moves_one_to_completed_witness :
  1 <= 2 /\
  tasks two_tasks !! Z.to_nat (2 - 1) = Some task_b /\
  get_task_count two_tasks = (2, 1, 1) /\
  exists (self' : TaskManager) (w' : world),
    complete_task 2 two_tasks (quiet 0) = (Ok self', w') /\
    get_task_count self' = (2, 2, 0).
Proof.
  assert (1 <= 2) as H1 by lia.
  assert (tasks two_tasks !! Z.to_nat (2 - 1) = Some task_b) as H2 by reflexivity.
  split; [exact H1 | split; [exact H2 | split; [reflexivity | ]]].
  exact (complete_task_moves_one_to_completed 2 two_tasks (quiet 0) task_b H1 H2).
Defined.

(** X4: after [delete_task] on a task in range, the total of
    [get_task_count] is one lower, and so is the completed count when the
    removed task counted as completed, the pending count otherwise. *)
Theorem delete_task_takes_one_from_counts
    (task_num : Z) (self : TaskManager) (w : world) (t : Task) :
  1 <= task_num ->
  tasks self !! Z.to_nat (task_num - 1) = Some t ->
  exists (self' : TaskManager) (w' : world),
    delete_task task_num self w = (Ok self', w') /\
    get_task_count self' =
      if is_done t
      then ((get_task_count self).1.1 - 1, completed_count self - 1, pending_count self)
      else ((get_task_count self).1.1 - 1, completed_count self, pending_count self - 1).
Proof.
  intros H1 Ht.
  pose proof (delete_task_eq task_num self w t Ht H1) as Heq. cbv zeta in Heq.
  eexists _, _. split; [exact Heq | ].
  unfold completed_count, pending_count. rewrite !get_task_count_eq.
  cbn [set_tasks tasks fst snd]. unfold len.
  rewrite length_delete by eauto.
  pose proof (done_in_delete (tasks self) _ t Ht) as Hd.
  apply lookup_lt_Some in Ht.
  destruct (is_done t); (f_equal; [f_equal | ]); lia.
Qed.

Lemma delete_task_takes_one_from_counts_witness :
  1 <= 1 /\
  tasks two_tasks !! Z.to_nat (1 - 1) = Some task_a /\
  get_task_count two_tasks = (2, 1, 1) /\
  exists (self' : TaskManager) (w' : world),
    delete_task 1 two_tasks (quiet 0) = (Ok self', w') /\
    get_task_count self' = (1, 0, 1).
Proof.
  assert (1 <= 1) as H1 by lia.
  assert (tasks two_tasks !! Z.to_nat (1 - 1) = Some task_a) as H2 by reflexivity.
  split; [exact H1 | split; [exact H2 | split; [reflexivity | ]]].
  exact (delete_task_takes_one_from_counts 1 two_tasks (quiet 0) task_a H1 H2).
Defined.


(** ** The backing file follows memory *)

Lemma fromisoformat_valid (s : string) (d : datetime) :
  fromisoformat s = Some d -> valid_datetime d = true.
Proof.
  unfold fromisoformat, parse_iso. intros H.
  repeat (case_match; try discriminate).
  all: repeat match goal with
         | H : mbind _ ?m = Some _ |- _ =>
             let E := fresh "E" in destruct m eqn:E; cbn [mbind option_bind] in H;
             [ | discriminate]
         | H : (let '(_, _) := ?p in _) = Some _ |- _ => destruct p
         | H : (if valid_datetime ?r then _ else _) = Some _ |- _ =>
             let E := fresh "E" in
             destruct (valid_datetime r) eqn:E; [inversion H; subst; exact E | discriminate]
         end.
Qed.

Lemma read_timestamp_valid (m : gmap string pyval) (key : string) (w w' : world) (d : datetime) :
  read_timestamp (PDict m) key w = (Ok (Some d), w') -> valid_datetime d = true.
Proof.
  unfold read_timestamp, dict_get, getitem, datetime_fromisoformat.
  destruct (m !! key) as [v | ]; mstep; [ | discriminate].
  destruct (truthy v); [ | discriminate].
  destruct v as [ | b | z | s | l | d']; try discriminate.
  destruct (fromisoformat s) as [d0 | ] eqn:E; [ | discriminate].
  intros H. inversion H; subst. by eapply fromisoformat_valid.
Qed.

Lemma from_dict_well_formed (data : pyval) (w w' : world) (t : Task) :
  clock_valid w -> from_dict data w = (Ok t, w') -> well_formed_task t.
Proof.
  intros Hclock.
  destruct data as [ | b | z | s | l | m]; try discriminate.
  unfold from_dict.
  destruct (read_timestamp_spec m "created_at" w) as [Hw1 _].
  destruct (read_timestamp_spec m "completed_at" w) as [Hw2 _].
  mstep.
  destruct (read_timestamp (PDict m) "created_at" w) as [[c | e] w1] eqn:E1;
    cbn in Hw1; subst w1; [ | discriminate].
  destruct (read_timestamp (PDict m) "completed_at" w) as [[c' | e] w1] eqn:E2;
    cbn in Hw2; subst w1; [ | discriminate].
  unfold getitem, dict_get, Task_init, datetime_now.
  destruct (m !! "title") as [ti | ]; mstep; [ | discriminate].
  assert (match c' with Some d => valid_datetime d = true | None => True end) as Hc'.
  { destruct c' as [d | ]; [ | exact I]. by eapply read_timestamp_valid. }
  destruct c as [d | ]; mstep; intros H; inversion H; subst; split; cbn; try exact Hc'.
  - by eapply read_timestamp_valid.
  - apply Hclock.
Qed.

Lemma clock_only_valid (w w' : world) : clock_only w w' -> clock_valid w -> clock_valid w'.
Proof. intros (_ & _ & _ & _ & Hd & _) H n. rewrite Hd. apply H. Qed.

Lemma mapM_from_dict_well_formed (items : list pyval) :
  forall (w w' : world) (ts : list Task),
    clock_valid w -> mapM from_dict items w = (Ok ts, w') -> Forall well_formed_task ts.
Proof.
  induction items as [ | x items IH]; intros w w' ts Hclock H.
  - cbn in H. inversion H. constructor.
  - cbn [mapM] in H. revert H. mstep.
    destruct (from_dict_spec x w) as [Hw _].
    destruct (from_dict x w) as [[t | e] w1] eqn:E1; [ | discriminate].
    cbn [snd] in Hw.
    destruct (mapM from_dict items w1) as [[ts' | e] w2] eqn:E2; [ | discriminate].
    intros H. inversion H; subst. constructor.
    + by eapply from_dict_well_formed.
    + eapply IH; [ | exact E2]. by eapply clock_only_valid.
Qed.

Lemma clear_all_tasks_eq (self : TaskManager) (w : world) :
  clear_all_tasks self w =
    (Ok (set_tasks [] self),
     say [Lit "All tasks have been cleared!"] (saved (set_tasks [] self) w)).
Proof. unfold clear_all_tasks, print. mstep. rewrite save_tasks_eq. reflexivity. Qed.

Lemma export_tasks_eq (filename : string) (self : TaskManager) (w : world) :
  export_tasks (Some filename) self w = (Ok tt, exported filename self w).
Proof.
  unfold export_tasks, try_except, try_catch, json_dump_file, print, print_exn, exported.
  mstep. destruct (can_open_for_writing filename w); reflexivity.
Qed.

Lemma export_tasks_auto_eq (self : TaskManager) (w : world) :
  export_tasks None self w =
    (Ok tt,
     exported ("tasks_export_" +:+ strftime_compact (datetime_at w (ticks w)) +:+ ".json")
              self (ticked w)).
Proof.
  unfold export_tasks, datetime_now, try_except, try_catch, json_dump_file,
    print, print_exn, exported, ticked.
  mstep.
  match goal with
  | |- context [can_open_for_writing ?f ?w1] => destruct (can_open_for_writing f w1)
  end; reflexivity.
Qed.

(** What [import_tasks] can do: report a missing file, report an error,
    or append and save. *)
Lemma import_tasks_cases (filename : string) (self : TaskManager) (w : world) :
  (fs w !! filename = None /\
   import_tasks filename self w =
     (Ok self, say [Lit "File "; Lit filename; Lit " not found!"] w)) \/
  (exists (e : exn) (w1 : world),
     clock_only w w1 /\
     import_tasks filename self w = (Ok self, report "Error importing tasks: " e w1)) \/
  (exists (imported : list Task) (w1 : world),
     clock_only w w1 /\
     (clock_valid w -> Forall well_formed_task imported) /\
     import_tasks filename self w =
       (Ok (set_tasks (tasks self ++ imported) self),
        say [Lit "Successfully imported "; Lit (pretty (len imported));
             Lit " tasks from "; Lit filename]
            (saved (set_tasks (tasks self ++ imported) self) w1))).
Proof.
  unfold import_tasks, try_except, try_catch, os_path_exists, json_load_file, print, print_exn.
  mstep.
  destruct (fs w !! filename) as [n | ] eqn:Hn.
  - right. rewrite bool_decide_eq_true_2 by eauto. cbv beta iota delta [negb].
    rewrite Hn.
    destruct n as [v | | ]; cbv beta iota.
    + destruct (iterate v w) as [[items | e] w1] eqn:Hit; cbv beta iota.
      * assert (w1 = w) as ->.
        { destruct v; cbn in Hit; inversion Hit; reflexivity. }
        destruct (mapM_from_dict_spec items w) as (Hclock & _ & _).
        destruct (mapM from_dict items w) as [[imported | e] w2] eqn:Hmap; cbv beta iota.
        -- right. exists imported, w2. cbn [snd] in Hclock. split; [exact Hclock | ].
           split; [intros Hv; by eapply mapM_from_dict_well_formed | ].
           rewrite save_tasks_eq. reflexivity.
        -- left. exists e, w2. split; [exact Hclock | reflexivity].
      * left. exists e, w1. split; [ | reflexivity].
        destruct v; cbn in Hit; inversion Hit; apply clock_only_refl.
    + left. exists JSONDecodeError, w. split; [apply clock_only_refl | reflexivity].
    + left. exists OSError, w. split; [apply clock_only_refl | reflexivity].
  - left. split; [reflexivity | ].
    rewrite bool_decide_eq_false_2; [reflexivity | ]. intros [? ?]. discriminate.
Qed.


Lemma to_dict_modelled (ts : list Task) :
  Forall well_formed_task ts -> forallb record_modelled (to_dict <$> ts) = true.
Proof.
  induction 1 as [ | t ts [Hc Hd] _ IH]; [reflexivity | ].
  cbn [fmap list_fmap forallb]. rewrite IH, andb_true_r.
  destruct (to_dict_lookups t) as (_ & _ & _ & Hcr & Hca).
  change (to_dict t) with (PDict (to_dict_map t)).
  unfold record_modelled, timestamp_modelled, iso_modelled. rewrite Hcr, Hca.
  rewrite (fromisoformat_isoformat _ Hc). rewrite bool_decide_eq_true_2 by eauto.
  destruct (completed_at t) as [d | ]; [ | reflexivity].
  rewrite (fromisoformat_isoformat _ Hd). by rewrite bool_decide_eq_true_2 by eauto.
Qed.

Lemma files_modelled_written (path : string) (ts : list Task) (w : world) :
  Forall well_formed_task ts -> files_modelled w -> files_modelled (written path ts w).
Proof.
  intros Hwf Hm p n. unfold written. cbn [fs set_fs].
  destruct (decide (p = path)) as [-> | Hne].
  - rewrite lookup_insert_eq. intros H. inversion H. by apply to_dict_modelled.
  - rewrite lookup_insert_ne by done. apply Hm.
Qed.

Lemma session_ok_frame (self : TaskManager) (w w' : world) :
  fs w' = fs w -> datetime_at w' = datetime_at w -> writable w' = writable w ->
  session_ok self w -> session_ok self w'.
Proof.
  intros Hfs Hd Hwr (H1 & H2 & H3 & H4 & H5).
  unfold session_ok, persisted, synced, clock_valid, files_modelled in *.
  rewrite (can_open_for_writing_frame _ w w') by (by rewrite ?Hfs).
  rewrite Hfs, Hd. auto.
Qed.

Lemma session_ok_saved (ts : list Task) (self : TaskManager) (w : world) :
  can_open_for_writing (data_file self) w = true ->
  clock_valid w ->
  files_modelled w ->
  Forall well_formed_task ts ->
  session_ok (set_tasks ts self) (saved (set_tasks ts self) w).
Proof.
  intros Hopen Hclock Hmod Hwf.
  rewrite saved_writable by exact Hopen.
  split; [by apply can_open_for_writing_written | ].
  split; [exact Hclock | ]. split; [exact Hwf | ].
  split; [ | by apply files_modelled_written].
  left. unfold synced, written. cbn [set_tasks data_file tasks fs set_fs].
  apply lookup_insert_eq.
Qed.

Lemma session_ok_exported (filename : string) (self : TaskManager) (w : world) :
  session_ok self w -> session_ok self (exported filename self w).
Proof.
  intros Hok. unfold exported.
  destruct (can_open_for_writing filename w) eqn:Hf.
  2: by apply (session_ok_frame self w).
  destruct Hok as (H1 & H2 & H3 & H4 & H5).
  split; [ | split; [exact H2 | split; [exact H3 | split]]].
  - rewrite (can_open_for_writing_frame _ (written filename (tasks self) w)) by reflexivity.
    by apply can_open_for_writing_written.
  - unfold persisted, synced, say, written in *. cbn [fs set_fs set_stdout].
    destruct (decide (filename = data_file self)) as [-> | Hne].
    + rewrite lookup_insert_eq. by left.
    + by rewrite lookup_insert_ne by exact Hne.
  - by apply (files_modelled_written filename (tasks self) w).
Qed.

Lemma run_command_keeps_session (c : command) (self : TaskManager) (w : world) :
  session_ok self w ->
  exists (self' : TaskManager) (w' : world),
    run_command c self w = (Ok self', w') /\
    data_file self' = data_file self /\
    session_ok self' w'.
Proof.
  intros Hok. pose proof Hok as (Hdir & Hclock & Hwf & Hper & Hmod).
  destruct c as [title description | task_num | task_num | | filename | filename];
    cbn [run_command].
  - pose proof (add_task_eq title description self w) as Heq. cbv zeta in Heq.
    eexists _, _. split; [exact Heq | ]. split; [reflexivity | ].
    apply session_ok_saved; [exact Hdir | exact Hclock | exact Hmod | ].
    apply Forall_app. split; [exact Hwf | ].
    constructor; [ | constructor]. split; [apply Hclock | exact I].
  - destruct (decide (1 <= task_num <= len (tasks self))) as [Hr | Hr].
    + destruct (in_range_lookup task_num self Hr) as [_ [t Ht]].
      pose proof (complete_task_eq task_num self w t Ht (proj1 Hr)) as Heq. cbv zeta in Heq.
      eexists _, _. split; [exact Heq | ]. split; [reflexivity | ].
      apply session_ok_saved; [exact Hdir | exact Hclock | exact Hmod | ].
      apply Forall_insert; [exact Hwf | ].
      split; [ | apply Hclock].
      exact (proj1 (Forall_lookup_1 _ _ _ _ Hwf Ht)).
    + rewrite complete_task_out_of_range by lia.
      eexists _, _. split; [reflexivity | ]. split; [reflexivity | ].
      by apply (session_ok_frame self w).
  - destruct (decide (1 <= task_num <= len (tasks self))) as [Hr | Hr].
    + destruct (in_range_lookup task_num self Hr) as [_ [t Ht]].
      pose proof (delete_task_eq task_num self w t Ht (proj1 Hr)) as Heq. cbv zeta in Heq.
      eexists _, _. split; [exact Heq | ]. split; [reflexivity | ].
      apply session_ok_saved; [exact Hdir | exact Hclock | exact Hmod | ].
      by apply Forall_delete.
    + rewrite delete_task_out_of_range by lia.
      eexists _, _. split; [reflexivity | ]. split; [reflexivity | ].
      by apply (session_ok_frame self w).
  - rewrite clear_all_tasks_eq.
    eexists _, _. split; [reflexivity | ]. split; [reflexivity | ].
    eapply session_ok_frame;
      [ | | | apply session_ok_saved; [exact Hdir | exact Hclock | exact Hmod | constructor]];
      reflexivity.
  - destruct (import_tasks_cases filename self w)
      as [[_ Heq] | [(e & w1 & Hc & Heq) | (imported & w1 & Hc & Himp & Heq)]];
      rewrite Heq; eexists _, _; (split; [reflexivity | ]); (split; [reflexivity | ]).
    + by apply (session_ok_frame self w).
    + destruct Hc as (Hfs & _ & _ & _ & Hd & _ & _ & Hwr & _).
      by apply (session_ok_frame self w).
    + pose proof Hc as (Hfs & _ & _ & _ & Hd & _ & _ & Hwr & _).
      eapply session_ok_frame;
        [ | | | apply session_ok_saved;
                [ rewrite (can_open_for_writing_frame _ w) by (by rewrite ?Hfs); exact Hdir
                | by eapply clock_only_valid
                | unfold files_modelled; by rewrite Hfs
                | apply Forall_app; split; [exact Hwf | by apply Himp] ] ];
        reflexivity.
  - destruct filename as [f | ].
    + rewrite (bind_ok _ _ _ _ _ (export_tasks_eq f self w)).
      eexists _, _. split; [reflexivity | ]. split; [reflexivity | ].
      by apply session_ok_exported.
    + rewrite (bind_ok _ _ _ _ _ (export_tasks_auto_eq self w)).
      eexists _, _. split; [reflexivity | ]. split; [reflexivity | ].
      apply session_ok_exported. by apply (session_ok_frame self w).
Qed.

Lemma run_commands_keep_session (cs : list command) :
  forall (self : TaskManager) (w : world),
    session_ok self w ->
    exists (self' : TaskManager) (w' : world),
      run_commands cs self w = (Ok self', w') /\
      data_file self' = data_file self /\
      session_ok self' w'.
Proof.
  induction cs as [ | c cs IH]; intros self w Hok.
  - exists self, w. split; [reflexivity | split; [reflexivity | exact Hok]].
  - destruct (run_command_keeps_session c self w Hok) as (self1 & w1 & Hrun & Hfile & Hok1).
    destruct (IH self1 w1 Hok1) as (self' & w' & Hrun' & Hfile' & Hok').
    exists self', w'. split; [ | split; [congruence | exact Hok']].
    cbn [run_commands]. rewrite (bind_ok _ _ _ _ _ Hrun). exact Hrun'.
Qed.

Lemma reload_gives_back (self : TaskManager) (w : world) :
  session_ok self w -> TaskManager_init (data_file self) w = (Ok self, w).
Proof.
  intros (_ & _ & Hwf & [Hs | [Hnil Hnone]] & _); unfold TaskManager_init.
  - rewrite (load_tasks_present (mkTaskManager [] (data_file self)) w _ Hs).
    unfold iterate. mstep. rewrite mapM_from_dict_to_dict by exact Hwf.
    by destruct self.
  - rewrite (load_tasks_missing (mkTaskManager [] (data_file self)) w Hnone).
    destruct self. cbn in *. by subst.
Qed.

(** X5: when the backing path can be opened for writing, timestamps are
    valid (those of the files being modelled ones) and the backing file
    agrees with the tasks in memory (or does not exist while there are
    none), every sequence of [add_task], [complete_task],
    [delete_task], [clear_all_tasks], [import_tasks] and [export_tasks]
    calls, whatever their arguments, returns normally, leaves the backing
    file in agreement with memory, and a manager constructed afterwards on
    the same path holds exactly the tasks in memory. *)
Theorem session_survives_restart (cs : list command) (self : TaskManager) (w : world) :
  session_ok self w ->
  exists (self' : TaskManager) (w' : world),
    run_commands cs self w = (Ok self', w') /\
    persisted self' w' /\
    TaskManager_init (data_file self) w' = (Ok self', w').
Proof.
  intros Hok.
  destruct (run_commands_keep_session cs self w Hok) as (self' & w' & Hrun & Hfile & Hok').
  exists self', w'. split; [exact Hrun | ]. split; [exact (proj1 (proj2 (proj2 (proj2 Hok')))) | ].
  rewrite <- Hfile. by apply reload_gives_back.
Qed.

Lemma session_survives_restart_witness :
  session_ok two_tasks stored /\
  exists (self' : TaskManager) (w' : world),
    run_commands [DoAdd (PStr "Task 3") (PStr ""); DoComplete 2; DoDelete 1; DoDelete 7;
                  DoExport None; DoImport "tasks.json"; DoImport "missing.json"]
                 two_tasks stored = (Ok self', w') /\
    persisted self' w' /\
    TaskManager_init (data_file two_tasks) w' = (Ok self', w').
Proof.
  assert (session_ok two_tasks stored) as H.
  { split; [reflexivity | ].
    split; [intros n; reflexivity | ].
    split; [repeat constructor; reflexivity | ].
    split; [left; reflexivity | ].
    apply (files_modelled_written "tasks.json" [task_a; task_b] (quiet 0));
      [repeat constructor; reflexivity | ].
    intros path n Hn. cbn in Hn. by rewrite lookup_empty in Hn. }
  split; [exact H | ].
  exact (session_survives_restart _ two_tasks stored H).
Defined.


(** ** Failing writes, exports and imports *)

Lemma saved_unwritable (self : TaskManager) (w : world) :
  fs w !! data_file self = Some FDir ->
  saved self w = report "Error saving tasks: " OSError w.
Proof. intros H. unfold saved, can_open_for_writing. by rewrite H. Qed.

(** X6: when the backing path cannot be opened for writing, [add_task],
    in-range [complete_task] and [delete_task], and [clear_all_tasks]
    still change the tasks in memory and print their message of success;
    the failed save shows only as the line [Error saving tasks: ...], and
    nothing is raised. *)
Theorem unwritable_backing_file_is_reported
    (self : TaskManager) (w : world) :
  fs w !! data_file self = Some FDir ->
  (forall title description : pyval,
     add_task title description self w =
       (Ok (set_tasks (tasks self ++ [fresh_task title description w]) self),
        report "Error saving tasks: " OSError
          (say [Lit "Task '"; Val title; Lit "' has been added!"] (ticked w)))) /\
  (forall (task_num : Z) (t : Task),
     1 <= task_num -> tasks self !! Z.to_nat (task_num - 1) = Some t ->
     complete_task task_num self w =
       (Ok (set_tasks (<[Z.to_nat (task_num - 1) := completed_now t w]> (tasks self)) self),
        report "Error saving tasks: " OSError
          (say [Lit "Task "; Lit (pretty task_num); Lit " has been marked as completed!"]
               (ticked w))) /\
     delete_task task_num self w =
       (Ok (set_tasks (delete (Z.to_nat (task_num - 1)) (tasks self)) self),
        report "Error saving tasks: " OSError
          (say [Lit "Task '"; Val (title t); Lit "' has been deleted!"] w))) /\
  clear_all_tasks self w =
    (Ok (set_tasks [] self),
     say [Lit "All tasks have been cleared!"] (report "Error saving tasks: " OSError w)).
Proof.
  intros Hdir. split; [ | split].
  - intros title description.
    pose proof (add_task_eq title description self w) as Heq. cbv zeta in Heq.
    rewrite Heq. by rewrite saved_unwritable.
  - intros task_num t H1 Ht. split.
    + pose proof (complete_task_eq task_num self w t Ht H1) as Heq. cbv zeta in Heq.
      rewrite Heq. by rewrite saved_unwritable.
    + pose proof (delete_task_eq task_num self w t Ht H1) as Heq. cbv zeta in Heq.
      rewrite Heq. by rewrite saved_unwritable.
  - rewrite clear_all_tasks_eq. by rewrite saved_unwritable.
Qed.

Lemma unwritable_backing_file_is_reported_witness :
  fs locked !! data_file two_tasks = Some FDir /\
  add_task (PStr "Task 3") (PStr "") two_tasks locked =
    (Ok (set_tasks (tasks two_tasks ++ [fresh_task (PStr "Task 3") (PStr "") locked])
                   two_tasks),
     report "Error saving tasks: " OSError
       (say [Lit "Task '"; Val (PStr "Task 3"); Lit "' has been added!"] (ticked locked))) /\
  clear_all_tasks two_tasks locked =
    (Ok (set_tasks [] two_tasks),
     say [Lit "All tasks have been cleared!"]
         (report "Error saving tasks: " OSError locked)).
Proof.
  assert (fs locked !! data_file two_tasks = Some FDir) as H by reflexivity.
  split; [exact H | ]. split.
  - exact (proj1 (unwritable_backing_file_is_reported two_tasks locked H)
             (PStr "Task 3") (PStr "")).
  - exact (proj2 (proj2 (unwritable_backing_file_is_reported two_tasks locked H))).
Defined.

Lemma load_written (path : string) (ts : list Task) (w : world) :
  Forall well_formed_task ts ->
  fs w !! path = Some (FJson (PList (to_dict <$> ts))) ->
  TaskManager_init path w = (Ok (mkTaskManager ts path), w).
Proof.
  intros Hwf Hf. unfold TaskManager_init.
  rewrite (load_tasks_present (mkTaskManager [] path) w _ Hf).
  unfold iterate. mstep. by rewrite mapM_from_dict_to_dict.
Qed.

Lemma import_tasks_success (filename : string) (self : TaskManager) (w w1 : world)
    (records : list pyval) (imported : list Task) :
  fs w !! filename = Some (FJson (PList records)) ->
  mapM from_dict records w = (Ok imported, w1) ->
  import_tasks filename self w =
    (Ok (set_tasks (tasks self ++ imported) self),
     say [Lit "Successfully imported "; Lit (pretty (len imported));
          Lit " tasks from "; Lit filename]
         (saved (set_tasks (tasks self ++ imported) self) w1)).
Proof.
  intros Hfile Hmap.
  unfold import_tasks, try_except, try_catch, os_path_exists, json_load_file, iterate, print.
  mstep. rewrite Hfile. rewrite bool_decide_eq_true_2 by eauto.
  cbv beta iota delta [negb]. rewrite Hfile. cbv beta iota.
  rewrite Hmap. cbv beta iota. rewrite save_tasks_eq. reflexivity.
Qed.

(** X7: [export_tasks] to a named path that [open] can open for writing
    (it is no directory, and the system lets the process write there)
    writes the records of the tasks there, changes no other file and
    reports the path; a manager constructed on that path holds the same
    tasks, and [import_tasks] from it appends them to another manager.
    When the path cannot be opened, the failure is printed, no file
    changes and nothing is raised. *)
Theorem export_can_be_loaded_and_imported
    (filename : string) (self other : TaskManager) (w : world) :
  (Forall well_formed_task (tasks self) ->
   can_open_for_writing filename w = true ->
   let w' := say [Lit "Tasks exported to "; Lit filename] (written filename (tasks self) w) in
   export_tasks (Some filename) self w = (Ok tt, w') /\
   (forall path : string, path <> filename -> fs w' !! path = fs w !! path) /\
   TaskManager_init filename w' = (Ok (mkTaskManager (tasks self) filename), w') /\
   import_tasks filename other w' =
     (Ok (set_tasks (tasks other ++ tasks self) other),
      say [Lit "Successfully imported "; Lit (pretty (len (tasks self)));
           Lit " tasks from "; Lit filename]
          (saved (set_tasks (tasks other ++ tasks self) other) w'))) /\
  (can_open_for_writing filename w = false ->
   export_tasks (Some filename) self w =
     (Ok tt, report "Error exporting tasks: " OSError w)).
Proof.
  split.
  - intros Hwf Hdir w'.
    assert (fs w' !! filename = Some (FJson (PList (to_dict <$> tasks self)))) as Hf.
    { unfold w', say, written. cbn. apply lookup_insert_eq. }
    split; [ | split; [ | split]].
    + rewrite export_tasks_eq. unfold exported. by rewrite Hdir.
    + intros path Hne. unfold w', say, written. cbn. by apply lookup_insert_ne.
    + by apply load_written.
    + apply (import_tasks_success _ _ _ _ _ _ Hf). by apply mapM_from_dict_to_dict.
  - intros H. rewrite export_tasks_eq. unfold exported. by rewrite H.
Qed.

Lemma export_can_be_loaded_and_imported_witness :
  Forall well_formed_task (tasks two_tasks) /\
  can_open_for_writing "export.json" (quiet 0) = true /\
  (let w' := say [Lit "Tasks exported to "; Lit "export.json"]
                 (written "export.json" (tasks two_tasks) (quiet 0)) in
   export_tasks (Some "export.json") two_tasks (quiet 0) = (Ok tt, w') /\
   TaskManager_init "export.json" w' = (Ok (mkTaskManager (tasks two_tasks) "export.json"), w')) /\
  can_open_for_writing "export.json" (holding {[ "export.json" := FDir ]}) = false /\
  export_tasks (Some "export.json") two_tasks (holding {[ "export.json" := FDir ]}) =
    (Ok tt, report "Error exporting tasks: " OSError (holding {[ "export.json" := FDir ]})).
Proof.
  assert (Forall well_formed_task (tasks two_tasks)) as H1
    by (repeat constructor; reflexivity).
  assert (can_open_for_writing "export.json" (quiet 0) = true) as H2 by reflexivity.
  assert (can_open_for_writing "export.json" (holding {[ "export.json" := FDir ]}) = false)
    as H3 by reflexivity.
  split; [exact H1 | split; [exact H2 | ]].
  pose proof (proj1 (export_can_be_loaded_and_imported "export.json" two_tasks two_tasks
                       (quiet 0)) H1 H2) as H.
  cbv zeta in H. split; [ | split; [exact H3 | ]].
  - cbv zeta. exact (conj (proj1 H) (proj1 (proj2 (proj2 H)))).
  - exact (proj2 (export_can_be_loaded_and_imported "export.json" two_tasks two_tasks
                    (holding {[ "export.json" := FDir ]})) H3).
Defined.

(** X8: when the import file holds a JSON list of which at least one
    entry is not a task record, [import_tasks] imports none of the
    entries: it hands the manager back unchanged, writes no file and
    prints [Error importing tasks: ...].  The timestamp strings of the
    file are modelled ones: a timestamp makes an entry fail when it does
    not begin with a year. *)
Theorem import_is_all_or_nothing
    (filename : string) (self : TaskManager) (w : world) (records : list pyval) :
  fs w !! filename = Some (FJson (PList records)) ->
  forallb record_modelled records = true ->
  forallb is_record records = false ->
  exists (e : exn) (w1 : world),
    clock_only w w1 /\
    import_tasks filename self w = (Ok self, report "Error importing tasks: " e w1).
Proof.
  intros Hfile _ Hbad.
  unfold import_tasks, try_except, try_catch, os_path_exists, json_load_file, iterate,
    print, print_exn.
  mstep. rewrite Hfile. rewrite bool_decide_eq_true_2 by eauto.
  cbv beta iota delta [negb]. rewrite Hfile. cbv beta iota.
  destruct (mapM_from_dict_spec records w) as (Hclock & Hok & _).
  rewrite Hbad in Hok.
  destruct (mapM from_dict records w) as [[ts | e] w1]; [discriminate | ].
  exists e, w1. split; [exact Hclock | reflexivity].
Qed.

Lemma import_is_all_or_nothing_witness :
  fs mixed_world !! "import.json" = Some (FJson (PList mixed_records)) /\
  forallb record_modelled mixed_records = true /\
  forallb is_record mixed_records = false /\
  exists (e : exn) (w1 : world),
    clock_only mixed_world w1 /\
    import_tasks "import.json" two_tasks mixed_world =
      (Ok two_tasks, report "Error importing tasks: " e w1).
Proof.
  assert (fs mixed_world !! "import.json" = Some (FJson (PList mixed_records))) as H1
    by reflexivity.
  assert (forallb record_modelled mixed_records = true) as H2 by (vm_compute; reflexivity).
  assert (forallb is_record mixed_records = false) as H3 by (vm_compute; reflexivity).
  split; [exact H1 | split; [exact H2 | split; [exact H3 | ]]].
  exact (import_is_all_or_nothing "import.json" two_tasks mixed_world mixed_records
           H1 H2 H3).
Defined.

(** X9: [import_tasks] does not look for duplicates: importing the
    backing file itself, when it agrees with memory and can be opened for
    writing, appends a second copy of every task and writes the doubled
    list back. *)
Theorem importing_the_backing_file_doubles_the_tasks (self : TaskManager) (w : world) :
  Forall well_formed_task (tasks self) ->
  synced self w ->
  can_open_for_writing (data_file self) w = true ->
  import_tasks (data_file self) self w =
    (Ok (set_tasks (tasks self ++ tasks self) self),
     say [Lit "Successfully imported "; Lit (pretty (len (tasks self)));
          Lit " tasks from "; Lit (data_file self)]
         (written (data_file self) (tasks self ++ tasks self) w)).
Proof.
  intros Hwf Hs Hopen.
  rewrite (import_tasks_success _ _ _ w _ (tasks self) Hs)
    by (by apply mapM_from_dict_to_dict).
  by rewrite saved_writable.
Qed.

Lemma importing_the_backing_file_doubles_the_tasks_witness :
  Forall well_formed_task (tasks two_tasks) /\
  synced two_tasks stored /\
  can_open_for_writing (data_file two_tasks) stored = true /\
  import_tasks "tasks.json" two_tasks stored =
    (Ok (mkTaskManager [task_a; task_b; task_a; task_b] "tasks.json"),
     say [Lit "Successfully imported "; Lit "2"; Lit " tasks from "; Lit "tasks.json"]
         (written "tasks.json" [task_a; task_b; task_a; task_b] stored)).
Proof.
  assert (Forall well_formed_task (tasks two_tasks)) as H1
    by (repeat constructor; reflexivity).
  assert (synced two_tasks stored) as H2 by reflexivity.
  assert (can_open_for_writing (data_file two_tasks) stored = true) as H3 by reflexivity.
  split; [exact H1 | split; [exact H2 | split; [exact H3 | ]]].
  exact (importing_the_backing_file_doubles_the_tasks two_tasks stored H1 H2 H3).
Defined.


(** ** Records: defaults and rejections *)

(** X10: [from_dict] needs only a title: with [created_at] and
    [completed_at] absent or false it makes a task with the description
    [""] and [completed] false unless the record gives them, created at
    the clock reading and never completed. *)
Theorem from_dict_fills_in_defaults
    (m : gmap string pyval) (w : world) (title : pyval) :
  m !! "title" = Some title ->
  no_timestamp m "created_at" ->
  no_timestamp m "completed_at" ->
  from_dict (PDict m) w =
    (Ok (mkTask title
                (default (PStr "") (m !! "description"))
                (default (PBool false) (m !! "completed"))
                (datetime_at w (ticks w)) None),
     ticked w).
Proof.
  intros Ht Hc Hd.
  assert (forall key, no_timestamp m key -> read_timestamp (PDict m) key w = (Ok None, w)) as Hr.
  { intros key Hk. unfold no_timestamp in Hk. unfold read_timestamp, dict_get. mstep.
    destruct (m !! key) as [v | ]; [by rewrite Hk | reflexivity]. }
  unfold from_dict.
  rewrite (bind_ok _ _ _ _ _ (Hr _ Hc)), (bind_ok _ _ _ _ _ (Hr _ Hd)).
  unfold getitem, dict_get, Task_init, datetime_now. rewrite Ht. mstep.
  destruct (m !! "description"), (m !! "completed"); reflexivity.
Qed.

Lemma from_dict_fills_in_defaults_witness :
  ({[ "title" := PStr "Only a title" ]} : gmap string pyval) !! "title" =
    Some (PStr "Only a title") /\
  no_timestamp {[ "title" := PStr "Only a title" ]} "created_at" /\
  no_timestamp {[ "title" := PStr "Only a title" ]} "completed_at" /\
  from_dict (PDict {[ "title" := PStr "Only a title" ]}) (quiet 0) =
    (Ok (mkTask (PStr "Only a title") (PStr "") (PBool false) noon None), ticked (quiet 0)).
Proof.
  assert (({[ "title" := PStr "Only a title" ]} : gmap string pyval) !! "title" =
            Some (PStr "Only a title")) as H1 by reflexivity.
  assert (no_timestamp {[ "title" := PStr "Only a title" ]} "created_at") as H2
    by (vm_compute; exact I).
  assert (no_timestamp {[ "title" := PStr "Only a title" ]} "completed_at") as H3
    by (vm_compute; exact I).
  split; [exact H1 | split; [exact H2 | split; [exact H3 | ]]].
  exact (from_dict_fills_in_defaults _ (quiet 0) _ H1 H2 H3).
Defined.

Lemma fromisoformat_no_year (s : string) :
  begins_with_year s = false -> fromisoformat s = None.
Proof.
  unfold begins_with_year, fromisoformat, parse_iso.
  destruct (list_ascii_of_string s) as [ | y1 [ | y2 [ | y3 [ | y4 l]]]]; try reflexivity.
  intros H. apply bool_decide_eq_false in H.
  destruct (parse_digits [y1; y2; y3; y4]) as [y | ] eqn:Hy; [by destruct H | ].
  destruct l as [ | d1 [ | m1 [ | m2 [ | d2 [ | a1 [ | a2 rest]]]]]]; try reflexivity.
  destruct (is_dash d1 && is_dash d2); reflexivity.
Qed.

(** X11: what [from_dict] rejects, and how: a value that is not a
    dictionary raises [AttributeError]; a true timestamp entry that is not
    a string raises [TypeError]; a non-empty timestamp string that does
    not begin with a year raises [ValueError]; a record with
    acceptable timestamps and no title raises [KeyError] for the title.
    The timestamps are read before the title, [created_at] first. *)
Theorem from_dict_rejections (w : world) :
  (forall data : pyval,
     (forall m, data <> PDict m) -> from_dict data w = (Raise AttributeError, w)) /\
  (forall (m : gmap string pyval) (key : string) (v : pyval),
     key = "created_at" \/ (key = "completed_at" /\ no_timestamp m "created_at") ->
     m !! key = Some v -> truthy v = true ->
     (forall s, v <> PStr s) ->
     from_dict (PDict m) w = (Raise TypeError, w)) /\
  (forall (m : gmap string pyval) (key s : string),
     key = "created_at" \/ (key = "completed_at" /\ no_timestamp m "created_at") ->
     m !! key = Some (PStr s) -> s <> "" -> begins_with_year s = false ->
     from_dict (PDict m) w = (Raise ValueError, w)) /\
  (forall m : gmap string pyval,
     timestamp_ok m "created_at" = true -> timestamp_ok m "completed_at" = true ->
     m !! "title" = None ->
     from_dict (PDict m) w = (Raise (KeyError "title"), w)).
Proof.
  assert (forall m key, no_timestamp m key -> read_timestamp (PDict m) key w = (Ok None, w)) as Hnone.
  { intros m key Hk. unfold no_timestamp in Hk. unfold read_timestamp, dict_get. mstep.
    destruct (m !! key) as [v | ]; [by rewrite Hk | reflexivity]. }
  assert (forall m key v, m !! key = Some v -> truthy v = true -> (forall s, v <> PStr s) ->
            read_timestamp (PDict m) key w = (Raise TypeError, w)) as Htype.
  { intros m key v Hk Ht Hs. unfold read_timestamp, dict_get, getitem, datetime_fromisoformat.
    rewrite Hk. mstep. rewrite Ht.
    destruct v as [ | b | z | s | l | d]; try reflexivity. by destruct (Hs s). }
  assert (forall m key s, m !! key = Some (PStr s) -> s <> "" -> fromisoformat s = None ->
            read_timestamp (PDict m) key w = (Raise ValueError, w)) as Hvalue.
  { intros m key s Hk Hs Hf. unfold read_timestamp, dict_get, getitem, datetime_fromisoformat.
    rewrite Hk. mstep.
    replace (truthy (PStr s)) with true by (destruct s; [done | reflexivity]).
    by rewrite Hf. }
  split; [ | split; [ | split]].
  - intros data Hd. destruct data as [ | b | z | s | l | m]; try reflexivity.
    by destruct (Hd m).
  - intros m key v [-> | [-> Hc]] Hk Ht Hs; unfold from_dict.
    + unfold mbind at 1, M_bind at 1. by rewrite (Htype _ _ _ Hk Ht Hs).
    + rewrite (bind_ok _ _ _ _ _ (Hnone _ _ Hc)).
      unfold mbind at 1, M_bind at 1. by rewrite (Htype _ _ _ Hk Ht Hs).
  - intros m key s [-> | [-> Hc]] Hk Hs Hf; apply fromisoformat_no_year in Hf;
      unfold from_dict.
    + unfold mbind at 1, M_bind at 1. by rewrite (Hvalue _ _ _ Hk Hs Hf).
    + rewrite (bind_ok _ _ _ _ _ (Hnone _ _ Hc)).
      unfold mbind at 1, M_bind at 1. by rewrite (Hvalue _ _ _ Hk Hs Hf).
  - intros m Hc Hd Ht. unfold from_dict.
    destruct (read_timestamp_spec m "created_at" w) as [Hw1 Ho1].
    destruct (read_timestamp_spec m "completed_at" w) as [Hw2 Ho2].
    rewrite Hc in Ho1. rewrite Hd in Ho2. mstep.
    destruct (read_timestamp (PDict m) "created_at" w) as [[c | e] w1];
      cbn in Hw1, Ho1; [subst w1 | discriminate].
    destruct (read_timestamp (PDict m) "completed_at" w) as [[c' | e] w1];
      cbn in Hw2, Ho2; [subst w1 | discriminate].
    unfold getitem. by rewrite Ht.
Qed.

Lemma from_dict_rejections_witness :
  from_dict (PList []) (quiet 0) = (Raise AttributeError, quiet 0) /\
  from_dict (PDict {[ "title" := PStr "t"; "created_at" := PInt 5 ]}) (quiet 0) =
    (Raise TypeError, quiet 0) /\
  from_dict (PDict {[ "title" := PStr "t"; "completed_at" := PStr "yesterday" ]}) (quiet 0) =
    (Raise ValueError, quiet 0) /\
  from_dict (PDict {[ "description" := PStr "d" ]}) (quiet 0) =
    (Raise (KeyError "title"), quiet 0).
Proof.
  pose proof (from_dict_rejections (quiet 0)) as (Ha & Ht & Hv & Hk).
  split; [ | split; [ | split]].
  - apply Ha. intros m. discriminate.
  - apply (Ht _ "created_at" (PInt 5)).
    + left. reflexivity.
    + reflexivity.
    + reflexivity.
    + intros s. discriminate.
  - apply (Hv _ "completed_at" "yesterday").
    + right. split; [reflexivity | vm_compute; exact I].
    + reflexivity.
    + discriminate.
    + reflexivity.
  - apply Hk; reflexivity.
Defined.


(** ** More on the watchdog *)

Lemma timeout_monitor_body_quiet (self : TimeoutManager) (w : world) :
  is_running self = true ->
  (time_at w (ticks w) - last_activity self < inject_Z (timeout_seconds self))%Q ->
  timeout_monitor_body self w = (Ok (Continue, self), ticked w).
Proof.
  intros Hrun Hq. unfold timeout_monitor_body, time_time.
  rewrite Hrun. mstep. cbv beta iota delta [negb].
  cbn [time_at ticks set_ticks].
  destruct (Qle_bool _ _) eqn:E; [ | reflexivity].
  apply Qle_bool_iff in E. exfalso. eapply Qlt_not_le; eassumption.
Qed.

Lemma timeout_monitor_body_expiry (self : TimeoutManager) (w : world) :
  is_running self = true ->
  (inject_Z (timeout_seconds self) <= time_at w (ticks w) - last_activity self)%Q ->
  timeout_monitor_body self w = (Ok (Break, self), expired self w).
Proof.
  intros Hrun Hexp. apply Qle_bool_iff in Hexp.
  unfold timeout_monitor_body, time_time, print, set_running, expired, timeout_notice, say.
  rewrite Hrun. mstep. cbv beta iota delta [negb].
  cbn [time_at ticks set_ticks]. rewrite Hexp.
  destruct (app_instance self); reflexivity.
Qed.

(** X12: [reset_activity] stores the clock reading, and a poll of the
    running watchdog made less than [timeout_seconds] after that reading
    prints nothing, leaves the run flag alone and goes on polling. *)
Theorem activity_within_the_timeout_keeps_the_session
    (self : TimeoutManager) (w w' : world) :
  is_running self = true ->
  (time_at w' (ticks w') - time_at w (ticks w) < inject_Z (timeout_seconds self))%Q ->
  reset_activity self w = (Ok (refreshed self w), ticked w) /\
  timeout_monitor_body (refreshed self w) w' = (Ok (Continue, refreshed self w), ticked w') /\
  timeout_monitor_step Sleeping (refreshed self w) w' =
    (Ok (AtLoopTest, refreshed self w), ticked w').
Proof.
  intros Hrun Hq. split; [reflexivity | ].
  assert (timeout_monitor_body (refreshed self w) w'
          = (Ok (Continue, refreshed self w), ticked w')) as Hbody.
  { apply timeout_monitor_body_quiet; [exact Hrun | exact Hq]. }
  split; [exact Hbody | ].
  unfold timeout_monitor_step. mstep. by rewrite Hbody.
Qed.

Lemma activity_within_the_timeout_keeps_the_session_witness :
  is_running (watchdog 180) = true /\
  (time_at (quiet 100) (ticks (quiet 100)) - time_at (quiet 0) (ticks (quiet 0))
   < inject_Z (timeout_seconds (watchdog 180)))%Q /\
  timeout_monitor_step Sleeping (refreshed (watchdog 180) (quiet 0)) (quiet 100) =
    (Ok (AtLoopTest, refreshed (watchdog 180) (quiet 0)), ticked (quiet 100)).
Proof.
  assert (is_running (watchdog 180) = true) as H1 by reflexivity.
  assert ((time_at (quiet 100) (ticks (quiet 100)) - time_at (quiet 0) (ticks (quiet 0))
           < inject_Z (timeout_seconds (watchdog 180)))%Q) as H2 by reflexivity.
  split; [exact H1 | split; [exact H2 | ]].
  exact (proj2 (proj2 (activity_within_the_timeout_keeps_the_session
                         (watchdog 180) (quiet 0) (quiet 100) H1 H2))).
Defined.

(** X13: [stop_timeout] clears the running flag and changes nothing else,
    a second call is the same as one, and from then on the monitor ends at
    its next loop test without reading the clock or printing. *)
Theorem stopped_watchdog_says_nothing (self : TimeoutManager) (w : world) :
  stop_timeout self w = (Ok (with_running false self), w) /\
  stop_timeout (with_running false self) w = (Ok (with_running false self), w) /\
  (forall (pc : thread_pc) (w' : world),
     timeout_monitor_step pc (with_running false self) w' =
       (Ok (Finished, with_running false self), w')) /\
  (forall (fuel : nat) (w' : world),
     _timeout_monitor fuel (with_running false self) w' =
       (Ok (Some (with_running false self)), w')).
Proof.
  assert (forall self0 : TimeoutManager,
            stop_timeout self0 w = (Ok (with_running false self0), w)) as Hstop.
  { intros self0. unfold stop_timeout, thread_is_alive, thread_join, with_running.
    cbn [timeout_thread]. destruct (timeout_thread self0) as [t | ]; [ | reflexivity].
    mstep. destruct (threads w !! t) as [[ | | ] | ]; reflexivity. }
  split; [apply Hstop | ]. split; [apply (Hstop (with_running false self)) | ].
  split.
  - intros [ | | ] w'; reflexivity.
  - intros [ | fuel] w'; reflexivity.
Qed.

(** X14: [start_timeout] always returns a running watchdog, and a second
    call right after it changes nothing; started from a stopped watchdog
    it records the clock reading as the last activity and starts exactly
    one monitor thread. *)
Theorem start_timeout_twice_is_once (self : TimeoutManager) (w : world) :
  exists (self1 : TimeoutManager) (w1 : world),
    start_timeout self w = (Ok self1, w1) /\
    is_running self1 = true /\
    start_timeout self1 w1 = (Ok self1, w1) /\
    (is_running self = false ->
       last_activity self1 = time_at w (ticks w) /\
       timeout_thread self1 = Some (length (threads w)) /\
       threads w1 = (threads w ++ [AtLoopTest])%list /\
       ticks w1 = S (ticks w)).
Proof.
  unfold start_timeout.
  destruct (is_running self) eqn:Hrun.
  - exists self, w. rewrite Hrun. repeat split; discriminate.
  - eexists _, _. split; [reflexivity | ]. cbn [is_running]. repeat split.
Qed.

Lemma start_timeout_twice_is_once_witness :
  is_running (with_running false (watchdog 180)) = false /\
  exists (self1 : TimeoutManager) (w1 : world),
    start_timeout (with_running false (watchdog 180)) (quiet 0) = (Ok self1, w1) /\
    is_running self1 = true /\
    start_timeout self1 w1 = (Ok self1, w1) /\
    timeout_thread self1 = Some 1%nat /\
    threads w1 = [Sleeping; AtLoopTest].
Proof.
  assert (is_running (with_running false (watchdog 180)) = false) as H by reflexivity.
  split; [exact H | ].
  destruct (start_timeout_twice_is_once (with_running false (watchdog 180)) (quiet 0))
    as (self1 & w1 & H1 & H2 & H3 & H4).
  destruct (H4 H) as (_ & H5 & H6 & _).
  exists self1, w1. repeat split; assumption.
Defined.

Lemma timeout_monitor_unfold (fuel : nat) (self : TimeoutManager) (w : world) :
  is_running self = true ->
  _timeout_monitor (S fuel) self w =
    match timeout_monitor_body self w with
    | (Ok (Continue, self'), w') => _timeout_monitor fuel self' w'
    | (Ok (Break, self'), w') => (Ok (Some self'), w')
    | (Raise e, w') => (Raise e, w')
    end.
Proof.
  intros H. change (_timeout_monitor (S fuel) self w) with
    ((if is_running self then
        '(how, self') ← timeout_monitor_body self;
        match how with
        | Break => mret (Some self')
        | Continue => _timeout_monitor fuel self'
        end
      else mret (Some self)) w).
  rewrite H. mstep.
  destruct (timeout_monitor_body self w) as [[[[ | ] s] | e] w']; reflexivity.
Qed.

(** X15: a running monitor whose first [n] polls fall within the timeout
    and whose next poll does not, ends at that poll: it has read the clock
    [n + 1] times, printed the notice once and cleared the run flag of its
    app, and the watchdog itself is unchanged. *)
Theorem monitor_expires_after_quiet_polls (n : nat) :
  forall (self : TimeoutManager) (w : world) (fuel : nat),
    is_running self = true ->
    (forall k : nat, (k < n)%nat ->
       (time_at w (ticks w + k) - last_activity self < inject_Z (timeout_seconds self))%Q) ->
    (inject_Z (timeout_seconds self) <= time_at w (ticks w + n) - last_activity self)%Q ->
    _timeout_monitor (S n + fuel) self w =
      (Ok (Some self), expired self (set_ticks (ticks w + n) w)).
Proof.
  induction n as [ | n IH]; intros self w fuel Hrun Hquiet Hexp.
  - change (1 + fuel)%nat with (S fuel). rewrite timeout_monitor_unfold by exact Hrun.
    rewrite Nat.add_0_r in Hexp.
    rewrite (timeout_monitor_body_expiry self w Hrun Hexp).
    rewrite Nat.add_0_r. by destruct w.
  - change (S (S n) + fuel)%nat with (S (S n + fuel)).
    rewrite timeout_monitor_unfold by exact Hrun.
    assert (time_at w (ticks w) - last_activity self < inject_Z (timeout_seconds self))%Q as H0.
    { rewrite <- (Nat.add_0_r (ticks w)) at 1. apply Hquiet. lia. }
    rewrite (timeout_monitor_body_quiet self w Hrun H0).
    rewrite (IH self (ticked w) fuel Hrun).
    + unfold ticked. cbn [ticks set_ticks]. do 2 f_equal.
      replace (S (ticks w) + n)%nat with (ticks w + S n)%nat by lia. by destruct w.
    + intros k Hk. unfold ticked. cbn [ticks set_ticks time_at].
      replace (S (ticks w) + k)%nat with (ticks w + S k)%nat by lia. apply Hquiet. lia.
    + unfold ticked. cbn [ticks set_ticks time_at].
      replace (S (ticks w) + n)%nat with (ticks w + S n)%nat by lia. exact Hexp.
Qed.

Lemma monitor_expires_after_quiet_polls_witness :
  is_running (watchdog 2) = true /\
  (forall k : nat, (k < 2)%nat ->
     (time_at counting (ticks counting + k) - last_activity (watchdog 2)
      < inject_Z (timeout_seconds (watchdog 2)))%Q) /\
  (inject_Z (timeout_seconds (watchdog 2))
   <= time_at counting (ticks counting + 2) - last_activity (watchdog 2))%Q /\
  _timeout_monitor 5 (watchdog 2) counting =
    (Ok (Some (watchdog 2)), expired (watchdog 2) (set_ticks 2 counting)).
Proof.
  assert (is_running (watchdog 2) = true) as H1 by reflexivity.
  assert (forall k : nat, (k < 2)%nat ->
            (time_at counting (ticks counting + k) - last_activity (watchdog 2)
             < inject_Z (timeout_seconds (watchdog 2)))%Q) as H2.
  { intros k Hk. destruct k as [ | [ | k]]; [reflexivity | reflexivity | lia]. }
  assert ((inject_Z (timeout_seconds (watchdog 2))
           <= time_at counting (ticks counting + 2) - last_activity (watchdog 2))%Q) as H3
    by (vm_compute; discriminate).
  split; [exact H1 | split; [exact H2 | split; [exact H3 | ]]].
  exact (monitor_expires_after_quiet_polls 2 (watchdog 2) counting 2 H1 H2 H3).
Defined.


(** ** The handlers of the menu *)

Lemma input_eq (prompt line : string) (rest : list string) (w : world) :
  stdin w = line :: rest -> input prompt w = (Ok line, asked prompt rest w).
Proof. intros H. unfold input, asked. cbn [stdin set_stdout]. by rewrite H. Qed.

Lemma input_eof (prompt : string) (w : world) :
  stdin w = [] ->
  input prompt w = (Raise EOFError, set_stdout (stdout w ++ [Ask prompt]) w).
Proof. intros H. unfold input. cbn [stdin set_stdout]. by rewrite H. Qed.

Lemma touch_eq (self : TaskManagerApp) (w : world) :
  touch self w = (Ok (touched self w), ticked w).
Proof. reflexivity. Qed.

Lemma lstrip_blank (l : list ascii) :
  Forall (fun c => is_space c = true) l -> lstrip_chars l = [].
Proof. induction 1 as [ | c l Hc _ IH]; [reflexivity | ]. cbn. by rewrite Hc. Qed.

Lemma strip_blank (line : string) : blank line -> strip line = "".
Proof. intros H. unfold strip, strip_chars. by rewrite (lstrip_blank _ H). Qed.

Lemma print_eq (l : list frag) (w : world) : print l w = (Ok tt, say l w).
Proof. reflexivity. Qed.

Lemma forM_out {A : Type} (g : A -> M unit) (h : A -> list event) :
  (forall (x : A) (w : world), g x w = (Ok tt, set_stdout (stdout w ++ h x) w)) ->
  forall (l : list A) (w : world),
    forM_ g l w = (Ok tt, set_stdout (stdout w ++ concat (h <$> l)) w).
Proof.
  intros Hg. induction l as [ | x l IH]; intros w.
  - cbn. rewrite app_nil_r. by destruct w.
  - cbn [forM_ fmap list_fmap concat]. rewrite (bind_ok _ _ _ _ _ (Hg x w)).
    rewrite IH. cbn [stdout set_stdout]. rewrite <- app_assoc. reflexivity.
Qed.

Lemma concat_singletons {A B : Type} (k : A -> B) (l : list A) :
  concat ((fun x => [k x]) <$> l) = k <$> l.
Proof. induction l as [ | x l IH]; [reflexivity | ]. cbn. by rewrite IH. Qed.

Lemma list_tasks_eq (self : TaskManager) (w : world) :
  list_tasks self w = (Ok tt, listed self w).
Proof.
  unfold list_tasks, listed, listing.
  destruct (tasks self) as [ | t ts] eqn:Hts; [reflexivity | ].
  rewrite (bind_ok _ _ _ _ _ (print_eq _ w)).
  set (line := fun p : nat * Task =>
                 Out ([Lit (pretty (Z.of_nat p.1)); Lit ". "] ++ Task_str p.2)).
  assert (forall (x : nat * Task) (w0 : world),
            (fun '(i, task) =>
               print ([Lit (pretty (Z.of_nat i)); Lit ". "] ++ Task_str task)) x w0
            = (Ok tt, set_stdout (stdout w0 ++ [line x]) w0)) as Hline.
  { intros [i task] w0. reflexivity. }
  rewrite (bind_ok _ _ _ _ _ (forM_out _ _ Hline _ _)).
  rewrite print_eq. unfold say, set_stdout.
  cbn [fs stdout stdin ticks time_at datetime_at running_of threads]. do 2 f_equal.
  rewrite concat_singletons, fmap_imap.
  rewrite <- !app_assoc. reflexivity.
Qed.

Lemma listing_numbers (self : TaskManager) (i : nat) (t : Task) :
  tasks self !! i = Some t -> listing_line i t ∈ listing self.
Proof.
  intros Ht. unfold listing.
  destruct (tasks self) as [ | t0 ts] eqn:Hts; [by rewrite lookup_nil in Ht | ].
  rewrite elem_of_cons, elem_of_app. right. left.
  apply list_elem_of_lookup. exists i. rewrite list_lookup_imap. by rewrite Ht.
Qed.

(** X16: for a manager with tasks, [list_tasks] prints a heading, one
    line per task and an empty line; the line of the task at index [i]
    carries the number [i + 1], and that number given to [complete_task]
    or [delete_task] addresses the same task: [complete_task] marks the
    task of that line and no other, [delete_task] removes it and names
    its title. *)
Theorem list_tasks_numbers_match_the_operations
    (self : TaskManager) (w : world) (i : nat) (t : Task) :
  tasks self !! i = Some t ->
  let number := Z.of_nat (S i) in
  list_tasks self w = (Ok tt, set_stdout (stdout w ++ listing self) w) /\
  length (listing self) = S (S (length (tasks self))) /\
  Out ([Lit (pretty number); Lit ". "] ++ Task_str t) ∈ listing self /\
  (forall w' : world,
     let self' := set_tasks (<[i := completed_now t w']> (tasks self)) self in
     complete_task number self w' =
       (Ok self',
        saved self' (say [Lit "Task "; Lit (pretty number);
                          Lit " has been marked as completed!"] (ticked w')))) /\
  (forall w' : world,
     let self' := set_tasks (delete i (tasks self)) self in
     delete_task number self w' =
       (Ok self',
        saved self' (say [Lit "Task '"; Val (title t); Lit "' has been deleted!"] w'))).
Proof.
  intros Ht number.
  assert (Z.to_nat (number - 1) = i) as Hi by (unfold number; lia).
  assert (1 <= number) as H1 by (unfold number; lia).
  split; [apply list_tasks_eq | ]. split; [ | split; [ | split]].
  - unfold listing. destruct (tasks self) as [ | t0 ts] eqn:Hts;
      [by rewrite lookup_nil in Ht | ].
    cbn [length]. rewrite length_app, length_imap. cbn [length]. lia.
  - by apply (listing_numbers self i t).
  - intros w' self'. rewrite <- Hi in Ht.
    pose proof (complete_task_eq number self w' t Ht H1) as Heq. cbv zeta in Heq.
    rewrite Hi in Heq. exact Heq.
  - intros w' self'. rewrite <- Hi in Ht.
    pose proof (delete_task_eq number self w' t Ht H1) as Heq. cbv zeta in Heq.
    rewrite Hi in Heq. exact Heq.
Qed.

Lemma list_tasks_numbers_match_the_operations_witness :
  tasks two_tasks !! 1%nat = Some task_b /\
  length (listing two_tasks) = 4%nat /\
  Out ([Lit "2"; Lit ". "] ++ Task_str task_b) ∈ listing two_tasks /\
  complete_task 2 two_tasks (quiet 0) =
    (Ok (mkTaskManager [task_a; completed_now task_b (quiet 0)] "tasks.json"),
     written "tasks.json" [task_a; completed_now task_b (quiet 0)]
       (say [Lit "Task "; Lit "2"; Lit " has been marked as completed!"]
            (ticked (quiet 0)))) /\
  delete_task 2 two_tasks (quiet 0) =
    (Ok (mkTaskManager [task_a] "tasks.json"),
     written "tasks.json" [task_a]
       (say [Lit "Task '"; Val (PStr "Task 2"); Lit "' has been deleted!"] (quiet 0))).
Proof.
  assert (tasks two_tasks !! 1%nat = Some task_b) as H by reflexivity.
  split; [exact H | ].
  pose proof (list_tasks_numbers_match_the_operations two_tasks (quiet 0) 1 task_b H)
    as (_ & Hlen & Hline & Hc & Hd).
  split; [exact Hlen | split; [exact Hline | split]].
  - exact (Hc (quiet 0)).
  - exact (Hd (quiet 0)).
Defined.

Lemma stdin_saved (self : TaskManager) (w : world) : stdin (saved self w) = stdin w.
Proof. unfold saved. destruct (can_open_for_writing _ _); reflexivity. Qed.

(** X17: [handle_add_task] strips the title typed; when nothing is left
    (as for a line of whitespace) it prints that the title cannot be
    empty, resets the activity clock and neither asks for a description
    nor adds a task; otherwise it reads a second line and appends one
    pending task with the stripped title and description.  The lines
    typed are ASCII text, where [strip] is [str.strip]. *)
Theorem handle_add_task_wants_a_title
    (line : string) (rest : list string) (self : TaskManagerApp) (w : world) :
  stdin w = line :: rest ->
  isascii line = true ->
  let w1 := asked "Please enter task title: " rest w in
  (strip line = "" ->
     handle_add_task self w =
       (Ok (touched self w1), say [Lit "Task title cannot be empty!"] (ticked w1))) /\
  (blank line -> strip line = "") /\
  (strip line <> "" ->
     forall (line2 : string) (rest2 : list string),
       rest = line2 :: rest2 ->
       isascii line2 = true ->
       exists (self' : TaskManagerApp) (w' : world) (task : Task),
         handle_add_task self w = (Ok self', w') /\
         tasks (manager self') = (tasks (manager self) ++ [task])%list /\
         title task = PStr (strip line) /\
         description task = PStr (strip line2) /\
         completed task = PBool false /\
         stdin w' = rest2).
Proof.
  intros Hin _ w1. pose proof (input_eq "Please enter task title: " _ _ _ Hin) as H1.
  fold w1 in H1.
  split; [ | split; [apply strip_blank | ]].
  - intros Hs. unfold handle_add_task.
    rewrite (bind_ok _ _ _ _ _ H1). rewrite Hs.
    rewrite (bind_ok _ _ _ _ _ (touch_eq self w1)). reflexivity.
  - intros Hs line2 rest2 -> _. unfold handle_add_task.
    rewrite (bind_ok _ _ _ _ _ H1).
    rewrite (bind_ok _ _ _ _ _ (touch_eq self w1)).
    replace (negb (truthy (PStr (strip line)))) with false
      by (destruct (strip line); [done | reflexivity]).
    assert (stdin (ticked w1) = line2 :: rest2) as Hin2 by reflexivity.
    rewrite (bind_ok _ _ _ _ _
               (input_eq "Please enter task description (optional): " _ _ _ Hin2)).
    rewrite (bind_ok _ _ _ _ _ (touch_eq _ _)).
    pose proof (add_task_eq (PStr (strip line)) (PStr (strip line2)) (manager self)) as Hadd.
    cbv zeta in Hadd.
    cbn [manager touched set_timeout_manager].
    rewrite (bind_ok _ _ _ _ _ (Hadd _)).
    eexists _, _, _. split; [reflexivity | ].
    cbn [manager set_manager set_tasks tasks]. split; [reflexivity | ].
    repeat split. by rewrite stdin_saved.
Qed.

Lemma handle_add_task_wants_a_title_witness :
  stdin (typing ["   "; "x"]) = ["   "; "x"] /\
  isascii "   " = true /\
  strip "   " = "" /\
  handle_add_task app7 (typing ["   "; "x"]) =
    (Ok (touched app7 (asked "Please enter task title: " ["x"] (typing ["   "; "x"]))),
     say [Lit "Task title cannot be empty!"]
         (ticked (asked "Please enter task title: " ["x"] (typing ["   "; "x"])))) /\
  stdin (typing [" Buy milk "; " 2 litres"]) = [" Buy milk "; " 2 litres"] /\
  isascii " Buy milk " = true /\
  isascii " 2 litres" = true /\
  strip " Buy milk " <> "" /\
  exists (self' : TaskManagerApp) (w' : world) (task : Task),
    handle_add_task app7 (typing [" Buy milk "; " 2 litres"]) = (Ok self', w') /\
    tasks (manager self') = (tasks (manager app7) ++ [task])%list /\
    title task = PStr "Buy milk" /\
    description task = PStr "2 litres" /\
    completed task = PBool false /\
    stdin w' = [].
Proof.
  assert (stdin (typing ["   "; "x"]) = ["   "; "x"]) as H1 by reflexivity.
  assert (strip "   " = "") as H2 by reflexivity.
  assert (stdin (typing [" Buy milk "; " 2 litres"]) = [" Buy milk "; " 2 litres"]) as H3
    by reflexivity.
  assert (strip " Buy milk " <> "") as H4 by (vm_compute; discriminate).
  assert (isascii "   " = true) as H5 by reflexivity.
  assert (isascii " Buy milk " = true) as H6 by reflexivity.
  assert (isascii " 2 litres" = true) as H7 by reflexivity.
  split; [exact H1 | split; [exact H5 | split; [exact H2 | split;
    [ | split; [exact H3 | split; [exact H6 | split; [exact H7 | split; [exact H4 | ]]]]]]]].
  - exact (proj1 (handle_add_task_wants_a_title "   " ["x"] app7 _ H1 H5) H2).
  - exact (proj2 (proj2 (handle_add_task_wants_a_title " Buy milk " [" 2 litres"] app7 _
                           H3 H6))
             H4 " 2 litres" [] eq_refl H7).
Defined.


Lemma input_int_eq (prompt line : string) (rest : list string) (w : world) :
  stdin w = line :: rest ->
  input_int prompt w =
    (match py_int line with Some n => Ok n | None => Raise ValueError end,
     asked prompt rest w).
Proof.
  intros H. unfold input_int. rewrite (bind_ok _ _ _ _ _ (input_eq prompt _ _ _ H)).
  destruct (py_int line); reflexivity.
Qed.

(** X18: [handle_complete_task] and [handle_delete_task] print [No tasks
    available] and read no input when there are no tasks; with tasks they
    list them and ask for a number, and an answer that [int] rejects, or a
    number outside 1..count, leaves the manager unchanged with the message
    [Please enter a valid number!], respectively [Invalid task number!].
    The answer is a line of ASCII characters, at most 4300 of them, where
    [py_int] is [int]. *)
Theorem number_handlers_guard_the_manager (self : TaskManagerApp) (w : world) :
  (tasks (manager self) = [] ->
     handle_complete_task self w = (Ok self, say [Lit "No tasks available"] w) /\
     handle_delete_task self w = (Ok self, say [Lit "No tasks available"] w)) /\
  (forall (line : string) (rest : list string),
     tasks (manager self) <> [] ->
     stdin w = line :: rest ->
     plain_line line = true ->
     py_int line = None ->
     let wc := asked "Please enter the task number to complete: " rest
                     (listed (manager self) w) in
     let wd := asked "Please enter the task number to delete: " rest
                     (listed (manager self) w) in
     handle_complete_task self w =
       (Ok (touched self wc), say [Lit "Please enter a valid number!"] (ticked wc)) /\
     handle_delete_task self w =
       (Ok (touched self wd), say [Lit "Please enter a valid number!"] (ticked wd))) /\
  (forall (line : string) (rest : list string) (n : Z),
     tasks (manager self) <> [] ->
     stdin w = line :: rest ->
     plain_line line = true ->
     py_int line = Some n ->
     n <= 0 \/ n > len (tasks (manager self)) ->
     let wc := asked "Please enter the task number to complete: " rest
                     (listed (manager self) w) in
     let wd := asked "Please enter the task number to delete: " rest
                     (listed (manager self) w) in
     handle_complete_task self w =
       (Ok (touched self wc), say [Lit "Invalid task number!"] (ticked wc)) /\
     handle_delete_task self w =
       (Ok (touched self wd), say [Lit "Invalid task number!"] (ticked wd))).
Proof.
  split; [ | split].
  - intros Hnil.
    split; unfold handle_complete_task, handle_delete_task;
      rewrite (bind_ok _ _ _ _ _ (list_tasks_eq (manager self) w));
      unfold listed, listing; rewrite Hnil; reflexivity.
  - intros line rest Hne Hin _ Hp wc wd.
    assert (stdin (listed (manager self) w) = line :: rest) as Hin' by exact Hin.
    split; unfold handle_complete_task, handle_delete_task;
      rewrite (bind_ok _ _ _ _ _ (list_tasks_eq (manager self) w));
      (destruct (tasks (manager self)) as [ | t ts] eqn:Hts; [done | ]);
      unfold try_catch; mstep;
      rewrite (input_int_eq _ _ _ _ Hin'), Hp; reflexivity.
  - intros line rest n Hne Hin _ Hp Hout wc wd.
    assert (stdin (listed (manager self) w) = line :: rest) as Hin' by exact Hin.
    pose proof (complete_task_out_of_range n (manager self)) as Hc.
    pose proof (delete_task_out_of_range n (manager self)) as Hd.
    split; unfold handle_complete_task, handle_delete_task;
      rewrite (bind_ok _ _ _ _ _ (list_tasks_eq (manager self) w));
      (destruct (tasks (manager self)) as [ | t ts] eqn:Hts; [done | ]);
      unfold try_catch; mstep;
      rewrite (input_int_eq _ _ _ _ Hin'), Hp; cbv beta iota;
      unfold touch, reset_activity, time_time; mstep;
      cbn [manager set_timeout_manager];
      [rewrite Hc by exact Hout | rewrite Hd by exact Hout]; reflexivity.
Qed.

Lemma number_handlers_guard_the_manager_witness :
  tasks (manager app7_empty) = [] /\
  handle_complete_task app7_empty (typing ["1"]) =
    (Ok app7_empty, say [Lit "No tasks available"] (typing ["1"])) /\
  tasks (manager app7) <> [] /\
  plain_line "two" = true /\
  py_int "two" = None /\
  handle_delete_task app7 (typing ["two"]) =
    (Ok (touched app7 (asked "Please enter the task number to delete: " []
                             (listed (manager app7) (typing ["two"])))),
     say [Lit "Please enter a valid number!"]
         (ticked (asked "Please enter the task number to delete: " []
                        (listed (manager app7) (typing ["two"]))))) /\
  plain_line "4" = true /\
  py_int "4" = Some 4 /\
  handle_delete_task app7 (typing ["4"]) =
    (Ok (touched app7 (asked "Please enter the task number to delete: " []
                             (listed (manager app7) (typing ["4"])))),
     say [Lit "Invalid task number!"]
         (ticked (asked "Please enter the task number to delete: " []
                        (listed (manager app7) (typing ["4"]))))).
Proof.
  assert (tasks (manager app7_empty) = []) as H1 by reflexivity.
  assert (tasks (manager app7) <> []) as H2 by discriminate.
  assert (py_int "two" = None) as H3 by reflexivity.
  assert (py_int "4" = Some 4) as H4 by reflexivity.
  assert (4 <= 0 \/ 4 > len (tasks (manager app7))) as H5 by (right; reflexivity).
  assert (plain_line "two" = true) as H6 by reflexivity.
  assert (plain_line "4" = true) as H7 by reflexivity.
  split; [exact H1 | split; [ | split; [exact H2 | split; [exact H6 | split; [exact H3 | split;
    [ | split; [exact H7 | split; [exact H4 | ]]]]]]]].
  - exact (proj1 (proj1 (number_handlers_guard_the_manager app7_empty (typing ["1"])) H1)).
  - exact (proj2 (proj1 (proj2 (number_handlers_guard_the_manager app7 (typing ["two"])))
                    "two" [] H2 eq_refl H6 H3)).
  - exact (proj2 (proj2 (proj2 (number_handlers_guard_the_manager app7 (typing ["4"])))
                    "4" [] 4 H2 eq_refl H7 H4 H5)).
Defined.

(** X19: with no tasks [show_statistics] prints the three counts as 0
    and no completion rate: the division by the total is not reached. *)
Theorem show_statistics_without_tasks (self : TaskManagerApp) (w : world) :
  tasks (manager self) = [] ->
  show_statistics self w = (Ok tt, counts_shown 0 0 0 w).
Proof.
  intros H. unfold show_statistics, get_task_count. rewrite H. reflexivity.
Qed.

Lemma show_statistics_without_tasks_witness :
  tasks (manager app7_empty) = [] /\
  show_statistics app7_empty (quiet 0) = (Ok tt, counts_shown 0 0 0 (quiet 0)).
Proof.
  assert (tasks (manager app7_empty) = []) as H by reflexivity.
  split; [exact H | ].
  exact (show_statistics_without_tasks app7_empty (quiet 0) H).
Defined.

(** X20: [handle_clear_all_tasks] clears the tasks only when the answer,
    stripped and in lower case, is [yes] or [y]; every other answer prints
    [Operation cancelled.] and leaves the manager and the files as they
    were.  The answer is ASCII text, where [strip] and [lower] are
    [str.strip] and [str.lower]. *)
Theorem clear_needs_a_yes
    (line : string) (rest : list string) (self : TaskManagerApp) (w : world) :
  stdin w = line :: rest ->
  isascii line = true ->
  let w1 := asked "Are you sure you want to clear all tasks? (yes/no): " rest w in
  let confirm := lower (strip line) in
  (confirm <> "yes" -> confirm <> "y" ->
     handle_clear_all_tasks self w =
       (Ok (touched self w1), say [Lit "Operation cancelled."] (ticked w1))) /\
  (confirm = "yes" \/ confirm = "y" ->
     handle_clear_all_tasks self w =
       (Ok (set_manager (set_tasks [] (manager self)) (touched self w1)),
        say [Lit "All tasks have been cleared!"]
            (saved (set_tasks [] (manager self)) (ticked w1)))).
Proof.
  intros Hin _ w1 confirm.
  pose proof (input_eq "Are you sure you want to clear all tasks? (yes/no): " _ _ _ Hin) as H1.
  fold w1 in H1.
  split.
  - intros Hy1 Hy2. unfold handle_clear_all_tasks.
    rewrite (bind_ok _ _ _ _ _ H1). rewrite (bind_ok _ _ _ _ _ (touch_eq self w1)).
    fold confirm.
    replace (String.eqb confirm "yes") with false by (symmetry; by apply String.eqb_neq).
    replace (String.eqb confirm "y") with false by (symmetry; by apply String.eqb_neq).
    reflexivity.
  - intros Hy. unfold handle_clear_all_tasks.
    rewrite (bind_ok _ _ _ _ _ H1). rewrite (bind_ok _ _ _ _ _ (touch_eq self w1)).
    fold confirm.
    replace (String.eqb confirm "yes" || String.eqb confirm "y") with true
      by (destruct Hy as [-> | ->]; reflexivity).
    cbn [manager touched set_timeout_manager].
    rewrite (bind_ok _ _ _ _ _ (clear_all_tasks_eq _ _)). reflexivity.
Qed.

Lemma clear_needs_a_yes_witness :
  stdin (typing [" Yes "]) = [" Yes "] /\
  isascii " Yes " = true /\
  lower (strip " Yes ") = "yes" /\
  handle_clear_all_tasks app7 (typing [" Yes "]) =
    (Ok (set_manager (set_tasks [] (manager app7))
           (touched app7 (asked "Are you sure you want to clear all tasks? (yes/no): " []
                                (typing [" Yes "])))),
     say [Lit "All tasks have been cleared!"]
         (saved (set_tasks [] (manager app7))
            (ticked (asked "Are you sure you want to clear all tasks? (yes/no): " []
                           (typing [" Yes "]))))) /\
  stdin (typing ["yeah"]) = ["yeah"] /\
  isascii "yeah" = true /\
  lower (strip "yeah") <> "yes" /\
  lower (strip "yeah") <> "y" /\
  handle_clear_all_tasks app7 (typing ["yeah"]) =
    (Ok (touched app7 (asked "Are you sure you want to clear all tasks? (yes/no): " []
                             (typing ["yeah"]))),
     say [Lit "Operation cancelled."]
         (ticked (asked "Are you sure you want to clear all tasks? (yes/no): " []
                        (typing ["yeah"])))).
Proof.
  assert (stdin (typing [" Yes "]) = [" Yes "]) as H1 by reflexivity.
  assert (lower (strip " Yes ") = "yes") as H2 by reflexivity.
  assert (stdin (typing ["yeah"]) = ["yeah"]) as H3 by reflexivity.
  assert (lower (strip "yeah") <> "yes") as H4 by (vm_compute; discriminate).
  assert (lower (strip "yeah") <> "y") as H5 by (vm_compute; discriminate).
  assert (isascii " Yes " = true) as H6 by reflexivity.
  assert (isascii "yeah" = true) as H7 by reflexivity.
  split; [exact H1 | split; [exact H6 | split; [exact H2 | split; [ | split; [exact H3 | split;
    [exact H7 | split; [exact H4 | split; [exact H5 | ]]]]]]]].
  - exact (proj2 (clear_needs_a_yes " Yes " [] app7 _ H1 H6) (or_introl H2)).
  - exact (proj1 (clear_needs_a_yes "yeah" [] app7 _ H3 H7) H4 H5).
Defined.


(** ** The main loop *)

Lemma say_after (l : list frag) (ls : list event) (w : world) :
  say l (set_stdout (stdout w ++ ls) w) = set_stdout (stdout w ++ (ls ++ [Out l])) w.
Proof. unfold say, set_stdout. cbn. by rewrite app_assoc. Qed.

Lemma show_menu_eq (w : world) : show_menu w = (Ok tt, menu_shown w).
Proof.
  unfold show_menu, menu_shown, menu_lines.
  repeat rewrite (bind_ok _ _ _ _ _ (print_eq _ _)).
  rewrite print_eq.
  change (say [Lit (nl +:+ str_mul "=" 40)] w)
    with (set_stdout (stdout w ++ [Out [Lit (nl +:+ str_mul "=" 40)]]) w).
  repeat rewrite say_after. reflexivity.
Qed.

Lemma show_menu_frame (w : world) :
  exists w1 : world,
    show_menu w = (Ok tt, w1) /\
    fs w1 = fs w /\ stdin w1 = stdin w /\ running_of w1 = running_of w /\
    ticks w1 = ticks w /\ time_at w1 = time_at w /\ threads w1 = threads w.
Proof. exists (menu_shown w). split; [apply show_menu_eq | ]. by repeat split. Qed.

Lemma start_timeout_frame (self : TimeoutManager) (w : world) :
  exists (self1 : TimeoutManager) (w1 : world),
    start_timeout self w = (Ok self1, w1) /\
    fs w1 = fs w /\ stdin w1 = stdin w /\ running_of w1 = running_of w /\
    stdout w1 = stdout w.
Proof.
  unfold start_timeout. destruct (is_running self).
  - exists self, w. repeat split.
  - eexists _, _. split; [reflexivity | ]. repeat split.
Qed.

Lemma stop_timeout_eq (self : TimeoutManager) (w : world) :
  stop_timeout self w = (Ok (with_running false self), w).
Proof.
  unfold stop_timeout, thread_is_alive, thread_join, with_running.
  cbn [timeout_thread]. destruct (timeout_thread self) as [t | ]; [ | reflexivity].
  mstep. destruct (threads w !! t) as [[ | | ] | ]; reflexivity.
Qed.

Lemma get_running_eq (app : nat) (b : bool) (w : world) :
  running_of w !! app = Some b -> get_running app w = (Ok b, w).
Proof. intros H. unfold get_running. by rewrite H. Qed.

(** One pass of the loop on an answer that is 0 or not a number. *)
Lemma run_iteration_exit (line : string) (rest : list string)
    (self : TaskManagerApp) (w : world) :
  stdin w = line :: rest ->
  py_int line = None \/ py_int line = Some 0 ->
  exists (self1 : TaskManagerApp) (w1 : world),
    run_iteration self w = (Ok self1, w1) /\
    manager self1 = manager self /\ self_id self1 = self_id self /\
    fs w1 = fs w /\ stdin w1 = rest /\
    running_of w1 !! self_id self = Some false /\
    last (stdout w1) = Some (Out [Lit "Thank you for using! Goodbye!"]).
Proof.
  intros Hin Hp.
  destruct (show_menu_frame w) as (wm & Hmenu & Hfs & Hstdin & _).
  unfold run_iteration. rewrite (bind_ok _ _ _ _ _ Hmenu).
  assert (stdin wm = line :: rest) as Hin' by (by rewrite Hstdin).
  rewrite (bind_ok _ _ _ _ _ (get_user_choice_eq line rest self wm Hin')).
  replace (match py_int line with Some n => n | None => 0 end) with 0
    by (destruct Hp as [-> | ->]; reflexivity).
  rewrite (bind_ok _ _ _ _ _ (dispatch_exit _ _)).
  assert (running_of (exited (touched self wm) (answered rest wm)) !! self_id self
          = Some false) as Hoff.
  { unfold exited. cbn. apply lookup_insert_eq. }
  rewrite (bind_ok _ _ _ _ _ (get_running_eq (self_id self) false _ Hoff)).
  eexists _, _. split; [reflexivity | ]. repeat split.
  - exact Hfs.
  - exact Hoff.
  - unfold exited, say. cbn [stdout set_stdout set_running_of]. apply last_snoc.
Qed.

Lemma run_loop_stopped (fuel : nat) (self : TaskManagerApp) (w : world) :
  running_of w !! self_id self = Some false ->
  run_loop fuel self w = (Ok (Some self), w).
Proof.
  intros H. destruct fuel; cbn [run_loop];
    rewrite (bind_ok _ _ _ _ _ (get_running_eq _ _ _ H)); reflexivity.
Qed.

Lemma run_exit_branch
    (fuel : nat) (line : string) (rest : list string)
    (self : TaskManagerApp) (w : world) :
  stdin w = line :: rest ->
  py_int line = None \/ py_int line = Some 0 ->
  running_of w !! self_id self = Some true ->
  exists (self' : TaskManagerApp) (w' : world),
    run (S fuel) self w = (Ok (Some self'), w') /\
    is_running (timeout_manager self') = false /\
    running_of w' !! self_id self = Some false /\
    manager self' = manager self /\
    fs w' = fs w /\ stdin w' = rest /\
    last (stdout w') = Some (Out [Lit "Thank you for using! Goodbye!"]).
Proof.
  intros Hin Hp Hflag. unfold run.
  rewrite (bind_ok _ _ _ _ _ (print_eq _ _)), (bind_ok _ _ _ _ _ (print_eq _ _)).
  destruct (start_timeout_frame (timeout_manager self)
              (say [Lit "⏰ Session timeout: 3 minutes of inactivity will auto-exit the app"]
                 (say [Lit "Welcome to the Task Management System!"] w)))
    as (t & w0 & Hstart & Hfs0 & Hin0 & Hrun0 & _).
  rewrite (bind_ok _ _ _ _ _ Hstart).
  cbn [fs stdin running_of say set_stdout] in Hfs0, Hin0, Hrun0.
  destruct (run_iteration_exit line rest (set_timeout_manager t self) w0)
    as (self1 & w1 & Hiter & Hman & Hid & Hfs1 & Hin1 & Hflag1 & Hlast);
    [by rewrite Hin0 | exact Hp | ].
  cbn [manager self_id set_timeout_manager] in Hman, Hid, Hflag1.
  unfold run_guarded. cbn [run_loop].
  assert (running_of w0 !! self_id self = Some true) as Hon by (by rewrite Hrun0).
  rewrite (bind_ok _ _ _ _ _ (get_running_eq (self_id self) true w0 Hon)).
  rewrite (bind_ok _ _ _ _ _ Hiter).
  rewrite run_loop_stopped by (by rewrite Hid).
  rewrite stop_timeout_eq.
  eexists _, _. split; [reflexivity | ].
  cbn [timeout_manager set_timeout_manager manager with_running is_running].
  repeat split; try assumption. by rewrite Hfs1.
Qed.

(** X21: when the first answer to the menu is 0 or text that [int]
    rejects, [run] returns after one pass of the loop: the farewell is
    the last line printed, the run flag is cleared, the watchdog is
    stopped by the [finally] block, one line of input is used, and the
    tasks and the files are as before.  The answer is a line of ASCII
    characters, at most 4300 of them, where [py_int] is [int]. *)
Theorem run_ends_on_zero_or_on_text
    (fuel : nat) (line : string) (rest : list string)
    (self : TaskManagerApp) (w : world) :
  stdin w = line :: rest ->
  plain_line line = true ->
  py_int line = None \/ py_int line = Some 0 ->
  running_of w !! self_id self = Some true ->
  exists (self' : TaskManagerApp) (w' : world),
    run (S fuel) self w = (Ok (Some self'), w') /\
    is_running (timeout_manager self') = false /\
    running_of w' !! self_id self = Some false /\
    manager self' = manager self /\
    fs w' = fs w /\ stdin w' = rest /\
    last (stdout w') = Some (Out [Lit "Thank you for using! Goodbye!"]).
Proof.
  intros Hin _ Hp Hflag.
  exact (run_exit_branch fuel line rest self w Hin Hp Hflag).
Qed.

Lemma run_ends_on_zero_or_on_text_witness :
  stdin (typing ["0"; "1"]) = ["0"; "1"] /\
  plain_line "0" = true /\
  (py_int "0" = None \/ py_int "0" = Some 0) /\
  running_of (typing ["0"; "1"]) !! self_id app7 = Some true /\
  exists (self' : TaskManagerApp) (w' : world),
    run 1 app7 (typing ["0"; "1"]) = (Ok (Some self'), w') /\
    is_running (timeout_manager self') = false /\
    running_of w' !! self_id app7 = Some false /\
    manager self' = manager app7 /\
    fs w' = fs (typing ["0"; "1"]) /\ stdin w' = ["1"] /\
    last (stdout w') = Some (Out [Lit "Thank you for using! Goodbye!"]).
Proof.
  assert (stdin (typing ["0"; "1"]) = ["0"; "1"]) as H1 by reflexivity.
  assert (py_int "0" = None \/ py_int "0" = Some 0) as H2 by (right; reflexivity).
  assert (running_of (typing ["0"; "1"]) !! self_id app7 = Some true) as H3 by reflexivity.
  assert (plain_line "0" = true) as H4 by reflexivity.
  split; [exact H1 | split; [exact H4 | split; [exact H2 | split; [exact H3 | ]]]].
  exact (run_ends_on_zero_or_on_text 0 "0" ["1"] app7 _ H1 H4 H2 H3).
Defined.

(** X22: [get_user_choice] catches [ValueError] only: when standard
    input is at its end, the [EOFError] of [input] leaves [run], after the
    menu and the prompt were printed, with the files and the run flag
    untouched. *)
Theorem run_raises_at_end_of_input (fuel : nat) (self : TaskManagerApp) (w : world) :
  stdin w = [] ->
  running_of w !! self_id self = Some true ->
  exists w' : world,
    run (S fuel) self w = (Raise EOFError, w') /\
    fs w' = fs w /\
    running_of w' = running_of w /\
    last (stdout w') = Some (Ask "Please select an operation (0-9): ").
Proof.
  intros Hin Hflag. unfold run.
  rewrite (bind_ok _ _ _ _ _ (print_eq _ _)), (bind_ok _ _ _ _ _ (print_eq _ _)).
  destruct (start_timeout_frame (timeout_manager self)
              (say [Lit "⏰ Session timeout: 3 minutes of inactivity will auto-exit the app"]
                 (say [Lit "Welcome to the Task Management System!"] w)))
    as (t & w0 & Hstart & Hfs0 & Hin0 & Hrun0 & _).
  rewrite (bind_ok _ _ _ _ _ Hstart).
  cbn [fs stdin running_of say set_stdout] in Hfs0, Hin0, Hrun0.
  destruct (show_menu_frame w0) as (wm & Hmenu & Hfs & Hstdin & Hrun & _).
  assert (run_iteration (set_timeout_manager t self) w0
          = (Raise EOFError,
             set_stdout (stdout wm ++ [Ask "Please select an operation (0-9): "]) wm))
    as Hiter.
  { unfold run_iteration. rewrite (bind_ok _ _ _ _ _ Hmenu).
    unfold get_user_choice, try_catch, input_int. mstep.
    rewrite (input_eof _ wm) by (by rewrite Hstdin, Hin0). reflexivity. }
  unfold run_guarded. cbn [run_loop].
  assert (running_of w0 !! self_id self = Some true) as Hon by (by rewrite Hrun0).
  rewrite (bind_ok _ _ _ _ _ (get_running_eq (self_id self) true w0 Hon)).
  unfold mbind at 1, M_bind at 1. rewrite Hiter.
  rewrite stop_timeout_eq.
  eexists. split; [reflexivity | ]. cbn [fs running_of stdout set_stdout].
  split; [by rewrite Hfs | ]. split; [by rewrite Hrun | apply last_snoc].
Qed.

Lemma run_raises_at_end_of_input_witness :
  stdin (quiet 0) = [] /\
  running_of (quiet 0) !! self_id app7 = Some true /\
  exists w' : world,
    run 1 app7 (quiet 0) = (Raise EOFError, w') /\
    fs w' = fs (quiet 0) /\
    running_of w' = running_of (quiet 0) /\
    last (stdout w') = Some (Ask "Please select an operation (0-9): ").
Proof.
  assert (stdin (quiet 0) = []) as H1 by reflexivity.
  assert (running_of (quiet 0) !! self_id app7 = Some true) as H2 by reflexivity.
  split; [exact H1 | split; [exact H2 | ]].
  exact (run_raises_at_end_of_input 0 app7 (quiet 0) H1 H2).
Defined.


(** ** Starting the program *)

Lemma TaskManager_init_frame (path : string) (w : world) :
  exists (m : TaskManager) (w' : world),
    TaskManager_init path w = (Ok m, w') /\
    data_file m = path /\
    fs w' = fs w /\ stdin w' = stdin w /\
    running_of w' = running_of w /\ threads w' = threads w.
Proof.
  unfold TaskManager_init.
  destruct (fs w !! path) as [n | ] eqn:Hn.
  - rewrite (load_tasks_present (mkTaskManager [] path) w n Hn).
    assert (forall w1, clock_only w w1 ->
              fs w1 = fs w /\ stdin w1 = stdin w /\
              running_of w1 = running_of w /\ threads w1 = threads w) as Hframe.
    { intros w1 (H1 & _ & H3 & _ & _ & H6 & H7 & _). auto. }
    destruct n as [v | | ].
    + destruct (iterate v w) as [[items | e] w1] eqn:Hit.
      * assert (w1 = w) as -> by (destruct v; cbn in Hit; inversion Hit; reflexivity).
        destruct (mapM_from_dict_spec items w) as (Hclock & _ & _).
        destruct (mapM from_dict items w) as [[ts | e] w2]; cbn [snd] in Hclock;
          eexists _, _; (split; [reflexivity | ]); (split; [reflexivity | ]);
          apply (Hframe _ Hclock).
      * assert (w1 = w) as -> by (destruct v; cbn in Hit; inversion Hit; reflexivity).
        eexists _, _. split; [reflexivity | ]. by repeat split.
    + eexists _, _. split; [reflexivity | ]. by repeat split.
    + eexists _, _. split; [reflexivity | ]. by repeat split.
  - rewrite (load_tasks_missing (mkTaskManager [] path) w Hn).
    eexists _, _. split; [reflexivity | ]. by repeat split.
Qed.

(** X23: constructing the app succeeds in every world, whatever the
    backing file holds: the manager is on [tasks.json], the watchdog has a
    timeout of 180 seconds, is bound to the app and not yet running, the
    run flag is set, and no file, input or thread is touched. *)
Theorem app_construction_never_fails (self_id : nat) (w : world) :
  exists (self : TaskManagerApp) (w' : world),
    TaskManagerApp_init self_id w = (Ok self, w') /\
    App.self_id self = self_id /\
    data_file (manager self) = "tasks.json" /\
    timeout_seconds (timeout_manager self) = 180 /\
    is_running (timeout_manager self) = false /\
    timeout_thread (timeout_manager self) = None /\
    app_instance (timeout_manager self) = Some self_id /\
    running_of w' !! self_id = Some true /\
    fs w' = fs w /\ stdin w' = stdin w /\ threads w' = threads w.
Proof.
  destruct (TaskManager_init_frame "tasks.json" w)
    as (m & w1 & Hinit & Hfile & Hfs & Hin & _ & Hth).
  unfold TaskManagerApp_init. rewrite (bind_ok _ _ _ _ _ Hinit).
  eexists _, _. split; [reflexivity | ].
  cbn. repeat split; try assumption. apply lookup_insert_eq.
Qed.

(** X24: the program started and left at the first menu (by 0 or by text
    that [int] rejects) ends normally with the file system exactly as it
    found it, also when the backing file is missing or malformed: loading
    never writes, and leaving does not save.  The answer is a line of
    ASCII characters, at most 4300 of them, where [py_int] is [int]. *)
Theorem session_ended_at_once_touches_no_file
    (fuel : nat) (self_id : nat) (line : string) (rest : list string) (w : world) :
  stdin w = line :: rest ->
  plain_line line = true ->
  py_int line = None \/ py_int line = Some 0 ->
  exists (self : TaskManagerApp) (w' : world),
    main (S fuel) self_id w = (Ok (Some self), w') /\
    fs w' = fs w /\
    stdin w' = rest /\
    running_of w' !! self_id = Some false /\
    is_running (timeout_manager self) = false.
Proof.
  intros Hin _ Hp.
  destruct (TaskManager_init_frame "tasks.json" w)
    as (m & w1 & Hinit & Hfile & Hfs & Hin1 & _ & Hth).
  set (app := mkApp self_id m (set_app_instance self_id
                (mkTimeoutManager 180 (time_at w1 (ticks w1)) None false None))).
  set (w2 := ticked (set_running_of (<[self_id := true]> (running_of w1)) w1)).
  assert (TaskManagerApp_init self_id w = (Ok app, w2)) as Happ.
  { unfold TaskManagerApp_init. rewrite (bind_ok _ _ _ _ _ Hinit). reflexivity. }
  assert (stdin w2 = line :: rest) as Hin2 by (unfold w2; cbn; by rewrite Hin1).
  assert (running_of w2 !! App.self_id app = Some true) as Hon.
  { unfold w2, app. cbn. apply lookup_insert_eq. }
  destruct (run_exit_branch fuel line rest app w2 Hin2 Hp Hon)
    as (self' & w' & Hrun & Hstop & Hoff & _ & Hfs' & Hin' & _).
  exists self', w'. unfold main. rewrite (bind_ok _ _ _ _ _ Happ).
  split; [exact Hrun | ]. split; [ | split; [exact Hin' | split; [exact Hoff | exact Hstop]]].
  rewrite Hfs'. unfold w2. cbn. exact Hfs.
Qed.

Lemma session_ended_at_once_touches_no_file_witness :
  stdin (typing ["quit"]) = ["quit"] /\
  plain_line "quit" = true /\
  (py_int "quit" = None \/ py_int "quit" = Some 0) /\
  exists (self : TaskManagerApp) (w' : world),
    main 1 7 (typing ["quit"]) = (Ok (Some self), w') /\
    fs w' = fs (typing ["quit"]) /\
    stdin w' = [] /\
    running_of w' !! 7%nat = Some false /\
    is_running (timeout_manager self) = false.
Proof.
  assert (stdin (typing ["quit"]) = ["quit"]) as H1 by reflexivity.
  assert (py_int "quit" = None \/ py_int "quit" = Some 0) as H2 by (left; reflexivity).
  assert (plain_line "quit" = true) as H3 by reflexivity.
  split; [exact H1 | split; [exact H3 | split; [exact H2 | ]]].
  exact (session_ended_at_once_touches_no_file 0 7 "quit" [] _ H1 H3 H2).
Defined.


(** ** History, pending again, blank file names *)

Lemma get_task_history_eq (self : TaskManager) (w : world) :
  get_task_history self w = (Ok tt, set_stdout (stdout w ++ history self) w).
Proof.
  unfold get_task_history, history.
  destruct (tasks self) as [ | t ts] eqn:Hts; [reflexivity | ].
  rewrite (bind_ok _ _ _ _ _ (print_eq _ w)).
  set (h := fun p : nat * Task =>
              [ Out [Lit (pretty (Z.of_nat p.1)); Lit ". [";
                     Lit (if truthy (completed p.2) then "✓" else "○"); Lit "] ";
                     Val (title p.2)];
                Out [Lit "   Created: "; Strftime "%Y-%m-%d %H:%M" (created_at p.2)];
                Out [Lit "   Completed: ";
                     match completed_at p.2 with
                     | Some d => Strftime "%Y-%m-%d %H:%M" d
                     | None => Lit "Not completed"
                     end];
                Out [Lit "   Description: "; Val (description p.2)];
                Out [] ]).
  rewrite (forM_out _ h).
  - unfold say, set_stdout.
    cbn [fs stdout stdin ticks time_at datetime_at running_of threads].
    do 2 f_equal. rewrite <- app_assoc. cbn [app]. do 2 f_equal.
    rewrite fmap_imap. reflexivity.
  - intros [i task] w0.
    repeat rewrite (bind_ok _ _ _ _ _ (print_eq _ _)). rewrite print_eq.
    match goal with
    | |- context [say ?l w0] =>
        change (say l w0) with (set_stdout (stdout w0 ++ [Out l]) w0)
    end.
    repeat rewrite say_after. reflexivity.
Qed.

Lemma elem_of_concat_imap {A B : Type} (l : list A) :
  forall (f : nat -> A -> list B) (i : nat) (x : A) (e : B),
    l !! i = Some x -> e ∈ f i x -> e ∈ concat (imap f l).
Proof.
  induction l as [ | y l IH]; intros f i x e Hl He; [by rewrite lookup_nil in Hl | ].
  rewrite imap_cons. cbn [concat]. rewrite elem_of_app.
  destruct i as [ | i].
  - cbn in Hl. inversion Hl; subst. by left.
  - right. apply (IH (f ∘ S) i x e Hl He).
Qed.

Lemma length_concat_imap {A B : Type} (n : nat) (l : list A) :
  forall f : nat -> A -> list B,
    (forall i x, length (f i x) = n) ->
    length (concat (imap f l)) = (n * length l)%nat.
Proof.
  induction l as [ | y l IH]; intros f Hf; [cbn; lia | ].
  rewrite imap_cons. cbn [concat length]. rewrite length_app, Hf.
  rewrite (IH (f ∘ S)) by (intros i x; apply Hf). lia.
Qed.

(** X25: for a manager with tasks, [get_task_history] prints a heading
    and five lines per task, those of the task at index [i] numbered
    [i + 1]; a task without completion time shows [Not completed]. *)
Theorem history_shows_five_lines_per_task
    (self : TaskManager) (w : world) (i : nat) (t : Task) :
  tasks self !! i = Some t ->
  get_task_history self w = (Ok tt, set_stdout (stdout w ++ history self) w) /\
  length (history self) = S (5 * length (tasks self)) /\
  (forall e : event, e ∈ history_block i t -> e ∈ history self) /\
  (completed_at t = None ->
     Out [Lit "   Completed: "; Lit "Not completed"] ∈ history self).
Proof.
  intros Ht. split; [apply get_task_history_eq | ].
  assert (forall e : event, e ∈ history_block i t -> e ∈ history self) as Hin.
  { intros e He. unfold history.
    destruct (tasks self) as [ | t0 ts] eqn:Hts; [by rewrite lookup_nil in Ht | ].
    rewrite elem_of_cons. right. by eapply elem_of_concat_imap. }
  split; [ | split; [exact Hin | ]].
  - unfold history. destruct (tasks self) as [ | t0 ts] eqn:Hts;
      [by rewrite lookup_nil in Ht | ].
    cbn [length]. f_equal. by apply (length_concat_imap 5 (t0 :: ts) history_block).
  - intros Hnone. apply Hin. unfold history_block. rewrite Hnone.
    rewrite !elem_of_cons. right. right. by left.
Qed.

Lemma history_shows_five_lines_per_task_witness :
  tasks two_tasks !! 1%nat = Some task_b /\
  completed_at task_b = None /\
  length (history two_tasks) = 11%nat /\
  Out [Lit "   Completed: "; Lit "Not completed"] ∈ history two_tasks.
Proof.
  assert (tasks two_tasks !! 1%nat = Some task_b) as H1 by reflexivity.
  assert (completed_at task_b = None) as H2 by reflexivity.
  split; [exact H1 | split; [exact H2 | ]].
  pose proof (history_shows_five_lines_per_task two_tasks (quiet 0) 1 task_b H1)
    as (_ & Hlen & _ & Hnot).
  split; [exact Hlen | exact (Hnot H2)].
Defined.

(** X26: [mark_completed] makes a task count as completed and stamps it
    with the clock reading; [mark_pending] after it gives back a pending
    task that was never completed exactly as it was. *)
Theorem mark_pending_undoes_mark_completed (t : Task) (w : world) :
  completed t = PBool false ->
  completed_at t = None ->
  exists (t' : Task) (w' : world),
    mark_completed t w = (Ok t', w') /\
    is_done t' = true /\
    completed_at t' = Some (datetime_at w (ticks w)) /\
    mark_pending t' = t.
Proof.
  intros Hc Hn. eexists _, _. split; [reflexivity | ]. repeat split.
  destruct t. cbn in *. by subst.
Qed.

Lemma mark_pending_undoes_mark_completed_witness :
  completed task_b = PBool false /\
  completed_at task_b = None /\
  exists (t' : Task) (w' : world),
    mark_completed task_b (quiet 0) = (Ok t', w') /\
    is_done t' = true /\
    completed_at t' = Some noon /\
    mark_pending t' = task_b.
Proof.
  assert (completed task_b = PBool false) as H1 by reflexivity.
  assert (completed_at task_b = None) as H2 by reflexivity.
  split; [exact H1 | split; [exact H2 | ]].
  exact (mark_pending_undoes_mark_completed task_b (quiet 0) H1 H2).
Defined.

(** X27: an empty file name (after stripping) makes [handle_import_tasks]
    print [Please enter a valid filename!] without calling the manager,
    and makes [handle_export_tasks] export to the automatically named file
    [tasks_export_<timestamp>.json]. *)
Theorem blank_file_names
    (line : string) (rest : list string) (self : TaskManagerApp) (w : world) :
  stdin w = line :: rest ->
  strip line = "" ->
  let wi := asked "Enter filename to import from: " rest w in
  let we := asked "Enter filename for export (or press Enter for auto-generated name): "
                  rest w in
  handle_import_tasks self w =
    (Ok (touched self wi), say [Lit "Please enter a valid filename!"] (ticked wi)) /\
  handle_export_tasks self w =
    (Ok (touched self we),
     exported ("tasks_export_" +:+ strftime_compact (datetime_at we (ticks (ticked we)))
               +:+ ".json")
              (manager self) (ticked (ticked we))).
Proof.
  intros Hin Hs wi we. split.
  - unfold handle_import_tasks.
    rewrite (bind_ok _ _ _ _ _ (input_eq _ _ _ _ Hin)).
    rewrite (bind_ok _ _ _ _ _ (touch_eq _ _)). rewrite Hs. reflexivity.
  - unfold handle_export_tasks.
    rewrite (bind_ok _ _ _ _ _ (input_eq _ _ _ _ Hin)).
    rewrite (bind_ok _ _ _ _ _ (touch_eq _ _)). rewrite Hs.
    cbn [truthy String.length Nat.eqb negb manager touched set_timeout_manager].
    rewrite (bind_ok _ _ _ _ _ (export_tasks_auto_eq _ _)). reflexivity.
Qed.

Lemma blank_file_names_witness :
  stdin (typing ["  "]) = ["  "] /\
  strip "  " = "" /\
  handle_import_tasks app7 (typing ["  "]) =
    (Ok (touched app7 (asked "Enter filename to import from: " [] (typing ["  "]))),
     say [Lit "Please enter a valid filename!"]
         (ticked (asked "Enter filename to import from: " [] (typing ["  "])))).
Proof.
  assert (stdin (typing ["  "]) = ["  "]) as H1 by reflexivity.
  assert (strip "  " = "") as H2 by reflexivity.
  split; [exact H1 | split; [exact H2 | ]].
  exact (proj1 (blank_file_names "  " [] app7 _ H1 H2)).
Defined.
